(** * The analytics aggregation engine of the FoodPanda dashboard

    A shallow embedding of [analyticsService] (analytics.service.ts) and of
    the part of the JavaScript runtime and of lodash it relies on, followed
    by the properties of the engine.

    Conventions of the embedding:
    - a JavaScript number is an exact rational extended with [NaN] and the
      two infinities ([num]); rounding of IEEE doubles and the sign of zero
      are not modelled;
    - a JavaScript string is a [string] of bytes; case mapping and
      white space are the ASCII ones;
    - a plain object used as a dictionary is an association list in
      insertion order ([obj]), enumerated as the language prescribes
      (array-index keys first, ascending, then the other keys in insertion
      order);
    - what the engine (not the language) decides is a parameter, gathered
      in [Runtime]: which date strings parse, the offset of local time and
      the digits printed for a number that is not a small integer;
    - a thrown exception is the [Throw] case of [completion]. *)

From Stdlib Require Import String Ascii List ZArith QArith Qround Qabs Lia Bool.
From Stdlib Require Import DecimalString Permutation Sorted.
Import ListNotations.

Local Open Scope string_scope.
Local Open Scope Z_scope.
Local Open Scope Q_scope.

(** ** JavaScript numbers *)

Module JS.

Inductive num : Type :=
| Fin (q : Q)
| NaN
| PInf
| NInf.

Definition ofZ (z : Z) : num := Fin (inject_Z z).
Definition ofNat (n : nat) : num := Fin (inject_Z (Z.of_nat n)).

(** A date getter yields an integer or NaN: [None] stands for NaN. *)
Definition ofInt (i : option Z) : num :=
  match i with Some z => ofZ z | None => NaN end.

Definition Qltb (a b : Q) : bool := negb (Qle_bool b a).

Definition neg (a : num) : num :=
  match a with
  | Fin q => Fin (- q)
  | NaN => NaN
  | PInf => NInf
  | NInf => PInf
  end.

Definition add (a b : num) : num :=
  match a, b with
  | NaN, _ | _, NaN => NaN
  | Fin x, Fin y => Fin (x + y)
  | PInf, NInf | NInf, PInf => NaN
  | PInf, _ | _, PInf => PInf
  | NInf, _ | _, NInf => NInf
  end.

Definition sub (a b : num) : num := add a (neg b).

(** The infinity with the sign of [q] times the sign of [pos]; NaN for
    a zero [q]. *)
Definition infOfSign (pos : bool) (q : Q) : num :=
  if Qeq_bool q 0 then NaN
  else if Bool.eqb pos (Qltb 0 q) then PInf else NInf.

Definition mul (a b : num) : num :=
  match a, b with
  | NaN, _ | _, NaN => NaN
  | Fin x, Fin y => Fin (x * y)
  | PInf, Fin q | Fin q, PInf => infOfSign true q
  | NInf, Fin q | Fin q, NInf => infOfSign false q
  | PInf, PInf | NInf, NInf => PInf
  | PInf, NInf | NInf, PInf => NInf
  end.

Definition div (a b : num) : num :=
  match a, b with
  | NaN, _ | _, NaN => NaN
  | Fin x, Fin y =>
      if Qeq_bool y 0 then
        (if Qeq_bool x 0 then NaN else if Qltb 0 x then PInf else NInf)
      else Fin (x / y)
  | Fin _, PInf | Fin _, NInf => Fin 0
  | PInf, Fin y => if Qltb y 0 then NInf else PInf
  | NInf, Fin y => if Qltb y 0 then PInf else NInf
  | _, _ => NaN
  end.

(** [a < b]; false as soon as one side is NaN. *)
Definition lt (a b : num) : bool :=
  match a, b with
  | NaN, _ | _, NaN => false
  | Fin x, Fin y => Qltb x y
  | NInf, NInf | PInf, _ => false
  | NInf, _ => true
  | Fin _, PInf => true
  | Fin _, NInf => false
  end.

Definition gt (a b : num) : bool := lt b a.

(** [a === b] on numbers. *)
Definition eq (a b : num) : bool :=
  match a, b with
  | Fin x, Fin y => Qeq_bool x y
  | PInf, PInf | NInf, NInf => true
  | _, _ => false
  end.

Definition le (a b : num) : bool := lt a b || eq a b.
Definition ge (a b : num) : bool := le b a.
Definition ne (a b : num) : bool := negb (eq a b).

(** [Math.max(a, b)] and [Math.min(a, b)]. *)
Definition max (a b : num) : num :=
  match a, b with
  | NaN, _ | _, NaN => NaN
  | _, _ => if lt a b then b else a
  end.

Definition min (a b : num) : num :=
  match a, b with
  | NaN, _ | _, NaN => NaN
  | _, _ => if lt b a then b else a
  end.

(** [Math.max(...l)] and [Math.min(...l)]. *)
Definition maxOf (l : list num) : num := fold_left max l NInf.
Definition minOf (l : list num) : num := fold_left min l PInf.

(** Equality of numbers up to the representation of the rational. *)
Definition same (a b : num) : Prop :=
  match a, b with
  | Fin x, Fin y => x == y
  | NaN, NaN | PInf, PInf | NInf, NInf => True
  | _, _ => False
  end.

Definition isFinite (a : num) : bool :=
  match a with Fin _ => true | _ => false end.

(** Arithmetic on the integers-or-NaN of the date getters. *)
Definition iadd (a b : option Z) : option Z :=
  match a, b with Some x, Some y => Some (x + y)%Z | _, _ => None end.
Definition isub (a b : option Z) : option Z :=
  match a, b with Some x, Some y => Some (x - y)%Z | _, _ => None end.
Definition imul (a b : option Z) : option Z :=
  match a, b with Some x, Some y => Some (x * y)%Z | _, _ => None end.
(** [a === k] for an integer constant [k]. *)
Definition ieq (a : option Z) (k : Z) : bool :=
  match a with Some x => (x =? k)%Z | None => false end.

End JS.

(** ** JavaScript strings *)

Module Str.

Definition isUpper (c : ascii) : bool :=
  let n := nat_of_ascii c in (65 <=? n)%nat && (n <=? 90)%nat.

Definition lowerChar (c : ascii) : ascii :=
  if isUpper c then ascii_of_nat (nat_of_ascii c + 32) else c.

(** [s.toLowerCase()] *)
Fixpoint toLowerCase (s : string) : string :=
  match s with
  | EmptyString => EmptyString
  | String c r => String (lowerChar c) (toLowerCase r)
  end.

(** [s.includes(t)] *)
Fixpoint includes (s t : string) : bool :=
  prefix t s ||
  match s with
  | EmptyString => false
  | String _ r => includes r t
  end.

(** White space and line terminators (TAB, LF, VT, FF, CR, SP). *)
Definition isSpace (c : ascii) : bool :=
  let n := nat_of_ascii c in
  ((9 <=? n)%nat && (n <=? 13)%nat) || (n =? 32)%nat.

Fixpoint trimStart (s : string) : string :=
  match s with
  | EmptyString => EmptyString
  | String c r => if isSpace c then trimStart r else s
  end.

Fixpoint trimEnd (s : string) : string :=
  match s with
  | EmptyString => EmptyString
  | String c r =>
      match trimEnd r with
      | EmptyString => if isSpace c then EmptyString else String c EmptyString
      | r' => String c r'
      end
  end.

(** [s.trim()] *)
Definition trim (s : string) : string := trimEnd (trimStart s).

(** [l.join(sep)] *)
Fixpoint join (sep : string) (l : list string) : string :=
  match l with
  | [] => EmptyString
  | [x] => x
  | x :: r => x ++ sep ++ join sep r
  end.

Fixpoint replicate (n : nat) (c : ascii) : string :=
  match n with
  | O => EmptyString
  | S k => String c (replicate k c)
  end.

(** [s.padStart(n, '0')] *)
Definition padStart0 (n : nat) (s : string) : string :=
  replicate (n - String.length s) "0"%char ++ s.

(** [s.slice(0, n)] for a non-negative literal [n]. *)
Definition slice0 (n : nat) (s : string) : string := substring 0 n s.

(** The decimal digits of an integer, with [-] before a negative one. *)
Definition ofZ (z : Z) : string := NilZero.string_of_int (Z.to_int z).

(** [String(i)] for the integer-or-NaN of a date getter. *)
Definition ofInt (i : option Z) : string :=
  match i with Some z => ofZ z | None => "NaN" end.

Definition digitValue (radix : Z) (c : ascii) : option Z :=
  let n := Z.of_nat (nat_of_ascii c) in
  let v :=
    if (48 <=? n)%Z && (n <=? 57)%Z then Some (n - 48)%Z
    else if (97 <=? n)%Z && (n <=? 122)%Z then Some (n - 87)%Z
    else if (65 <=? n)%Z && (n <=? 90)%Z then Some (n - 55)%Z
    else None in
  match v with
  | Some d => if (d <? radix)%Z then Some d else None
  | None => None
  end.

(** The value of the longest prefix of digits of [s], and whether one
    digit at least was read. *)
Fixpoint readDigits (radix : Z) (s : string) (acc : Z) (seen : bool)
  : option Z :=
  match s with
  | EmptyString => if seen then Some acc else None
  | String c r =>
      match digitValue radix c with
      | Some d => readDigits radix r (acc * radix + d)%Z true
      | None => if seen then Some acc else None
      end
  end.

(** [parseInt(s)] without a radix; [None] is NaN. *)
Definition parseInt (s : string) : option Z :=
  let s1 := trimStart s in
  let '(sign, s2) :=
    match s1 with
    | String "-"%char r => ((-1)%Z, r)
    | String "+"%char r => (1%Z, r)
    | _ => (1%Z, s1)
    end in
  let '(radix, s3) :=
    match s2 with
    | String "0"%char (String "x"%char r) => (16%Z, r)
    | String "0"%char (String "X"%char r) => (16%Z, r)
    | _ => (10%Z, s2)
    end in
  option_map (Z.mul sign) (readDigits radix s3 0%Z false).

(** The keys that the language calls array indices: the canonical
    decimal form of an integer of [0, 2^32 - 2]. *)
Definition arrayIndex (s : string) : option Z :=
  match readDigits 10 s 0%Z false with
  | Some n =>
      if String.eqb (ofZ n) s && (n <=? 4294967294)%Z then Some n else None
  | None => None
  end.

End Str.

(** ** Arrays *)

Module Arr.

Section Sort.
Context {A : Type}.
(** [le a b] says that the comparator does not put [a] after [b]. *)
Variable le : A -> A -> bool.

Fixpoint insert (x : A) (l : list A) : list A :=
  match l with
  | [] => [x]
  | y :: r => if le x y then x :: l else y :: insert x r
  end.

(** [l.sort(cmp)]: the sort is stable; elements that compare equal
    keep their order. *)
Fixpoint sort (l : list A) : list A :=
  match l with
  | [] => []
  | x :: r => insert x (sort r)
  end.
End Sort.

(** The comparator [(a, b) => key(a) - key(b)] on numbers: a NaN
    difference counts as zero. *)
Definition byNumber {A : Type} (key : A -> JS.num) (a b : A) : bool :=
  match JS.sub (key a) (key b) with
  | JS.NaN => true
  | d => JS.le d (JS.Fin 0)
  end.

(** [l.sort()] without a comparator orders by the string forms. *)
Definition sortStrings (l : list string) : list string :=
  sort String.leb l.

(** [l.some(p)] *)
Definition some {A : Type} (p : A -> bool) (l : list A) : bool := existsb p l.

(** [l.slice(0, n)] and [l.slice(-n)] for a positive literal [n]. *)
Definition sliceFirst {A : Type} (n : nat) (l : list A) : list A := firstn n l.
Definition sliceLast {A : Type} (n : nat) (l : list A) : list A :=
  skipn (List.length l - n) l.

(** [l.flatMap(f)] *)
Definition flatMap {A B : Type} (f : A -> list B) (l : list A) : list B :=
  flat_map f l.

End Arr.

(** ** Plain objects used as dictionaries *)

Module Obj.

Definition obj (V : Type) : Type := list (string * V).

Fixpoint get {V : Type} (k : string) (o : obj V) : option V :=
  match o with
  | [] => None
  | (k', v) :: r => if String.eqb k k' then Some v else get k r
  end.

(** [o[k] = v]: an existing key keeps its place, a new one goes last. *)
Fixpoint set {V : Type} (k : string) (v : V) (o : obj V) : obj V :=
  match o with
  | [] => [(k, v)]
  | (k', v') :: r =>
      if String.eqb k k' then (k', v) :: r else (k', v') :: set k v r
  end.

(** [o[k] = v] for a number [v] and a key [k] that the input chooses,
    on an object made by [{}]: the key [__proto__] names the prototype
    of the object, and assigning a number to it creates no key. *)
Definition assign {V : Type} (k : string) (v : V) (o : obj V) : obj V :=
  if String.eqb k "__proto__" then o else set k v o.

Definition indexEntries {V : Type} (o : obj V) : list (Z * (string * V)) :=
  flat_map (fun e => match Str.arrayIndex (fst e) with
                     | Some n => [(n, e)]
                     | None => []
                     end) o.

Definition nameEntries {V : Type} (o : obj V) : obj V :=
  filter (fun e => match Str.arrayIndex (fst e) with
                   | Some _ => false
                   | None => true
                   end) o.

(** [Object.entries(o)]: array-index keys ascending, then the others
    in the order they were created. *)
Definition entries {V : Type} (o : obj V) : list (string * V) :=
  (map snd (Arr.sort (fun a b => (fst a <=? fst b)%Z) (indexEntries o))
   ++ nameEntries o)%list.

Definition keys {V : Type} (o : obj V) : list string := map fst (entries o).
Definition values {V : Type} (o : obj V) : list V := map snd (entries o).

Definition mapValues {V W : Type} (f : V -> W) (o : obj V) : obj W :=
  map (fun e => (fst e, f (snd e))) o.

End Obj.

(** ** lodash *)

Module Lodash.
Import Obj.

(** [_.sum(l)]: the first element starts the sum; 0 for no element. *)
Definition sum (l : list JS.num) : JS.num :=
  match l with
  | [] => JS.Fin 0
  | x :: r => fold_left JS.add r x
  end.

(** [_.sumBy(l, f)] *)
Definition sumBy {A : Type} (f : A -> JS.num) (l : list A) : JS.num :=
  sum (map f l).

(** [_.mean(l)]: NaN for no element. *)
Definition mean (l : list JS.num) : JS.num :=
  match l with
  | [] => JS.NaN
  | _ => JS.div (sum l) (JS.ofNat (List.length l))
  end.

(** [_.meanBy(l, f)] *)
Definition meanBy {A : Type} (f : A -> JS.num) (l : list A) : JS.num :=
  mean (map f l).

Definition countStep (acc : obj nat) (k : string) : obj nat :=
  match get k acc with
  | Some n => set k (S n) acc
  | None => set k 1%nat acc
  end.

(** [_.countBy(l, f)]: how many elements have each key, keys in the
    order of their first element. *)
Definition countBy {A : Type} (f : A -> string) (l : list A) : obj nat :=
  fold_left (fun acc x => countStep acc (f x)) l [].

Definition groupStep {A : Type} (acc : obj (list A)) (k : string) (x : A)
  : obj (list A) :=
  match get k acc with
  | Some g => set k (g ++ [x])%list acc
  | None => set k [x] acc
  end.

(** [_.groupBy(l, f)] *)
Definition groupBy {A : Type} (f : A -> string) (l : list A) : obj (list A) :=
  fold_left (fun acc x => groupStep acc (f x) x) l [].

End Lodash.

(** ** Exceptions *)

(** The two errors the engine can run into: [Date.prototype.toISOString]
    on an invalid date (a RangeError) and a field read on [undefined]
    (a TypeError).  Their messages differ between engines and are left
    out. *)
Inductive exn : Type :=
| RangeError
| TypeError.

Inductive completion (A : Type) : Type :=
| Normal (a : A)
| Throw (e : exn).
Arguments Normal {A} a.
Arguments Throw {A} e.

Definition bind {A B : Type} (c : completion A) (k : A -> completion B)
  : completion B :=
  match c with
  | Normal a => k a
  | Throw e => Throw e
  end.

Declare Scope completion_scope.
Delimit Scope completion_scope with completion.
Notation "x <- c ;; k" := (bind c (fun x => k))
  (at level 61, c at next level, right associativity) : completion_scope.
Local Open Scope completion_scope.

(** A loop whose body may throw: the first exception ends it. *)
Fixpoint foldM {A S : Type} (f : S -> A -> completion S) (l : list A) (s : S)
  : completion S :=
  match l with
  | [] => Normal s
  | x :: r => s' <- f s x ;; foldM f r s'
  end.

Definition mapM {A B : Type} (f : A -> completion B) (l : list A)
  : completion (list B) :=
  foldM (fun acc x => y <- f x ;; Normal (acc ++ [y])%list) l [].

(** [l[i].field]: reading a field of a missing element throws. *)
Definition at_ {A : Type} (l : list A) (i : nat) : completion A :=
  match nth_error l i with
  | Some x => Normal x
  | None => Throw TypeError
  end.

(** ** What the engine decides *)

Record Runtime : Type := {
  (** [Date.parse]: the time value in milliseconds, [None] for a string
      that does not parse (Invalid Date). *)
  dateParse : string -> option Z;
  (** The offset of local time at a given UTC time, in milliseconds. *)
  localTZA : Z -> Z;
  (** The digits of a number that is not an integer below 10^21. *)
  digitsOf : Q -> string
}.

(** ** Dates *)

Module Date.

Definition msPerDay : Z := 86400000.
Definition msPerHour : Z := 3600000.

Definition Day (t : Z) : Z := (t / msPerDay)%Z.
Definition WeekDay (t : Z) : Z := ((Day t + 4) mod 7)%Z.
Definition HourFromTime (t : Z) : Z := ((t / msPerHour) mod 24)%Z.
Definition MinFromTime (t : Z) : Z := ((t / 60000) mod 60)%Z.
Definition SecFromTime (t : Z) : Z := ((t / 1000) mod 60)%Z.
Definition msFromTime (t : Z) : Z := (t mod 1000)%Z.

(** Year, month (1 to 12) and day of the month of a day number counted
    from 1970-01-01, in the proleptic Gregorian calendar. *)
Definition civil (days : Z) : Z * Z * Z :=
  (let z := days + 719468 in
   let era := z / 146097 in
   let doe := z - era * 146097 in
   let yoe := (doe - doe / 1460 + doe / 36524 - doe / 146096) / 365 in
   let doy := doe - (365 * yoe + yoe / 4 - yoe / 100) in
   let mp := (5 * doy + 2) / 153 in
   let d := doy - (153 * mp + 2) / 5 + 1 in
   let m := if mp <? 10 then mp + 3 else mp - 9 in
   let y := yoe + era * 400 + (if m <=? 2 then 1 else 0) in
   (y, m, d))%Z.

Definition YearFromTime (t : Z) : Z := fst (fst (civil (Day t))).
(** Months count from 0, as [getMonth] does. *)
Definition MonthFromTime (t : Z) : Z := (snd (fst (civil (Day t))) - 1)%Z.
Definition DateFromTime (t : Z) : Z := snd (civil (Day t)).

Section WithRuntime.
Variable rt : Runtime.

(** [new Date(s)]: a date is its time value, [None] when invalid. *)
Definition t := option Z.
Definition new (s : string) : t := dateParse rt s.

Definition LocalTime (u : Z) : Z := (u + localTZA rt u)%Z.

Definition getTime (d : t) : JS.num := JS.ofInt d.
Definition getFullYear (d : t) : option Z :=
  option_map (fun u => YearFromTime (LocalTime u)) d.
Definition getMonth (d : t) : option Z :=
  option_map (fun u => MonthFromTime (LocalTime u)) d.
Definition getDay (d : t) : option Z :=
  option_map (fun u => WeekDay (LocalTime u)) d.
Definition getHours (d : t) : option Z :=
  option_map (fun u => HourFromTime (LocalTime u)) d.
End WithRuntime.

Definition dayNames : list string :=
  ["Sunday"; "Monday"; "Tuesday"; "Wednesday"; "Thursday"; "Friday";
   "Saturday"].

(** [d.toLocaleDateString('en-US', { weekday: 'long' })] *)
Definition weekdayLong (rt : Runtime) (d : t) : string :=
  match getDay rt d with
  | Some w => nth (Z.to_nat w) dayNames "Invalid Date"
  | None => "Invalid Date"
  end.

Definition pad (n : nat) (z : Z) : string := Str.padStart0 n (Str.ofZ z).

Definition isoYear (y : Z) : string :=
  if ((0 <=? y) && (y <=? 9999))%Z then pad 4 y
  else ((if (y <? 0)%Z then "-" else "+") ++ pad 6 (Z.abs y))%string.

(** [d.toISOString()]: the UTC fields; an invalid date throws. *)
Definition toISOString (d : t) : completion string :=
  match d with
  | None => Throw RangeError
  | Some u =>
      Normal (isoYear (YearFromTime u) ++ "-" ++ pad 2 (MonthFromTime u + 1)
              ++ "-" ++ pad 2 (DateFromTime u) ++ "T"
              ++ pad 2 (HourFromTime u) ++ ":" ++ pad 2 (MinFromTime u)
              ++ ":" ++ pad 2 (SecFromTime u) ++ "." ++ pad 3 (msFromTime u)
              ++ "Z")%string
  end.

End Date.

(** ** Printing numbers *)

Definition tenTo21 : Q := inject_Z (10 ^ 21).

Definition isSmallInteger (q : Q) : bool :=
  Qeq_bool q (inject_Z (Qfloor q)) && JS.Qltb (Qabs q) tenTo21.

(** [String(x)] and [`${x}`] *)
Definition numberToString (rt : Runtime) (x : JS.num) : string :=
  match x with
  | JS.NaN => "NaN"
  | JS.PInf => "Infinity"
  | JS.NInf => "-Infinity"
  | JS.Fin q => if isSmallInteger q then Str.ofZ (Qfloor q) else digitsOf rt q
  end.

(** [x.toFixed(f)]: the nearest multiple of [10^-f], the larger one
    on a tie, printed with [f] decimals. *)
Definition toFixed (rt : Runtime) (f : nat) (x : JS.num) : string :=
  match x with
  | JS.Fin q =>
      let negative := JS.Qltb q 0 in
      let a := if negative then - q else q in
      let m :=
        if Qle_bool tenTo21 a then numberToString rt (JS.Fin a)
        else
          let n := Qfloor (a * inject_Z (10 ^ Z.of_nat f) + (1 # 2)) in
          let d := Str.ofZ n in
          match f with
          | O => d
          | _ =>
              let d' := Str.padStart0 (f + 1) d in
              let k := String.length d' in
              (substring 0 (k - f) d' ++ "." ++ substring (k - f) f d')%string
          end in
      ((if negative then "-" else "") ++ m)%string
  | _ => numberToString rt x
  end.

(** ** Data model (types of the engine) *)

Import Obj.

Record OrderItem : Type := {
  name : string;
  quantity : Q;
  price : Q
}.

(** The numeric fields of an order are finite numbers. *)
Record Order : Type := {
  id : string;
  order_code : string;
  restaurant_name : string;
  total_value : Q;
  subtotal : Q;
  delivery_fee : Q;
  service_fee : Q;
  voucher_discount : Q;
  status : string;
  date : string;
  items : list OrderItem;
  payment_method : string
}.

Record SpendingCategory : Type := {
  sc_type : string;
  sc_description : string;
  sc_color : string
}.

Record SpendingAnalytics : Type := {
  total_spent : JS.num;
  average_order_value : JS.num;
  median_order_value : JS.num;
  total_delivery_fees : JS.num;
  total_service_fees : JS.num;
  total_voucher_savings : JS.num;
  voucher_usage_rate : JS.num;
  monthly_spending : obj JS.num;
  spending_category : SpendingCategory
}.

Record LoyaltyAnalysis : Type := {
  level : string;
  la_description : string;
  top_restaurant : string;
  top_restaurant_percentage : JS.num
}.

Record RestaurantAnalytics : Type := {
  top_restaurants_by_orders : obj JS.num;
  unique_restaurants : JS.num;
  loyalty_analysis : LoyaltyAnalysis
}.

Record FoodAnalytics : Type := {
  top_food_items : obj JS.num;
  food_categories : obj JS.num;
  average_items_per_order : JS.num;
  total_unique_items : JS.num
}.

Record WeekendVsWeekday : Type := {
  weekend_orders : JS.num;
  weekday_orders : JS.num;
  weekend_percentage : JS.num
}.

Record PatternAnalytics : Type := {
  peak_hour : JS.num;
  peak_day : string;
  weekend_vs_weekday : WeekendVsWeekday;
  hourly_patterns : obj JS.num
}.

Record PaymentAnalytics : Type := {
  payment_method_counts : obj JS.num;
  preferred_payment_method : string
}.

Record PriceRange : Type := {
  pr_min : JS.num;
  pr_max : JS.num
}.

Record PriceAnalytics : Type := {
  average_price_per_item : JS.num;
  price_range : PriceRange;
  restaurant_value_scores : obj JS.num;
  discount_effectiveness : JS.num;
  price_trend_over_time : obj JS.num
}.

Record OrderSizeDistribution : Type := {
  small : JS.num;
  medium : JS.num;
  large : JS.num
}.

Record AddonFrequency : Type := {
  drinks_percentage : JS.num;
  desserts_percentage : JS.num
}.

Record ReorderPatterns : Type := {
  exact_reorder_count : JS.num;
  similar_items_frequency : obj JS.num
}.

Record OrderBehaviorAnalytics : Type := {
  order_size_distribution : OrderSizeDistribution;
  average_basket_size : JS.num;
  addon_frequency : AddonFrequency;
  reorder_patterns : ReorderPatterns
}.

Record DiversityAnalytics : Type := {
  cuisine_switching_rate : JS.num;
  new_restaurants_per_month : obj JS.num;
  restaurant_discovery_rate : JS.num;
  cuisine_preference_evolution : obj (obj JS.num);
  variety_score : JS.num
}.

Record TimeGapDistribution : Type := {
  same_day : JS.num;
  within_week : JS.num;
  within_month : JS.num;
  over_month : JS.num
}.

Record TimeAnalytics : Type := {
  order_frequency_trend : obj JS.num;
  average_days_between_orders : JS.num;
  spending_by_day_of_week : obj JS.num;
  seasonal_patterns : obj JS.num;
  time_gap_distribution : TimeGapDistribution;
  ordering_acceleration : JS.num
}.

Record VoucherImpact : Type := {
  avg_savings_with_voucher : JS.num;
  avg_order_value_with_voucher : JS.num;
  avg_order_value_without_voucher : JS.num
}.

Record DeliveryFeeVariance : Type := {
  dfv_min : JS.num;
  dfv_max : JS.num;
  dfv_avg : JS.num
}.

Record CostOptimizationAnalytics : Type := {
  fee_to_food_ratio : JS.num;
  average_fee_percentage : JS.num;
  optimal_order_value : JS.num;
  voucher_impact : VoucherImpact;
  delivery_fee_variance : DeliveryFeeVariance;
  potential_savings : JS.num
}.

Record MealTypeDistribution : Type := {
  breakfast : JS.num;
  lunch : JS.num;
  dinner : JS.num;
  snack : JS.num
}.

Record HealthDietaryAnalytics : Type := {
  healthy_vs_indulgent_ratio : JS.num;
  meal_type_distribution : MealTypeDistribution;
  drink_to_food_ratio : JS.num;
  healthy_food_percentage : JS.num;
  indulgent_food_percentage : JS.num;
  category_health_scores : obj JS.num
}.

Inductive SpendingTrend : Type := increasing | decreasing | stable.

Record PredictiveAnalytics : Type := {
  forecasted_monthly_spending : JS.num;
  spending_trend : SpendingTrend;
  trend_percentage : JS.num;
  predicted_next_order_days : JS.num;
  estimated_annual_spending : JS.num
}.

Record ExplorationVsExploitation : Type := {
  exploration_percentage : JS.num;
  exploitation_percentage : JS.num
}.

Record AdvancedMetrics : Type := {
  customer_lifetime_value : JS.num;
  order_efficiency_score : JS.num;
  brand_loyalty_score : JS.num;
  spontaneity_index : JS.num;
  deal_dependency_ratio : JS.num;
  churn_risk_score : JS.num;
  exploration_vs_exploitation : ExplorationVsExploitation
}.

Record ComparativeMetrics : Type := {
  spending_percentile : JS.num;
  order_frequency_category : string;
  value_consciousness_score : JS.num
}.

Inductive InsightCategory : Type :=
| cat_spending | cat_voucher | cat_timing | cat_loyalty | cat_frequency
| cat_optimization | cat_health | cat_prediction | cat_other.

Record Insight : Type := {
  category : InsightCategory;
  icon : string;
  title : string;
  description : string;
  detailedExplanation : string;
  color : string
}.

Record FullAnalytics : Type := {
  spending : SpendingAnalytics;
  restaurants : RestaurantAnalytics;
  food : FoodAnalytics;
  patterns : PatternAnalytics;
  payments : PaymentAnalytics;
  prices : PriceAnalytics;
  behavior : OrderBehaviorAnalytics;
  diversity : DiversityAnalytics;
  timeAnalysis : TimeAnalytics;
  costOptimization : CostOptimizationAnalytics;
  healthDietary : HealthDietaryAnalytics;
  predictive : PredictiveAnalytics;
  advanced : AdvancedMetrics;
  comparative : ComparativeMetrics;
  insights : list Insight
}.

(** [foodCategories] of constants.ts *)
Definition foodCategories : obj (list string) :=
  [ ("Burger", ["burger"; "beef burger"; "chicken burger"]);
    ("Pizza", ["pizza"]);
    ("Rice/Biriyani",
     ["rice"; "biriyani"; "biryani"; "kacchi"; "khichuri"; "polao"]);
    ("Chicken", ["chicken"; "grilled chicken"; "fried chicken"; "wings"]);
    ("Fast Food",
     ["fries"; "sandwich"; "wrap"; "sub"; "shawarma"; "taco"; "nachos"]);
    ("Drinks",
     ["coke"; "pepsi"; "juice"; "water"; "drink"; "faluda"; "shake";
      "smoothie"; "coffee"; "tea"]);
    ("Dessert",
     ["ice cream"; "cake"; "dessert"; "sweet"; "kulfi"; "waffle"; "donut";
      "cookie"; "brownie"]);
    ("Pasta", ["pasta"; "spaghetti"; "lasagna"; "macaroni"]);
    ("Healthy", ["salad"; "soup"; "veg"; "fruit"]) ].

(** ** The analytics service *)

(** [x || 0] on a number that may be missing: zero and NaN are falsy. *)
Definition orZero (x : option JS.num) : JS.num :=
  match x with
  | Some (JS.Fin q) => if Qeq_bool q 0 then JS.Fin 0 else JS.Fin q
  | Some JS.NaN | None => JS.Fin 0
  | Some y => y
  end.

(** [counts[a] > counts[b]]: false when one of them is missing. *)
Definition countGt (counts : obj nat) (a b : string) : bool :=
  match get a counts, get b counts with
  | Some x, Some y => (y <? x)%nat
  | _, _ => false
  end.

(** [Object.keys(counts).reduce((a, b) =>
       counts[a] > counts[b] ? a : b, init)] *)
Definition reduceMax (counts : obj nat) (init : string) : string :=
  fold_left (fun a b => if countGt counts a b then a else b)
            (keys counts) init.

Definition num100 : JS.num := JS.Fin 100.

Section Service.
Variable rt : Runtime.

Definition getEmptyAnalytics : FullAnalytics :=
  {| spending :=
       {| total_spent := JS.Fin 0; average_order_value := JS.Fin 0;
          median_order_value := JS.Fin 0; total_delivery_fees := JS.Fin 0;
          total_service_fees := JS.Fin 0; total_voucher_savings := JS.Fin 0;
          voucher_usage_rate := JS.Fin 0; monthly_spending := [];
          spending_category :=
            {| sc_type := "N/A"; sc_description := "No data";
               sc_color := "gray" |} |};
     restaurants :=
       {| top_restaurants_by_orders := []; unique_restaurants := JS.Fin 0;
          loyalty_analysis :=
            {| level := "N/A"; la_description := "No data";
               top_restaurant := ""; top_restaurant_percentage := JS.Fin 0 |}
       |};
     food :=
       {| top_food_items := []; food_categories := [];
          average_items_per_order := JS.Fin 0;
          total_unique_items := JS.Fin 0 |};
     patterns :=
       {| peak_hour := JS.Fin 0; peak_day := "";
          weekend_vs_weekday :=
            {| weekend_orders := JS.Fin 0; weekday_orders := JS.Fin 0;
               weekend_percentage := JS.Fin 0 |};
          hourly_patterns := [] |};
     payments :=
       {| payment_method_counts := []; preferred_payment_method := "N/A" |};
     prices :=
       {| average_price_per_item := JS.Fin 0;
          price_range := {| pr_min := JS.Fin 0; pr_max := JS.Fin 0 |};
          restaurant_value_scores := []; discount_effectiveness := JS.Fin 0;
          price_trend_over_time := [] |};
     behavior :=
       {| order_size_distribution :=
            {| small := JS.Fin 0; medium := JS.Fin 0; large := JS.Fin 0 |};
          average_basket_size := JS.Fin 0;
          addon_frequency :=
            {| drinks_percentage := JS.Fin 0;
               desserts_percentage := JS.Fin 0 |};
          reorder_patterns :=
            {| exact_reorder_count := JS.Fin 0;
               similar_items_frequency := [] |} |};
     diversity :=
       {| cuisine_switching_rate := JS.Fin 0;
          new_restaurants_per_month := [];
          restaurant_discovery_rate := JS.Fin 0;
          cuisine_preference_evolution := []; variety_score := JS.Fin 0 |};
     timeAnalysis :=
       {| order_frequency_trend := [];
          average_days_between_orders := JS.Fin 0;
          spending_by_day_of_week := []; seasonal_patterns := [];
          time_gap_distribution :=
            {| same_day := JS.Fin 0; within_week := JS.Fin 0;
               within_month := JS.Fin 0; over_month := JS.Fin 0 |};
          ordering_acceleration := JS.Fin 0 |};
     costOptimization :=
       {| fee_to_food_ratio := JS.Fin 0; average_fee_percentage := JS.Fin 0;
          optimal_order_value := JS.Fin 0;
          voucher_impact :=
            {| avg_savings_with_voucher := JS.Fin 0;
               avg_order_value_with_voucher := JS.Fin 0;
               avg_order_value_without_voucher := JS.Fin 0 |};
          delivery_fee_variance :=
            {| dfv_min := JS.Fin 0; dfv_max := JS.Fin 0;
               dfv_avg := JS.Fin 0 |};
          potential_savings := JS.Fin 0 |};
     healthDietary :=
       {| healthy_vs_indulgent_ratio := JS.Fin 0;
          meal_type_distribution :=
            {| breakfast := JS.Fin 0; lunch := JS.Fin 0; dinner := JS.Fin 0;
               snack := JS.Fin 0 |};
          drink_to_food_ratio := JS.Fin 0;
          healthy_food_percentage := JS.Fin 0;
          indulgent_food_percentage := JS.Fin 0;
          category_health_scores := [] |};
     predictive :=
       {| forecasted_monthly_spending := JS.Fin 0; spending_trend := stable;
          trend_percentage := JS.Fin 0;
          predicted_next_order_days := JS.Fin 0;
          estimated_annual_spending := JS.Fin 0 |};
     advanced :=
       {| customer_lifetime_value := JS.Fin 0;
          order_efficiency_score := JS.Fin 0;
          brand_loyalty_score := JS.Fin 0; spontaneity_index := JS.Fin 0;
          deal_dependency_ratio := JS.Fin 0; churn_risk_score := JS.Fin 0;
          exploration_vs_exploitation :=
            {| exploration_percentage := JS.Fin 0;
               exploitation_percentage := JS.Fin 0 |} |};
     comparative :=
       {| spending_percentile := JS.Fin 50;
          order_frequency_category := "N/A";
          value_consciousness_score := JS.Fin 0 |};
     insights := [] |}.

(** [values[i]] of an array of numbers; a missing element is
    [undefined], which arithmetic turns into NaN. *)
Definition numAt (l : list JS.num) (i : nat) : JS.num := nth i l JS.NaN.

Definition calculateMedian (values : list JS.num) : JS.num :=
  if (List.length values =? 0)%nat then JS.Fin 0
  else
    let sorted := Arr.sort (Arr.byNumber (fun v => v)) values in
    let mid := (List.length sorted / 2)%nat in
    if negb (List.length sorted mod 2 =? 0)%nat then numAt sorted mid
    else JS.div (JS.add (numAt sorted (mid - 1)) (numAt sorted mid))
                (JS.Fin 2).

(** [Math.pow(d, 2)] is the product [d * d]. *)
Definition calculateVariance (values : list JS.num) : JS.num :=
  if (List.length values =? 0)%nat then JS.Fin 0
  else
    let mean := Lodash.mean values in
    let squaredDiffs :=
      map (fun v => JS.mul (JS.sub v mean) (JS.sub v mean)) values in
    Lodash.mean squaredDiffs.

(** The entries sorted by decreasing count, the first [n] of them,
    put back into an object one after the other. *)
Definition getTopN (record : obj nat) (n : nat) : obj nat :=
  fold_left (fun acc e => set (fst e) (snd e) acc)
    (Arr.sliceFirst n
       (Arr.sort (fun a b => (snd b <=? snd a)%nat) (entries record)))
    [].

Definition categorizeSpending (avg : JS.num) : SpendingCategory :=
  if JS.gt avg (JS.Fin 400) then
    {| sc_type := "Big Spender"; sc_description := "You love premium food";
       sc_color := "#e74c3c" |}
  else if JS.gt avg (JS.Fin 250) then
    {| sc_type := "Medium Spender"; sc_description := "Balanced spending";
       sc_color := "#f39c12" |}
  else
    {| sc_type := "Light Spender"; sc_description := "You save money";
       sc_color := "#27ae60" |}.

(** [`${d.getFullYear()}-${String(d.getMonth() + 1).padStart(2, '0')}`]
    for [d = new Date(o.date)]: the month in local time. *)
Definition localMonthKey (o : Order) : string :=
  let d := Date.new rt (date o) in
  (Str.ofInt (Date.getFullYear rt d) ++ "-"
   ++ Str.padStart0 2 (Str.ofInt (JS.iadd (Date.getMonth rt d) (Some 1%Z))))
  %string.

Definition totalValue (o : Order) : JS.num := JS.Fin (total_value o).

Definition hasVoucher (o : Order) : bool := JS.Qltb 0 (voucher_discount o).

Definition analyzeSpending (orders : list Order) : SpendingAnalytics :=
  let totalSpent := Lodash.sumBy totalValue orders in
  let avgOrderValue := JS.div totalSpent (JS.ofNat (List.length orders)) in
  let medianOrderValue := calculateMedian (map totalValue orders) in
  let monthlySpending := Lodash.groupBy localMonthKey orders in
  let monthlySpendingTotal :=
    fold_left (fun acc e => set (fst e) (Lodash.sumBy totalValue (snd e)) acc)
              (entries monthlySpending) [] in
  let voucherOrders := filter hasVoucher orders in
  let voucherUsageRate :=
    JS.mul (JS.div (JS.ofNat (List.length voucherOrders))
                   (JS.ofNat (List.length orders))) num100 in
  {| total_spent := totalSpent;
     average_order_value := avgOrderValue;
     median_order_value := medianOrderValue;
     total_delivery_fees :=
       Lodash.sumBy (fun o => JS.Fin (delivery_fee o)) orders;
     total_service_fees :=
       Lodash.sumBy (fun o => JS.Fin (service_fee o)) orders;
     total_voucher_savings :=
       Lodash.sumBy (fun o => JS.Fin (voucher_discount o)) orders;
     voucher_usage_rate := voucherUsageRate;
     monthly_spending := monthlySpendingTotal;
     spending_category := categorizeSpending avgOrderValue |}.

Definition analyzeRestaurants (orders : list Order) : RestaurantAnalytics :=
  let restaurantCounts := Lodash.countBy restaurant_name orders in
  let topRestaurants := getTopN restaurantCounts 10 in
  let topRestName := hd "" (keys topRestaurants) in
  let topRestCount :=
    match get topRestName topRestaurants with
    | Some c => c
    | None => 0%nat
    end in
  let loyaltyPct :=
    JS.mul (JS.div (JS.ofNat topRestCount) (JS.ofNat (List.length orders)))
           num100 in
  let '(loyaltyLevel, desc) :=
    if JS.gt loyaltyPct (JS.Fin 30)
    then ("Super Loyal", "You have a favorite place")
    else if JS.gt loyaltyPct (JS.Fin 15)
    then ("Loyal", "You like some places more")
    else ("Explorer", "You try many places") in
  {| top_restaurants_by_orders := mapValues JS.ofNat topRestaurants;
     unique_restaurants := JS.ofNat (List.length (keys restaurantCounts));
     loyalty_analysis :=
       {| level := loyaltyLevel;
          la_description := desc;
          top_restaurant := topRestName;
          top_restaurant_percentage := loyaltyPct |} |}.

(** [i.name.toLowerCase().trim()] *)
Definition itemKey (i : OrderItem) : string :=
  Str.trim (Str.toLowerCase (name i)).

Definition matchesAny (keywords : list string) (item : string) : bool :=
  Arr.some (fun k => Str.includes item k) keywords.

Definition analyzeFood (orders : list Order) : FoodAnalytics :=
  let allItems := Arr.flatMap (fun o => map itemKey (items o)) orders in
  let itemCounts := Lodash.countBy (fun s => s) allItems in
  let categoriesCount :=
    fold_left
      (fun acc e =>
         let count := List.length (filter (matchesAny (snd e)) allItems) in
         if (0 <? count)%nat then set (fst e) count acc else acc)
      (entries foodCategories) [] in
  {| top_food_items := mapValues JS.ofNat (getTopN itemCounts 15);
     food_categories := mapValues JS.ofNat categoriesCount;
     average_items_per_order :=
       JS.div (JS.ofNat (List.length allItems))
              (JS.ofNat (List.length orders));
     total_unique_items := JS.ofNat (List.length (keys itemCounts)) |}.

(** The predicate of the weekend filter.  The function body returns
    at its first statement, [day === 5 || day === 6]; the statement
    [return day === 0 || day === 6] after it is never reached. *)
Definition isWeekendOrder (o : Order) : bool :=
  let day := Date.getDay rt (Date.new rt (date o)) in
  JS.ieq day 5 || JS.ieq day 6.

Definition analyzePatterns (orders : list Order) : PatternAnalytics :=
  let hours := map (fun o => Date.getHours rt (Date.new rt (date o))) orders in
  let days := map (fun o => Date.weekdayLong rt (Date.new rt (date o))) orders in
  let hourlyPatterns := Lodash.countBy Str.ofInt hours in
  let dayPatterns := Lodash.countBy (fun s => s) days in
  let peakHour := JS.ofInt (Str.parseInt (reduceMax hourlyPatterns "0")) in
  let peakDay := reduceMax dayPatterns "" in
  let weekendOrders := List.length (filter isWeekendOrder orders) in
  {| peak_hour := peakHour;
     peak_day := peakDay;
     weekend_vs_weekday :=
       {| weekend_orders := JS.ofNat weekendOrders;
          weekday_orders :=
            JS.sub (JS.ofNat (List.length orders)) (JS.ofNat weekendOrders);
          weekend_percentage :=
            JS.mul (JS.div (JS.ofNat weekendOrders)
                           (JS.ofNat (List.length orders))) num100 |};
     hourly_patterns := mapValues JS.ofNat hourlyPatterns |}.

Definition analyzePayments (orders : list Order) : PaymentAnalytics :=
  let counts := Lodash.countBy payment_method orders in
  let preferred := reduceMax counts "N/A" in
  {| payment_method_counts := mapValues JS.ofNat counts;
     preferred_payment_method := preferred |}.

(** [its.reduce((sum, item) => sum + item.quantity, 0)] *)
Definition totalQuantity (its : list OrderItem) : Q :=
  fold_left (fun sum item => sum + quantity item) its 0.

(** [its.reduce((sum, item) => sum + (item.price * item.quantity), 0)] *)
Definition totalCost (its : list OrderItem) : Q :=
  fold_left (fun sum item => sum + price item * quantity item) its 0.

(** [q > 0 ? c / q : 0] *)
Definition pricePerItem (its : list OrderItem) : JS.num :=
  if JS.Qltb 0 (totalQuantity its)
  then JS.div (JS.Fin (totalCost its)) (JS.Fin (totalQuantity its))
  else JS.Fin 0.

Definition analyzePrices (orders : list Order) : PriceAnalytics :=
  let allItems := Arr.flatMap items orders in
  let avgPricePerItem := pricePerItem allItems in
  let itemPrices := map (fun item => JS.Fin (price item)) allItems in
  let priceRange :=
    {| pr_min := if (0 <? List.length itemPrices)%nat
                 then JS.minOf itemPrices else JS.Fin 0;
       pr_max := if (0 <? List.length itemPrices)%nat
                 then JS.maxOf itemPrices else JS.Fin 0 |} in
  let restaurantOrders := Lodash.groupBy restaurant_name orders in
  let restaurantValueScores :=
    fold_left
      (fun acc e => assign (fst e) (Lodash.meanBy totalValue (snd e)) acc)
      (entries restaurantOrders) [] in
  let voucherOrders := filter hasVoucher orders in
  let discountEffectiveness :=
    if (0 <? List.length voucherOrders)%nat
    then Lodash.meanBy (fun o => JS.Fin (voucher_discount o)) voucherOrders
    else JS.Fin 0 in
  let monthlyOrders := Lodash.groupBy localMonthKey orders in
  let priceTrendOverTime :=
    fold_left
      (fun acc e => set (fst e) (pricePerItem (Arr.flatMap items (snd e))) acc)
      (entries monthlyOrders) [] in
  {| average_price_per_item := avgPricePerItem;
     price_range := priceRange;
     restaurant_value_scores := restaurantValueScores;
     discount_effectiveness := discountEffectiveness;
     price_trend_over_time := priceTrendOverTime |}.

(** One turn of the loop that counts small, medium and large orders. *)
Definition sizeStep (acc : nat * nat * nat) (order : Order)
  : nat * nat * nat :=
  let '(small, medium, large) := acc in
  let itemCount := totalQuantity (items order) in
  if Qle_bool itemCount 2 then (S small, medium, large)
  else if Qle_bool itemCount 5 then (small, S medium, large)
  else (small, medium, S large).

Definition drinkKeywords : list string :=
  ["coke"; "pepsi"; "juice"; "water"; "drink"; "shake"; "coffee"; "tea"].
Definition dessertKeywords : list string :=
  ["ice cream"; "cake"; "dessert"; "sweet"; "waffle"; "donut"].

(** One turn of the loop that counts the orders with a drink and
    those with a dessert. *)
Definition addonStep (acc : nat * nat) (order : Order) : nat * nat :=
  let '(ordersWithDrinks, ordersWithDesserts) := acc in
  let itemNames := map (fun i => Str.toLowerCase (name i)) (items order) in
  let d := if Arr.some (matchesAny drinkKeywords) itemNames
           then S ordersWithDrinks else ordersWithDrinks in
  let s := if Arr.some (matchesAny dessertKeywords) itemNames
           then S ordersWithDesserts else ordersWithDesserts in
  (d, s).

(** [order.items.map(i => i.name.toLowerCase().trim()).sort().join('|')] *)
Definition itemSignature (order : Order) : string :=
  Str.join "|" (Arr.sortStrings (map itemKey (items order))).

Definition analyzeOrderBehavior (orders : list Order)
  : OrderBehaviorAnalytics :=
  let '(small, medium, large) :=
    fold_left sizeStep orders (0, 0, 0)%nat in
  let avgBasketSize :=
    JS.div (JS.Fin (fold_left (fun sum o => sum + totalQuantity (items o))
                              orders 0))
           (JS.ofNat (List.length orders)) in
  let '(ordersWithDrinks, ordersWithDesserts) :=
    fold_left addonStep orders (0, 0)%nat in
  let itemSignatures := map itemSignature orders in
  let signatureCounts := Lodash.countBy (fun s => s) itemSignatures in
  let exactReorderCount :=
    List.length (filter (fun count => (1 <? count)%nat)
                        (values signatureCounts)) in
  let allItems := Arr.flatMap (fun o => map itemKey (items o)) orders in
  let itemCounts := Lodash.countBy (fun s => s) allItems in
  let reorderedItems :=
    fold_left (fun acc e => set (fst e) (snd e) acc)
      (Arr.sliceFirst 10
         (Arr.sort (fun a b => (snd b <=? snd a)%nat)
            (filter (fun e => (2 <? snd e)%nat) (entries itemCounts))))
      [] in
  {| order_size_distribution :=
       {| small := JS.ofNat small; medium := JS.ofNat medium;
          large := JS.ofNat large |};
     average_basket_size := avgBasketSize;
     addon_frequency :=
       {| drinks_percentage :=
            JS.mul (JS.div (JS.ofNat ordersWithDrinks)
                           (JS.ofNat (List.length orders))) num100;
          desserts_percentage :=
            JS.mul (JS.div (JS.ofNat ordersWithDesserts)
                           (JS.ofNat (List.length orders))) num100 |};
     reorder_patterns :=
       {| exact_reorder_count := JS.ofNat exactReorderCount;
          similar_items_frequency := mapValues JS.ofNat reorderedItems |} |}.

(** [new Date(o.date).toISOString().slice(0, 7)]: the month in UTC;
    throws on an invalid date. *)
Definition isoMonthKey (o : Order) : completion string :=
  s <- Date.toISOString (Date.new rt (date o)) ;;
  Normal (Str.slice0 7 s).

(** [_.countBy] and [_.groupBy] with a key function that may throw:
    the keys are computed element after element. *)
Definition countByM {A : Type} (f : A -> completion string) (l : list A)
  : completion (obj nat) :=
  ks <- mapM f l ;;
  Normal (Lodash.countBy (fun k => k) ks).

Definition groupByM {A : Type} (f : A -> completion string) (l : list A)
  : completion (obj (list A)) :=
  ks <- mapM f l ;;
  Normal (mapValues (map snd) (Lodash.groupBy fst (combine ks l))).

(** The number of [i >= 1] with
    [orders[i].restaurant_name !== orders[i - 1].restaurant_name]. *)
Fixpoint countSwitches (orders : list Order) : nat :=
  match orders with
  | a :: (b :: _) as r =>
      ((if String.eqb (restaurant_name b) (restaurant_name a) then 0 else 1)
       + countSwitches r)%nat
  | _ => 0%nat
  end.

(** One turn of the loop over the orders that records the month of
    the first order of each restaurant. *)
Definition discoveryStep (acc : list string * obj JS.num) (order : Order)
  : completion (list string * obj JS.num) :=
  let '(seenRestaurants, monthlyNewRestaurants) := acc in
  month <- isoMonthKey order ;;
  if negb (existsb (String.eqb (restaurant_name order)) seenRestaurants)
  then Normal ((seenRestaurants ++ [restaurant_name order])%list,
               set month
                   (JS.add (orZero (get month monthlyNewRestaurants))
                           (JS.Fin 1))
                   monthlyNewRestaurants)
  else Normal acc.

Definition analyzeDiversity (orders : list Order)
  : completion DiversityAnalytics :=
  if (List.length orders <? 2)%nat then
    Normal {| cuisine_switching_rate := JS.Fin 0;
              new_restaurants_per_month := [];
              restaurant_discovery_rate := JS.Fin 0;
              cuisine_preference_evolution := [];
              variety_score := JS.Fin 0 |}
  else
    let switches := countSwitches orders in
    let cuisineSwitchingRate :=
      JS.mul (JS.div (JS.ofNat switches)
                     (JS.sub (JS.ofNat (List.length orders)) (JS.Fin 1)))
             num100 in
    st <- foldM discoveryStep orders ([], []) ;;
    let '(seenRestaurants, monthlyNewRestaurants) := st in
    let discoveryRate :=
      if (0 <? List.length (values monthlyNewRestaurants))%nat
      then Lodash.mean (values monthlyNewRestaurants)
      else JS.Fin 0 in
    monthlyRestaurants <- groupByM isoMonthKey orders ;;
    let cuisinePreferenceEvolution :=
      fold_left
        (fun acc e =>
           set (fst e)
               (mapValues JS.ofNat (Lodash.countBy restaurant_name (snd e)))
               acc)
        (entries monthlyRestaurants) [] in
    let uniqueRestaurants := List.length seenRestaurants in
    let totalOrders := List.length orders in
    let varietyScore :=
      JS.min num100
             (JS.mul (JS.mul (JS.div (JS.ofNat uniqueRestaurants)
                                     (JS.ofNat totalOrders)) num100)
                     (JS.Fin 2)) in
    Normal {| cuisine_switching_rate := cuisineSwitchingRate;
              new_restaurants_per_month := monthlyNewRestaurants;
              restaurant_discovery_rate := discoveryRate;
              cuisine_preference_evolution := cuisinePreferenceEvolution;
              variety_score := varietyScore |}.

Definition orderTime (o : Order) : JS.num :=
  Date.getTime (Date.new rt (date o)).

(** [(a - b) / (1000 * 60 * 60 * 24)] *)
Definition daysFrom (b a : Order) : JS.num :=
  JS.div (JS.sub (orderTime a) (orderTime b)) (JS.ofZ Date.msPerDay).

(** The gaps [orders[i] - orders[i - 1]] in days, for [i >= 1]. *)
Fixpoint daysBetweenOrders (orders : list Order) : list JS.num :=
  match orders with
  | a :: (b :: _) as r => daysFrom a b :: daysBetweenOrders r
  | _ => []
  end.

(** [dayNames[i]] as a property key: [undefined] when there is no
    such element. *)
Definition dayNameKey (i : option Z) : string :=
  match i with
  | Some w => if (w <? 0)%Z then "undefined"
              else nth (Z.to_nat w) Date.dayNames "undefined"
  | None => "undefined"
  end.

Definition quarterKey (o : Order) : string :=
  let d := Date.new rt (date o) in
  let quarter :=
    option_map (fun m => (m / 3 + 1)%Z) (Date.getMonth rt d) in
  (Str.ofInt (Date.getFullYear rt d) ++ "-Q" ++ Str.ofInt quarter)%string.

(** [acc[k] = (acc[k] || 0) + v] *)
Definition accumulate (k : string) (v : JS.num) (acc : obj JS.num)
  : obj JS.num :=
  set k (JS.add (orZero (get k acc)) v) acc.

Definition gapStep (acc : nat * nat * nat * nat) (days : JS.num)
  : nat * nat * nat * nat :=
  let '(sd, ww, wm, om) := acc in
  if JS.lt days (JS.Fin 1) then (S sd, ww, wm, om)
  else if JS.le days (JS.Fin 7) then (sd, S ww, wm, om)
  else if JS.le days (JS.Fin 30) then (sd, ww, S wm, om)
  else (sd, ww, wm, S om).

Definition analyzeTimePatterns (orders : list Order)
  : completion TimeAnalytics :=
  if (List.length orders =? 0)%nat then
    Normal {| order_frequency_trend := [];
              average_days_between_orders := JS.Fin 0;
              spending_by_day_of_week := [];
              seasonal_patterns := [];
              time_gap_distribution :=
                {| same_day := JS.Fin 0; within_week := JS.Fin 0;
                   within_month := JS.Fin 0; over_month := JS.Fin 0 |};
              ordering_acceleration := JS.Fin 0 |}
  else
    monthlyFrequency <- countByM isoMonthKey orders ;;
    let daysBetween := daysBetweenOrders orders in
    let avgDaysBetween :=
      if (0 <? List.length daysBetween)%nat then Lodash.mean daysBetween
      else JS.Fin 0 in
    let spendingByDay :=
      fold_left
        (fun acc order =>
           accumulate
             (dayNameKey (Date.getDay rt (Date.new rt (date order))))
             (totalValue order) acc)
        orders [] in
    let seasonalSpending :=
      fold_left (fun acc order => accumulate (quarterKey order)
                                             (totalValue order) acc)
                orders [] in
    let '(sd, ww, wm, om) := fold_left gapStep daysBetween (0, 0, 0, 0)%nat in
    let timeGaps :=
      {| same_day := JS.ofNat sd; within_week := JS.ofNat ww;
         within_month := JS.ofNat wm; over_month := JS.ofNat om |} in
    let midPoint := (List.length orders / 2)%nat in
    if (0 <? midPoint)%nat then
      oMid <- at_ orders midPoint ;;
      oFirst <- at_ orders 0 ;;
      oLast <- at_ orders (List.length orders - 1) ;;
      let firstHalfDays := daysFrom oFirst oMid in
      let secondHalfDays := daysFrom oMid oLast in
      let firstHalfFreq :=
        if JS.gt firstHalfDays (JS.Fin 0)
        then JS.div (JS.ofNat midPoint) firstHalfDays else JS.Fin 0 in
      let secondHalfFreq :=
        if JS.gt secondHalfDays (JS.Fin 0)
        then JS.div (JS.sub (JS.ofNat (List.length orders))
                            (JS.ofNat midPoint)) secondHalfDays
        else JS.Fin 0 in
      let orderingAcceleration :=
        if JS.gt firstHalfFreq (JS.Fin 0)
        then JS.mul (JS.div (JS.sub secondHalfFreq firstHalfFreq)
                            firstHalfFreq) num100
        else JS.Fin 0 in
      Normal {| order_frequency_trend := mapValues JS.ofNat monthlyFrequency;
                average_days_between_orders := avgDaysBetween;
                spending_by_day_of_week := spendingByDay;
                seasonal_patterns := seasonalSpending;
                time_gap_distribution := timeGaps;
                ordering_acceleration := orderingAcceleration |}
    else
      Normal {| order_frequency_trend := mapValues JS.ofNat monthlyFrequency;
                average_days_between_orders := avgDaysBetween;
                spending_by_day_of_week := spendingByDay;
                seasonal_patterns := seasonalSpending;
                time_gap_distribution := timeGaps;
                ordering_acceleration := JS.Fin 0 |}.

Definition analyzeCostOptimization (orders : list Order)
  : CostOptimizationAnalytics :=
  let totalSpent := Lodash.sumBy totalValue orders in
  let totalFees :=
    Lodash.sumBy (fun o => JS.add (JS.Fin (delivery_fee o))
                                  (JS.Fin (service_fee o))) orders in
  let totalFood := JS.sub totalSpent totalFees in
  let feeToFoodRatio :=
    if JS.gt totalFood (JS.Fin 0)
    then JS.mul (JS.div totalFees totalFood) num100 else JS.Fin 0 in
  let avgFeePercentage :=
    if JS.gt totalSpent (JS.Fin 0)
    then JS.mul (JS.div totalFees totalSpent) num100 else JS.Fin 0 in
  let voucherOrders := filter hasVoucher orders in
  let nonVoucherOrders :=
    filter (fun o => Qeq_bool (voucher_discount o) 0) orders in
  let voucherImpact :=
    {| avg_savings_with_voucher :=
         if (0 <? List.length voucherOrders)%nat
         then Lodash.meanBy (fun o => JS.Fin (voucher_discount o))
                            voucherOrders
         else JS.Fin 0;
       avg_order_value_with_voucher :=
         if (0 <? List.length voucherOrders)%nat
         then Lodash.meanBy totalValue voucherOrders else JS.Fin 0;
       avg_order_value_without_voucher :=
         if (0 <? List.length nonVoucherOrders)%nat
         then Lodash.meanBy totalValue nonVoucherOrders else JS.Fin 0 |} in
  let deliveryFees := map (fun o => JS.Fin (delivery_fee o)) orders in
  let deliveryFeeVariance :=
    {| dfv_min := JS.minOf deliveryFees;
       dfv_max := JS.maxOf deliveryFees;
       dfv_avg := Lodash.mean deliveryFees |} in
  let optimalOrderValue := JS.mul (dfv_avg deliveryFeeVariance) (JS.Fin 10) in
  let suboptimalOrders :=
    filter (fun o => JS.lt (JS.Fin (subtotal o)) optimalOrderValue) orders in
  let potentialSavings :=
    JS.mul (JS.ofNat (List.length suboptimalOrders))
           (JS.mul (dfv_avg deliveryFeeVariance) (JS.Fin (1 # 2))) in
  {| fee_to_food_ratio := feeToFoodRatio;
     average_fee_percentage := avgFeePercentage;
     optimal_order_value := optimalOrderValue;
     voucher_impact := voucherImpact;
     delivery_fee_variance := deliveryFeeVariance;
     potential_savings := potentialSavings |}.

Definition healthyKeywords : list string :=
  ["salad"; "soup"; "veg"; "fruit"; "grilled"].
Definition indulgentKeywords : list string :=
  ["burger"; "pizza"; "fries"; "cake"; "ice cream"; "fried"].
Definition dietDrinkKeywords : list string :=
  ["coke"; "pepsi"; "juice"; "water"; "drink"; "shake"].

Definition bump (b : bool) (n : nat) : nat := if b then S n else n.

(** [a <= hour && hour < b] on an hour that may be NaN. *)
Definition hourIn (hour : option Z) (a b : Z) : bool :=
  match hour with
  | Some h => ((a <=? h) && (h <? b))%Z
  | None => false
  end.

Definition mealStep (acc : nat * nat * nat * nat) (order : Order)
  : nat * nat * nat * nat :=
  let '(b, l, d, s) := acc in
  let hour := Date.getHours rt (Date.new rt (date order)) in
  if hourIn hour 5 11 then (S b, l, d, s)
  else if hourIn hour 11 16 then (b, S l, d, s)
  else if hourIn hour 16 22 then (b, l, S d, s)
  else (b, l, d, S s).

Definition analyzeHealthDietary (orders : list Order)
  (patterns : PatternAnalytics) : HealthDietaryAnalytics :=
  let allItems :=
    Arr.flatMap (fun o => map (fun i => Str.toLowerCase (name i)) (items o))
                orders in
  let '(healthyCount, indulgentCount, drinkCount) :=
    fold_left
      (fun acc item =>
         let '(h, i, d) := acc in
         (bump (matchesAny healthyKeywords item) h,
          bump (matchesAny indulgentKeywords item) i,
          bump (matchesAny dietDrinkKeywords item) d))
      allItems (0, 0, 0)%nat in
  let totalItems := List.length allItems in
  let healthyPercentage :=
    if (0 <? totalItems)%nat
    then JS.mul (JS.div (JS.ofNat healthyCount) (JS.ofNat totalItems)) num100
    else JS.Fin 0 in
  let indulgentPercentage :=
    if (0 <? totalItems)%nat
    then JS.mul (JS.div (JS.ofNat indulgentCount) (JS.ofNat totalItems))
                num100
    else JS.Fin 0 in
  let healthyVsIndulgentRatio :=
    if (0 <? indulgentCount)%nat
    then JS.div (JS.ofNat healthyCount) (JS.ofNat indulgentCount)
    else JS.ofNat healthyCount in
  let '(b, l, d, s) := fold_left mealStep orders (0, 0, 0, 0)%nat in
  let foodCount := JS.sub (JS.ofNat totalItems) (JS.ofNat drinkCount) in
  let drinkToFoodRatio :=
    if JS.gt foodCount (JS.Fin 0)
    then JS.div (JS.ofNat drinkCount) foodCount else JS.Fin 0 in
  {| healthy_vs_indulgent_ratio := healthyVsIndulgentRatio;
     meal_type_distribution :=
       {| breakfast := JS.ofNat b; lunch := JS.ofNat l;
          dinner := JS.ofNat d; snack := JS.ofNat s |};
     drink_to_food_ratio := drinkToFoodRatio;
     healthy_food_percentage := healthyPercentage;
     indulgent_food_percentage := indulgentPercentage;
     category_health_scores := [] |}.

(** The string form of an entry [[k, v]], by which [sort()] orders an
    array of entries. *)
Definition entryString (e : string * JS.num) : string :=
  (fst e ++ "," ++ numberToString rt (snd e))%string.

(** The weighted sum and the sum of the weights of the recent months:
    the month at index [idx] has weight [idx + 1]. *)
Definition weightStep (acc : JS.num * JS.num) (e : nat * (string * JS.num))
  : JS.num * JS.num :=
  let '(weightedSum, totalWeight) := acc in
  let weight := JS.ofNat (fst e + 1) in
  (JS.add weightedSum (JS.mul (snd (snd e)) weight),
   JS.add totalWeight weight).

Definition indexed {A : Type} (l : list A) : list (nat * A) :=
  combine (seq 0 (List.length l)) l.

(** Step 3 of [analyzePredictive]: the slope of the least-squares
    line through the recent monthly totals, in percent of their
    mean; 0 with fewer than two months. *)
Definition trendPercentageOf (recentMonthsData : list (string * JS.num))
  : JS.num :=
  if (2 <=? List.length recentMonthsData)%nat then
    let yValues := map snd recentMonthsData in
    let xValues := map JS.ofNat (seq 0 (List.length yValues)) in
    let n := JS.ofNat (List.length yValues) in
    let sumX := Lodash.sum xValues in
    let sumY := Lodash.sum yValues in
    let sumXY :=
      Lodash.sum (map (fun ix => JS.mul (snd ix) (numAt yValues (fst ix)))
                      (indexed xValues)) in
    let sumXX := Lodash.sum (map (fun x => JS.mul x x) xValues) in
    let slope :=
      JS.div (JS.sub (JS.mul n sumXY) (JS.mul sumX sumY))
             (JS.sub (JS.mul n sumXX) (JS.mul sumX sumX)) in
    let averageY := JS.div sumY n in
    if JS.ne averageY (JS.Fin 0)
    then JS.mul (JS.div slope averageY) num100
    else JS.Fin 0
  else JS.Fin 0.

(** [Object.entries(spending.monthly_spending).sort().slice(-6)] *)
Definition recentMonths (spending : SpendingAnalytics)
  : list (string * JS.num) :=
  Arr.sliceLast 6
    (Arr.sort (fun a b => String.leb (entryString a) (entryString b))
              (entries (monthly_spending spending))).

(** [Math.max(-15, Math.min(15, t))] *)
Definition capTrend (t : JS.num) : JS.num :=
  JS.max (JS.Fin (-15)) (JS.min (JS.Fin 15) t).

Definition analyzePredictive (orders : list Order)
  (spending : SpendingAnalytics) (timeAnalysis : TimeAnalytics)
  : completion PredictiveAnalytics :=
  if (List.length orders <? 2)%nat then
    Normal {| forecasted_monthly_spending := average_order_value spending;
              spending_trend := stable;
              trend_percentage := JS.Fin 0;
              predicted_next_order_days := JS.Fin 7;
              estimated_annual_spending :=
                JS.mul (total_spent spending) (JS.Fin 12) |}
  else
    oFirst <- at_ orders 0 ;;
    let firstOrderDate := Date.new rt (date oFirst) in
    oLast <- at_ orders (List.length orders - 1) ;;
    let lastOrderDate := Date.new rt (date oLast) in
    let monthDiff :=
      JS.iadd
        (JS.iadd
           (JS.imul (JS.isub (Date.getFullYear rt lastOrderDate)
                             (Date.getFullYear rt firstOrderDate))
                    (Some 12%Z))
           (JS.isub (Date.getMonth rt lastOrderDate)
                    (Date.getMonth rt firstOrderDate)))
        (Some 1%Z) in
    let activeMonths := JS.max (JS.Fin 1) (JS.ofInt monthDiff) in
    let lifetimeMonthlyAvg := JS.div (total_spent spending) activeMonths in
    let recentMonthsData := recentMonths spending in
    let '(weightedSum, totalWeight) :=
      fold_left weightStep (indexed recentMonthsData)
                (JS.Fin 0, JS.Fin 0) in
    let recentWeightedAvg :=
      if (0 <? List.length recentMonthsData)%nat
      then JS.div weightedSum totalWeight else lifetimeMonthlyAvg in
    let trendPercentage := trendPercentageOf recentMonthsData in
    let cappedTrend := capTrend trendPercentage in
    let baseForecast :=
      JS.add (JS.mul recentWeightedAvg (JS.Fin (7 # 10)))
             (JS.mul lifetimeMonthlyAvg (JS.Fin (3 # 10))) in
    let forecastedMonthlySpending :=
      JS.mul baseForecast (JS.add (JS.Fin 1) (JS.div cappedTrend num100)) in
    let estimatedAnnualSpending :=
      JS.mul forecastedMonthlySpending (JS.Fin 12) in
    let spendingTrend :=
      if JS.gt cappedTrend (JS.Fin 5) then increasing
      else if JS.lt cappedTrend (JS.Fin (-5)) then decreasing
      else stable in
    let predictedNextOrderDays :=
      JS.max (JS.Fin 1) (average_days_between_orders timeAnalysis) in
    Normal {| forecasted_monthly_spending := forecastedMonthlySpending;
              spending_trend := spendingTrend;
              trend_percentage := cappedTrend;
              predicted_next_order_days := predictedNextOrderDays;
              estimated_annual_spending := estimatedAnnualSpending |}.

Definition analyzeAdvancedMetrics (orders : list Order)
  (restaurants : RestaurantAnalytics) (timeAnalysis : TimeAnalytics)
  (spending : SpendingAnalytics) : completion AdvancedMetrics :=
  totalDays <-
    (if (1 <? List.length orders)%nat then
       oLast <- at_ orders (List.length orders - 1) ;;
       oFirst <- at_ orders 0 ;;
       Normal (daysFrom oFirst oLast)
     else Normal (JS.Fin 30)) ;;
  let dailyValue :=
    JS.div (total_spent spending) (JS.max (JS.Fin 1) totalDays) in
  let clv := JS.mul dailyValue (JS.Fin 365) in
  let avgOrdersPerRestaurant :=
    JS.div (JS.ofNat (List.length orders))
           (JS.max (JS.Fin 1) (unique_restaurants restaurants)) in
  let efficiencyScore :=
    JS.min num100 (JS.mul avgOrdersPerRestaurant (JS.Fin 10)) in
  let loyaltyPct :=
    top_restaurant_percentage (loyalty_analysis restaurants) in
  let voucherUsage := voucher_usage_rate spending in
  let brandLoyaltyScore :=
    JS.min num100
           (JS.add (JS.mul loyaltyPct (JS.Fin (6 # 10)))
                   (JS.mul (JS.sub num100 voucherUsage) (JS.Fin (4 # 10)))) in
  let hours :=
    map (fun o => JS.ofInt (Date.getHours rt (Date.new rt (date o))))
        orders in
  let hourVariance :=
    if (1 <? List.length hours)%nat then calculateVariance hours
    else JS.Fin 0 in
  let spontaneityIndex :=
    JS.min num100 (JS.mul (JS.div hourVariance (JS.Fin 50)) num100) in
  let dealDependencyRatio := voucher_usage_rate spending in
  let churnRiskScore :=
    if JS.lt (ordering_acceleration timeAnalysis) (JS.Fin (-20))
    then JS.Fin 80
    else if JS.lt (ordering_acceleration timeAnalysis) (JS.Fin 0)
    then JS.Fin 50
    else JS.Fin 20 in
  let restaurantCounts := Lodash.countBy restaurant_name orders in
  let topRestaurantCount :=
    JS.maxOf (map JS.ofNat (values restaurantCounts)) in
  let exploitationPercentage :=
    JS.mul (JS.div topRestaurantCount (JS.ofNat (List.length orders)))
           num100 in
  let explorationPercentage := JS.sub num100 exploitationPercentage in
  Normal {| customer_lifetime_value := clv;
            order_efficiency_score := efficiencyScore;
            brand_loyalty_score := brandLoyaltyScore;
            spontaneity_index := spontaneityIndex;
            deal_dependency_ratio := dealDependencyRatio;
            churn_risk_score := churnRiskScore;
            exploration_vs_exploitation :=
              {| exploration_percentage := explorationPercentage;
                 exploitation_percentage := exploitationPercentage |} |}.

Definition analyzeComparative (spending : SpendingAnalytics)
  (timeAnalysis : TimeAnalytics)
  (costOptimization : CostOptimizationAnalytics) : ComparativeMetrics :=
  let avgMonthlySpending :=
    if (0 <? List.length (keys (monthly_spending spending)))%nat
    then Lodash.mean (values (monthly_spending spending))
    else JS.mul (average_order_value spending) (JS.Fin 4) in
  let spendingPercentile :=
    if JS.gt avgMonthlySpending (JS.Fin 30000) then JS.Fin 90
    else if JS.gt avgMonthlySpending (JS.Fin 20000) then JS.Fin 75
    else if JS.gt avgMonthlySpending (JS.Fin 15000) then JS.Fin 60
    else if JS.gt avgMonthlySpending (JS.Fin 10000) then JS.Fin 45
    else JS.Fin 30 in
  let monthlyOrderFreq :=
    if (0 <? List.length (keys (order_frequency_trend timeAnalysis)))%nat
    then Lodash.mean (values (order_frequency_trend timeAnalysis))
    else JS.Fin 0 in
  let frequencyCategory :=
    if JS.gt monthlyOrderFreq (JS.Fin 15) then "Heavy"
    else if JS.gt monthlyOrderFreq (JS.Fin 8) then "Moderate"
    else "Light" in
  let voucherScore := voucher_usage_rate spending in
  let feeScore :=
    JS.sub num100
           (JS.mul (average_fee_percentage costOptimization) (JS.Fin 2)) in
  let valueConsciousnessScore :=
    JS.add (JS.mul voucherScore (JS.Fin (6 # 10)))
           (JS.mul (JS.max (JS.Fin 0) feeScore) (JS.Fin (4 # 10))) in
  {| spending_percentile := spendingPercentile;
     order_frequency_category := frequencyCategory;
     value_consciousness_score := valueConsciousnessScore |}.

Definition spendingInsight (spending : SpendingAnalytics) : Insight :=
  let type := sc_type (spending_category spending) in
  {| category := cat_spending;
     icon := "ðŸ’°";
     title := type;
     description := sc_description (spending_category spending);
     detailedExplanation :=
       ("Your average order is à§³"
        ++ toFixed rt 0 (average_order_value spending) ++ ". "
        ++ (if String.eqb type "Big Spender"
            then "You enjoy premium meals and aren't afraid to spend more for quality food."
            else if String.eqb type "Medium Spender"
            then "You balance between quality and budget, ordering moderately priced meals."
            else "You prefer budget-friendly options and focus on value for money."))
       %string;
     color := sc_color (spending_category spending) |}.

Definition voucherInsight (spending : SpendingAnalytics) : Insight :=
  let voucherTitle :=
    if JS.gt (voucher_usage_rate spending) (JS.Fin 50)
    then "Smart Saver" else "Deal Hunter" in
  {| category := cat_voucher;
     icon := "ðŸŽ«";
     title := voucherTitle;
     description :=
       ("You used vouchers " ++ toFixed rt 0 (voucher_usage_rate spending)
        ++ "% of the time")%string;
     detailedExplanation :=
       ("You saved a total of à§³"
        ++ toFixed rt 0 (total_voucher_savings spending)
        ++ " by using vouchers on "
        ++ toFixed rt 1 (voucher_usage_rate spending)
        ++ "% of your orders. That's smart shopping! Keep looking for deals to save even more.")
       %string;
     color := "#9b59b6" |}.

(** The timing insight.  The initial values of the source
    (a [Flexible Eater]) are overwritten on every path of the
    [if ... else if ... else] that follows them. *)
Definition timingInsight (patterns : PatternAnalytics) : Insight :=
  let hour := peak_hour patterns in
  let h := numberToString rt hour in
  let '(timeTitle, timeIcon, timeDesc, timeDetail) :=
    if JS.ge hour (JS.Fin 5) && JS.lt hour (JS.Fin 12) then
      ("Morning Person", "ðŸŒž", "You order early in the day",
       "You usually order around " ++ h
       ++ ":00. You're an early bird who likes breakfast and brunch. Morning meals give you energy for the day.")
    else if JS.ge hour (JS.Fin 12) && JS.lt hour (JS.Fin 17) then
      ("Lunch Lover", "ðŸ²", "You order at lunch time",
       "Your peak time is " ++ h
       ++ ":00. You prefer ordering during lunch hours. This is the most popular time to order food.")
    else if JS.ge hour (JS.Fin 17) && JS.lt hour (JS.Fin 22) then
      ("Evening Eater", "ðŸŒ†", "You order for dinner",
       "You typically order around " ++ h
       ++ ":00. Evening is your main meal time, when you relax and enjoy dinner.")
    else
      ("Night Owl", "ðŸŒ™", "You order late at night",
       "You order around " ++ h
       ++ ":00. You're a night person who gets hungry late. Late-night ordering is your thing!")
  in
  {| category := cat_timing;
     icon := timeIcon;
     title := timeTitle;
     description := timeDesc;
     detailedExplanation := timeDetail;
     color := "#3498db" |}.

Definition loyaltyInsight (restaurants : RestaurantAnalytics) : Insight :=
  let la := loyalty_analysis restaurants in
  let topRestaurant :=
    if String.eqb (top_restaurant la) "" then "various places"
    else top_restaurant la in
  let loyaltyPct := top_restaurant_percentage la in
  let loyaltyDetail :=
    if String.eqb (level la) "Super Loyal" then
      toFixed rt 0 loyaltyPct ++ "% of your orders are from " ++ topRestaurant
      ++ ". You really love this place! Having a favorite restaurant means you know what you like."
    else if String.eqb (level la) "Loyal" then
      toFixed rt 0 loyaltyPct ++ "% of orders from " ++ topRestaurant
      ++ ". You have some favorites but also like trying other places. Good balance!"
    else
      "You order from " ++ numberToString rt (unique_restaurants restaurants)
      ++ " different restaurants. You love variety and trying new places. That's adventurous!"
  in
  {| category := cat_loyalty;
     icon := "â¤ï¸";
     title := level la;
     description := la_description la;
     detailedExplanation := loyaltyDetail;
     color := "#e67e22" |}.

Definition generateInsights
  (spending : SpendingAnalytics) (restaurants : RestaurantAnalytics)
  (patterns : PatternAnalytics)
  (costOptimization : CostOptimizationAnalytics)
  (predictive : PredictiveAnalytics) (advanced : AdvancedMetrics)
  (healthDietary : HealthDietaryAnalytics) (_diversity : DiversityAnalytics)
  : list Insight :=
  let insights := [] in
  let insights := (insights ++ [spendingInsight spending])%list in
  let insights :=
    if JS.gt (voucher_usage_rate spending) (JS.Fin 20)
    then (insights ++ [voucherInsight spending])%list else insights in
  let insights := (insights ++ [timingInsight patterns])%list in
  let insights := (insights ++ [loyaltyInsight restaurants])%list in
  insights.

Definition isDelivered (o : Order) : bool :=
  negb (Str.includes (Str.toLowerCase (status o)) "cancel")
  && negb (Str.includes (Str.toLowerCase (status o)) "fail").

(** The entry point.  The comparator of the sort is consistent when
    every date is valid; with a NaN time value the order of the sorted
    copy is left to the engine, and the insertion order of [Arr.sort]
    is one of the orders allowed. *)
Definition analyze (orders : list Order) : completion FullAnalytics :=
  let deliveredOrders := filter isDelivered orders in
  if (List.length deliveredOrders =? 0)%nat then Normal getEmptyAnalytics
  else
    let sortedOrders := Arr.sort (Arr.byNumber orderTime) deliveredOrders in
    let spending := analyzeSpending deliveredOrders in
    let restaurants := analyzeRestaurants deliveredOrders in
    let food := analyzeFood deliveredOrders in
    let patterns := analyzePatterns deliveredOrders in
    let payments := analyzePayments deliveredOrders in
    let prices := analyzePrices sortedOrders in
    let behavior := analyzeOrderBehavior deliveredOrders in
    diversity <- analyzeDiversity sortedOrders ;;
    timeAnalysis <- analyzeTimePatterns sortedOrders ;;
    let costOptimization := analyzeCostOptimization deliveredOrders in
    let healthDietary := analyzeHealthDietary deliveredOrders patterns in
    predictive <- analyzePredictive sortedOrders spending timeAnalysis ;;
    advanced <-
      analyzeAdvancedMetrics sortedOrders restaurants timeAnalysis spending ;;
    let comparative :=
      analyzeComparative spending timeAnalysis costOptimization in
    let insights :=
      generateInsights spending restaurants patterns costOptimization
                       predictive advanced healthDietary diversity in
    Normal {| spending := spending;
              restaurants := restaurants;
              food := food;
              patterns := patterns;
              payments := payments;
              prices := prices;
              behavior := behavior;
              diversity := diversity;
              timeAnalysis := timeAnalysis;
              costOptimization := costOptimization;
              healthDietary := healthDietary;
              predictive := predictive;
              advanced := advanced;
              comparative := comparative;
              insights := insights |}.

End Service.

(** ** A reference runtime

    A runtime on which the engine can be evaluated: it reads the
    ISO 8601 forms [YYYY-MM-DD] and [YYYY-MM-DDTHH:mm:ss(.sss)Z], which
    every engine reads the same way, and keeps local time at a
    constant offset from UTC. *)

Module Iso.

(** The day number of a calendar date, counted from 1970-01-01. *)
Definition daysFromCivil (y m d : Z) : Z :=
  (let y' := if m <=? 2 then y - 1 else y in
   let era := y' / 400 in
   let yoe := y' - era * 400 in
   let mp := if 2 <? m then m - 3 else m + 9 in
   let doy := (153 * mp + 2) / 5 + d - 1 in
   let doe := yoe * 365 + yoe / 4 - yoe / 100 + doy in
   era * 146097 + doe - 719468)%Z.

(** Exactly [n] decimal digits at the head of [s]. *)
Fixpoint digits (n : nat) (s : string) (acc : Z) : option (Z * string) :=
  match n with
  | O => Some (acc, s)
  | S k =>
      match s with
      | String c r =>
          match Str.digitValue 10 c with
          | Some d => digits k r (acc * 10 + d)%Z
          | None => None
          end
      | EmptyString => None
      end
  end.

Definition expect (c : ascii) (s : string) : option string :=
  match s with
  | String c' r => if Ascii.eqb c c' then Some r else None
  | EmptyString => None
  end.

Definition field (n : nat) (sep : ascii) (s : string) : option (Z * string) :=
  match expect sep s with
  | Some r => digits n r 0%Z
  | None => None
  end.

(** A date is valid when the calendar gives it back: this excludes a
    month outside 1..12 and a day that the month does not have. *)
Definition validDate (y m d : Z) : bool :=
  let '(y', m', d') := Date.civil (daysFromCivil y m d) in
  ((y' =? y) && (m' =? m) && (d' =? d))%Z.

Definition parseTime (s : string) : option Z :=
  match field 2 "T" s with
  | Some (hh, s1) =>
      match field 2 ":" s1 with
      | Some (mm, s2) =>
          match field 2 ":" s2 with
          | Some (ss, s3) =>
              let '(ms, s4) :=
                match field 3 "." s3 with
                | Some r => r
                | None => (0%Z, s3)
                end in
              if String.eqb s4 "Z" && (hh <? 24)%Z && (mm <? 60)%Z
                 && (ss <? 60)%Z
              then Some (hh * 3600000 + mm * 60000 + ss * 1000 + ms)%Z
              else None
          | None => None
          end
      | None => None
      end
  | None => None
  end.

Definition parse (s : string) : option Z :=
  match digits 4 s 0%Z with
  | Some (y, s1) =>
      match field 2 "-" s1 with
      | Some (m, s2) =>
          match field 2 "-" s2 with
          | Some (d, s3) =>
              if validDate y m d then
                let day := (daysFromCivil y m d * Date.msPerDay)%Z in
                match s3 with
                | EmptyString => Some day
                | _ => option_map (Z.add day) (parseTime s3)
                end
              else None
          | None => None
          end
      | None => None
      end
  | None => None
  end.

(** A number that is not a small integer is printed to six decimals
    here; no property below depends on these digits. *)
Definition runtime (offsetMinutes : Z) : Runtime :=
  {| dateParse := parse;
     localTZA := fun _ => (offsetMinutes * 60000)%Z;
     digitsOf := fun q =>
       ((if JS.Qltb q 0 then "-" else "")
        ++ Str.ofZ (Qfloor (Qabs q)) ++ "."
        ++ Str.padStart0 6
             (Str.ofZ (Qfloor ((Qabs q - inject_Z (Qfloor (Qabs q)))
                               * inject_Z 1000000))))%string |}.

Definition utc : Runtime := runtime 0.
(** Asia/Dhaka: UTC+06:00 all year. *)
Definition dhaka : Runtime := runtime 360.

End Iso.

(** ** Vocabulary of the properties *)

(** The sum of a list of rationals. *)
Definition sumQ (l : list Q) : Q := fold_right Qplus 0 l.

(** Every numeric field of the result, [spending_percentile] apart. *)
Definition numbersOf (a : FullAnalytics) : list JS.num :=
  let s := spending a in
  let r := restaurants a in
  let p := patterns a in
  let w := weekend_vs_weekday p in
  let pr := prices a in
  let b := behavior a in
  let d := diversity a in
  let t := timeAnalysis a in
  let g := time_gap_distribution t in
  let c := costOptimization a in
  let v := voucher_impact c in
  let f := delivery_fee_variance c in
  let h := healthDietary a in
  let m := meal_type_distribution h in
  let q := predictive a in
  let x := advanced a in
  [ total_spent s; average_order_value s; median_order_value s;
    total_delivery_fees s; total_service_fees s; total_voucher_savings s;
    voucher_usage_rate s;
    unique_restaurants r; top_restaurant_percentage (loyalty_analysis r);
    average_items_per_order (food a); total_unique_items (food a);
    peak_hour p; weekend_orders w; weekday_orders w; weekend_percentage w;
    average_price_per_item pr; pr_min (price_range pr);
    pr_max (price_range pr); discount_effectiveness pr;
    small (order_size_distribution b); medium (order_size_distribution b);
    large (order_size_distribution b); average_basket_size b;
    drinks_percentage (addon_frequency b);
    desserts_percentage (addon_frequency b);
    exact_reorder_count (reorder_patterns b);
    cuisine_switching_rate d; restaurant_discovery_rate d; variety_score d;
    average_days_between_orders t; same_day g; within_week g; within_month g;
    over_month g; ordering_acceleration t;
    fee_to_food_ratio c; average_fee_percentage c; optimal_order_value c;
    avg_savings_with_voucher v; avg_order_value_with_voucher v;
    avg_order_value_without_voucher v; dfv_min f; dfv_max f; dfv_avg f;
    potential_savings c;
    healthy_vs_indulgent_ratio h; breakfast m; lunch m; dinner m; snack m;
    drink_to_food_ratio h; healthy_food_percentage h;
    indulgent_food_percentage h;
    forecasted_monthly_spending q; trend_percentage q;
    predicted_next_order_days q; estimated_annual_spending q;
    customer_lifetime_value x; order_efficiency_score x;
    brand_loyalty_score x; spontaneity_index x; deal_dependency_ratio x;
    churn_risk_score x;
    exploration_percentage (exploration_vs_exploitation x);
    exploitation_percentage (exploration_vs_exploitation x);
    value_consciousness_score (comparative a) ].

(** The number of keys of every mapping of the result. *)
Definition mappingSizes (a : FullAnalytics) : list nat :=
  [ List.length (monthly_spending (spending a));
    List.length (top_restaurants_by_orders (restaurants a));
    List.length (top_food_items (food a));
    List.length (food_categories (food a));
    List.length (hourly_patterns (patterns a));
    List.length (payment_method_counts (payments a));
    List.length (restaurant_value_scores (prices a));
    List.length (price_trend_over_time (prices a));
    List.length (similar_items_frequency (reorder_patterns (behavior a)));
    List.length (new_restaurants_per_month (diversity a));
    List.length (cuisine_preference_evolution (diversity a));
    List.length (order_frequency_trend (timeAnalysis a));
    List.length (spending_by_day_of_week (timeAnalysis a));
    List.length (seasonal_patterns (timeAnalysis a));
    List.length (category_health_scores (healthDietary a)) ].

(** [p] holds on the [n] days that start at [day]. *)
Fixpoint forDays (n : nat) (day : Z) (p : Z -> bool) : bool :=
  match n with
  | O => true
  | S k => p day && forDays k (day + 1)%Z p
  end.

(** The summed item quantity of an order. *)
Definition summedQuantity (o : Order) : Q := sumQ (map quantity (items o)).

(** The three size classes of an order, by its summed item quantity. *)
Definition isSmall (o : Order) : bool := Qle_bool (summedQuantity o) 2.
Definition isMedium (o : Order) : bool :=
  negb (Qle_bool (summedQuantity o) 2) && Qle_bool (summedQuantity o) 5.
Definition isLarge (o : Order) : bool := negb (Qle_bool (summedQuantity o) 5).

(** A number that is neither NaN nor infinite. *)
Definition finite (x : JS.num) : Prop := JS.isFinite x = true.

(** [o] counts the occurrences in [l]: one entry per distinct element,
    holding how many times it occurs. *)
Definition counts_of (l : list string) (o : obj nat) : Prop :=
  NoDup (map fst o) /\
  forall k n, In (k, n) o <-> n = count_occ string_dec l k /\ (0 < n)%nat.

Definition hasIndexKey {V : Type} (e : string * V) : bool :=
  match Str.arrayIndex (fst e) with Some _ => true | None => false end.


(** Every character of the string satisfies [p]. *)
Fixpoint allChars (p : ascii -> bool) (s : string) : bool :=
  match s with
  | EmptyString => true
  | String c r => p c && allChars p r
  end.

(** The indices 0, 1, ..., n - 1 of a list of [n] values. *)
Definition indices (n : nat) : list Q :=
  map (fun i => inject_Z (Z.of_nat i)) (seq 0 n).

(** The sum of the products of two lists, element by element. *)
Definition dotQ (xs ys : list Q) : Q :=
  sumQ (map (fun p => fst p * snd p) (combine xs ys)).

(** The mean of a list of rationals. *)
Definition meanQ (ys : list Q) : Q :=
  sumQ ys / inject_Z (Z.of_nat (List.length ys)).

(** The slope of the least-squares line through the points
    [(0, y0), (1, y1), ...]. *)
Definition leastSquaresSlope (ys : list Q) : Q :=
  let n := inject_Z (Z.of_nat (List.length ys)) in
  let xs := indices (List.length ys) in
  (n * dotQ xs ys - sumQ xs * sumQ ys) / (n * dotQ xs xs - sumQ xs * sumQ xs).



(** The characters that come after the comma. *)
Definition afterComma (c : ascii) : bool := (44 <? N_of_ascii c)%N.

(** The keys made of digits, [-] and letters, as the month keys are:
    no character of theirs comes before the comma that [sort()] finds
    between key and value. *)
Definition isMonthKey (k : string) : bool := allChars afterComma k.

(** The months of an object of monthly totals have distinct keys of
    that kind, and finite totals. *)
Definition monthlyTotals (o : obj JS.num) : Prop :=
  NoDup (map fst o) /\
  Forall (fun e => isMonthKey (fst e) = true /\ finite (snd e)) o.



(** The signature of an order in the words of the specification: the
    sorted, pipe-joined set of the distinct lowercase item names. *)
Definition signatureOfDistinctNames (order : Order) : string :=
  Str.join "|"
    (Arr.sortStrings
       (nodup string_dec (map (fun i => Str.toLowerCase (name i))
                              (items order)))).

(** ** Sample orders *)

Module Sample.

Definition item (n : string) (q : Q) (p : Q) : OrderItem :=
  {| name := n; quantity := q; price := p |}.

Definition order (ident : string) (rest : string) (total : Q) (st : string)
  (d : string) (its : list OrderItem) : Order :=
  {| id := ident; order_code := ident; restaurant_name := rest;
     total_value := total; subtotal := total; delivery_fee := 0;
     service_fee := 0; voucher_discount := 0; status := st; date := d;
     items := its; payment_method := "Card" |}.

Definition friday : Order :=
  order "o-fri" "A" 300 "delivered" "2024-01-05T12:00:00Z" [item "Burger" 1 300].
Definition saturday : Order :=
  order "o-sat" "A" 300 "delivered" "2024-01-06T12:00:00Z" [item "Burger" 1 300].
Definition sunday : Order :=
  order "o-sun" "A" 300 "delivered" "2024-01-07T12:00:00Z" [item "Burger" 1 300].
Definition tuesday : Order :=
  order "o-tue" "B" 200 "delivered" "2024-01-09T12:00:00Z" [item "Pizza" 1 200].

(** An order whose date does not parse, delivered and cancelled. *)
Definition undated : Order :=
  order "o-bad" "A" 300 "delivered" "not a date" [item "Burger" 1 300].
Definition undatedCancelled : Order :=
  order "o-bad" "A" 300 "Cancelled" "not a date" [item "Burger" 1 300].

(** The same item twice in one order, and once. *)
Definition twoBurgers : Order :=
  order "o-2b" "A" 600 "delivered" "2024-01-05T12:00:00Z"
        [item "Burger" 1 300; item "burger" 1 300].
Definition oneBurger : Order :=
  order "o-1b" "A" 300 "delivered" "2024-01-06T12:00:00Z" [item "Burger" 1 300].


End Sample.

(** ** The payment methods of constants.ts *)









(** ** Vocabulary of the further properties *)

(** The date string of the order parses: [new Date(o.date)] is a
    valid date. *)
Definition dateParses (rt : Runtime) (o : Order) : Prop :=
  dateParse rt (date o) <> None.

(** The key of [isoMonthKey] on a valid date. *)
Definition isoMonthOf (rt : Runtime) (o : Order) : string :=
  match Date.toISOString (Date.new rt (date o)) with
  | Normal s => Str.slice0 7 s
  | Throw _ => ""
  end.

(** The time value of an order (0 when the date does not parse). *)
Definition timeOf (rt : Runtime) (o : Order) : Z :=
  match dateParse rt (date o) with Some u => u | None => 0%Z end.

(** The gaps between consecutive orders, in days. *)
Fixpoint gaps (rt : Runtime) (l : list Order) : list Q :=
  match l with
  | a :: (b :: _) as r =>
      ((inject_Z (timeOf rt b) + - inject_Z (timeOf rt a))
       / inject_Z Date.msPerDay) :: gaps rt r
  | _ => []
  end.

(** The count recorded for a key, 0 for a key that is missing. *)
Definition cnt (counts : obj nat) (k : string) : nat :=
  match get k counts with Some n => n | None => O end.

(** The comparator [([, a], [, b]) => b - a] on entries with a count. *)
Definition byCountDesc (a b : string * nat) : bool := (snd b <=? snd a)%nat.

(** One delivered order at each of the restaurants named. *)
Definition visits (names : list string) : list Order :=
  map (fun n => Sample.order "o" n 100 "delivered" "2024-01-05T12:00:00Z" [])
      names.

(** The element has the key [k]. *)
Definition inGroup {A : Type} (f : A -> string) (k : string) (x : A) : bool :=
  String.eqb (f x) k.

(** The elements of [l] with the key [k], in their order; [None] when
    there is none. *)
Definition group_of {A : Type} (f : A -> string) (l : list A) (k : string)
  : option (list A) :=
  match filter (inGroup f k) l with
  | [] => None
  | g => Some g
  end.

(** [new Date(order.date).getHours()]: the local hour, [None] for NaN. *)
Definition mealHour (rt : Runtime) (o : Order) : option Z :=
  Date.getHours rt (Date.new rt (date o)).

(** The date string of the order does not parse. *)
Definition unparsed (rt : Runtime) (o : Order) : bool :=
  match dateParse rt (date o) with Some _ => false | None => true end.

(** How many of the names contain one of the keywords. *)
Definition mentioning (keywords names : list string) : nat :=
  List.length
    (filter (fun n => existsb (fun k => Str.includes n k) keywords) names).

(** The local hour [h] of the order has [a <= h < b]. *)
Definition hourWithin (rt : Runtime) (a b : Z) (o : Order) : bool :=
  match mealHour rt o with
  | Some h => ((a <=? h) && (h <? b))%Z
  | None => false
  end.

(** The number of orders whose local hour [h] has [a <= h < b]. *)
Definition ordersAtHours (rt : Runtime) (orders : list Order) (a b : Z) : nat :=
  List.length (filter (hourWithin rt a b) orders).

(** The order survives the status filter: its status, in lower case,
    contains neither [cancel] nor [fail]. *)
Definition survives (o : Order) : Prop :=
  Str.includes (Str.toLowerCase (status o)) "cancel" = false /\
  Str.includes (Str.toLowerCase (status o)) "fail" = false.

(** The names of all the item lines, in lower case and trimmed. *)
Definition itemNames (orders : list Order) : list string :=
  flat_map (fun o => map itemKey (items o)) orders.




(** The local hour of an order (0 when the date does not parse). *)
Definition hourOf (rt : Runtime) (o : Order) : Z :=
  match mealHour rt o with Some h => h | None => 0%Z end.

(** The array index that a key stands for (0 for another key). *)
Definition indexOf (k : string) : Z :=
  match Str.arrayIndex k with Some n => n | None => 0%Z end.

(** An item name of the order, in lower case, contains a keyword. *)
Definition hasAddon (keywords : list string) (o : Order) : bool :=
  Arr.some (matchesAny keywords)
           (map (fun i => Str.toLowerCase (name i)) (items o)).

(** A month of 1 to 12 as two digits. *)
Definition twoDigits (k : Z) : string :=
  if (k <? 10)%Z then "0" ++ Str.ofZ k else Str.ofZ k.

(** The label of the calendar month of an order in local time: the
    year, a dash and the month of 1 to 12 as two digits. *)
Definition monthLabel (rt : Runtime) (o : Order) : string :=
  let d := Date.new rt (date o) in
  match Date.getFullYear rt d, Date.getMonth rt d with
  | Some y, Some m => Str.ofZ y ++ "-" ++ twoDigits (m + 1)
  | _, _ => "NaN-NaN"
  end.

(** The label of the quarter of an order in local time: the year and
    the quarter of 1 to 4. *)
Definition quarterLabel (rt : Runtime) (o : Order) : string :=
  let d := Date.new rt (date o) in
  match Date.getFullYear rt d, Date.getMonth rt d with
  | Some y, Some m => Str.ofZ y ++ "-Q" ++ Str.ofZ (m / 3 + 1)
  | _, _ => "NaN-QNaN"
  end.

(** The English name of the day of the week number [w], 0 being
    Sunday. *)
Definition weekdayName (w : Z) : string :=
  match w with
  | 0 => "Sunday" | 1 => "Monday" | 2 => "Tuesday" | 3 => "Wednesday"
  | 4 => "Thursday" | 5 => "Friday" | 6 => "Saturday"
  | _ => "undefined"
  end%Z.

(** The day of the week of an order in local time, -1 when its date
    does not parse. *)
Definition weekdayOf (rt : Runtime) (o : Order) : Z :=
  match Date.getDay rt (Date.new rt (date o)) with
  | Some w => w
  | None => (-1)%Z
  end.

(** The month that [Date.civil] finds for the day [doe] of a cycle of
    400 years. *)
Definition monthOfCycleDay (doe : Z) : Z :=
  (let yoe := (doe - doe / 1460 + doe / 36524 - doe / 146096) / 365 in
   let doy := doe - (365 * yoe + yoe / 4 - yoe / 100) in
   let mp := (5 * doy + 2) / 153 in
   if mp <? 10 then mp + 3 else mp - 9)%Z.

(** The number of gaps below [c] days, and of at most [c] days. *)
Definition gapsBelow (c : Q) (gs : list Q) : nat :=
  List.length (filter (fun g => negb (Qle_bool c g)) gs).
Definition gapsUpTo (c : Q) (gs : list Q) : nat :=
  List.length (filter (fun g => Qle_bool g c) gs).

(** The amount recorded for a key, 0 for a key that is missing. *)
Definition amount (o : obj Q) (k : string) : Q :=
  match get k o with Some q => q | None => 0 end.

(** The orders at the restaurant [k]. *)
Definition ordersAt (orders : list Order) (k : string) : list Order :=
  filter (inGroup restaurant_name k) orders.

(** * Properties *)

(** ** Numbers *)

Lemma Qltb_true (a b : Q) : JS.Qltb a b = true <-> a < b.
Proof.
  unfold JS.Qltb. rewrite negb_true_iff.
  split; intro H.
  - apply Qnot_le_lt. intro L. apply Qle_bool_iff in L. congruence.
  - destruct (Qle_bool b a) eqn:E; [|reflexivity].
    apply Qle_bool_iff in E. exfalso. exact (Qlt_not_le _ _ H E).
Qed.

Lemma Qltb_false (a b : Q) : JS.Qltb a b = false <-> b <= a.
Proof.
  unfold JS.Qltb. rewrite negb_false_iff. apply Qle_bool_iff.
Qed.

Lemma gt_Fin (a b : Q) : JS.gt (JS.Fin a) (JS.Fin b) = true <-> b < a.
Proof. apply Qltb_true. Qed.

Lemma gt_Fin_false (a b : Q) : JS.gt (JS.Fin a) (JS.Fin b) = false <-> a <= b.
Proof. apply Qltb_false. Qed.



Lemma ofNat_nonzero (n : nat) :
  n <> O -> Qeq_bool (inject_Z (Z.of_nat n)) 0 = false.
Proof.
  intro H. destruct (Qeq_bool (inject_Z (Z.of_nat n)) 0) eqn:E; [|reflexivity].
  apply Qeq_bool_iff in E. unfold Qeq in E. simpl in E. lia.
Qed.

Lemma div_ofNat (a : Q) (n : nat) :
  n <> O ->
  JS.div (JS.Fin a) (JS.ofNat n) = JS.Fin (a / inject_Z (Z.of_nat n)).
Proof.
  intro H. unfold JS.div, JS.ofNat. rewrite (ofNat_nonzero n H). reflexivity.
Qed.

(** ** Dates *)

(** 1970-01-01 was a Thursday. *)
Example epoch_is_thursday : Date.WeekDay 0 = 4%Z.
Proof. reflexivity. Qed.

(** Printing what was read gives the string back. *)
Example toISOString_of_parse :
  Date.toISOString (Iso.parse "2024-02-29T23:59:59.999Z")
  = Normal "2024-02-29T23:59:59.999Z".
Proof. vm_compute. reflexivity. Qed.

(** On every day from 1970-01-01 to 2069-12-31 the calendar date of a
    day number is a month of 1..12 and a day of 1..31 whose day number
    is the one we started from. *)
Lemma civil_daysFromCivil_1970_2069 :
  forDays
    (Z.to_nat (Iso.daysFromCivil 2069 12 31 - Iso.daysFromCivil 1970 1 1 + 1))
    (Iso.daysFromCivil 1970 1 1)
    (fun day =>
       let '(y, m, d) := Date.civil day in
       ((1 <=? m) && (m <=? 12) && (1 <=? d) && (d <=? 31)
        && (Iso.daysFromCivil y m d =? day))%Z)
  = true.
Proof. vm_compute. reflexivity. Qed.

(** ** Sums *)

Lemma fold_add_Fin (l : list Q) (a : Q) :
  fold_left JS.add (map JS.Fin l) (JS.Fin a) = JS.Fin (fold_left Qplus l a).
Proof.
  revert a. induction l as [|x l IH]; intro a; simpl; [reflexivity|].
  apply IH.
Qed.

Lemma fold_Qplus_sumQ (l : list Q) (a : Q) :
  fold_left Qplus l a == a + sumQ l.
Proof.
  revert a. induction l as [|x l IH]; intro a; simpl.
  - ring.
  - rewrite IH. ring.
Qed.

(** [_.sum] of finite numbers is their sum. *)
Lemma sum_Fin (l : list Q) :
  exists q, Lodash.sum (map JS.Fin l) = JS.Fin q /\ q == sumQ l.
Proof.
  destruct l as [|x l]; simpl.
  - exists 0. split; reflexivity.
  - rewrite fold_add_Fin. eexists. split; [reflexivity|].
    apply fold_Qplus_sumQ.
Qed.


Lemma sumBy_totalValue (l : list Order) :
  exists q, Lodash.sumBy totalValue l = JS.Fin q
            /\ q == sumQ (map total_value l).
Proof.
  destruct (sum_Fin (map total_value l)) as [t [Ht Hs]].
  exists t. split; [|exact Hs].
  unfold Lodash.sumBy, totalValue. rewrite <- Ht, map_map. reflexivity.
Qed.

Lemma sumQ_nonneg (l : list Q) : Forall (fun q => 0 <= q) l -> 0 <= sumQ l.
Proof.
  induction 1 as [|x r Hx _ IH]; simpl; [apply Qle_refl|].
  replace 0 with (0 + 0) by reflexivity. apply Qplus_le_compat; assumption.
Qed.

(** The [reduce] that adds up the quantities of the items. *)
Lemma totalQuantity_sumQ (its : list OrderItem) :
  totalQuantity its == sumQ (map quantity its).
Proof.
  unfold totalQuantity.
  assert (H : forall a, fold_left (fun sum item => sum + quantity item) its a
                        == a + sumQ (map quantity its)).
  { induction its as [|i r IH]; intro a; simpl; [ring|]. rewrite IH. ring. }
  rewrite H. ring.
Qed.

(** ** The stable sort *)

Section SortFacts.
Context {A : Type}.
Variable le : A -> A -> bool.

Lemma insert_perm (x : A) (l : list A) :
  Permutation (x :: l) (Arr.insert le x l).
Proof.
  induction l as [|y r IH]; simpl; [apply Permutation_refl|].
  destruct (le x y); [apply Permutation_refl|].
  eapply Permutation_trans; [apply perm_swap|].
  apply perm_skip. exact IH.
Qed.

Lemma sort_perm (l : list A) : Permutation l (Arr.sort le l).
Proof.
  induction l as [|x r IH]; simpl; [apply Permutation_refl|].
  eapply Permutation_trans; [|apply insert_perm].
  apply perm_skip. exact IH.
Qed.

Lemma sort_length (l : list A) : List.length (Arr.sort le l) = List.length l.
Proof. symmetry. apply Permutation_length. apply sort_perm. Qed.

Lemma sort_In (x : A) (l : list A) : In x (Arr.sort le l) <-> In x l.
Proof.
  split; intro H.
  - eapply Permutation_in; [apply Permutation_sym; apply sort_perm|exact H].
  - eapply Permutation_in; [apply sort_perm|exact H].
Qed.

Hypothesis le_total : forall a b, le a b = true \/ le b a = true.

Let R (a b : A) : Prop := le a b = true.

Lemma insert_sorted (x : A) (l : list A) :
  Sorted R l -> Sorted R (Arr.insert le x l).
Proof.
  induction 1 as [|y r Hs IH Hd]; simpl.
  - constructor; constructor.
  - destruct (le x y) eqn:E.
    + constructor; [constructor; assumption|]. constructor. exact E.
    + constructor; [exact IH|].
      destruct r as [|z r']; simpl.
      * constructor. destruct (le_total x y) as [H|H]; [congruence|exact H].
      * destruct (le x z).
        -- constructor.
           destruct (le_total x y) as [H|H]; [congruence|exact H].
        -- constructor. inversion Hd; assumption.
Qed.

Lemma sort_sorted (l : list A) : Sorted R (Arr.sort le l).
Proof.
  induction l as [|x r IH]; simpl; [constructor|].
  apply insert_sorted. exact IH.
Qed.
End SortFacts.

(** The comparator [(a, b) => a - b] on finite numbers is [<=]. *)
Lemma byNumber_Fin (a b : Q) :
  Arr.byNumber (fun v => v) (JS.Fin a) (JS.Fin b) = Qle_bool a b.
Proof.
  unfold Arr.byNumber, JS.sub, JS.neg, JS.add, JS.le, JS.lt, JS.eq.
  apply eq_true_iff_eq.
  rewrite orb_true_iff, Qltb_true, Qeq_bool_iff, Qle_bool_iff.
  split.
  - intros [H|H].
    + apply Qlt_le_weak in H. apply (Qplus_le_l _ _ (- b)).
      rewrite Qplus_opp_r. exact H.
    + apply (Qplus_le_l _ _ (- b)). rewrite Qplus_opp_r, H. apply Qle_refl.
  - intro H. apply Qle_lteq.
    apply (Qplus_le_l _ _ (- b)) in H. rewrite Qplus_opp_r in H. exact H.
Qed.

Lemma insert_map_Fin (x : Q) (l : list Q) :
  Arr.insert (Arr.byNumber (fun v => v)) (JS.Fin x) (map JS.Fin l)
  = map JS.Fin (Arr.insert Qle_bool x l).
Proof.
  induction l as [|y r IH]; simpl; [reflexivity|].
  rewrite byNumber_Fin. destruct (Qle_bool x y); simpl; [reflexivity|].
  rewrite IH. reflexivity.
Qed.

Lemma sort_map_Fin (l : list Q) :
  Arr.sort (Arr.byNumber (fun v => v)) (map JS.Fin l)
  = map JS.Fin (Arr.sort Qle_bool l).
Proof.
  induction l as [|x r IH]; simpl; [reflexivity|].
  rewrite IH. apply insert_map_Fin.
Qed.

Lemma Qle_bool_total (a b : Q) : Qle_bool a b = true \/ Qle_bool b a = true.
Proof.
  rewrite !Qle_bool_iff.
  destruct (Qlt_le_dec a b) as [H|H];
    [left; apply Qlt_le_weak; exact H|right; exact H].
Qed.

Lemma Sorted_Qle_bool (l : list Q) :
  Sorted (fun a b => Qle_bool a b = true) l -> Sorted Qle l.
Proof.
  induction 1 as [|y r Hs IH Hd]; constructor; [exact IH|].
  destruct Hd; constructor. apply Qle_bool_iff. assumption.
Qed.

Lemma numAt_map_Fin (l : list Q) (i : nat) :
  (i < List.length l)%nat -> numAt (map JS.Fin l) i = JS.Fin (nth i l 0).
Proof.
  intro H. unfold numAt.
  rewrite (nth_indep _ JS.NaN (JS.Fin 0)) by (rewrite length_map; exact H).
  apply map_nth.
Qed.

(** ** Objects *)

Section ObjFacts.
Context {V : Type}.

Lemma get_Some_In (k : string) (v : V) (o : obj V) :
  get k o = Some v -> In (k, v) o.
Proof.
  induction o as [|[k' v'] r IH]; simpl; [discriminate|].
  destruct (String.eqb k k') eqn:E.
  - apply String.eqb_eq in E. intro H. injection H as ->. left. congruence.
  - intro H. right. apply IH. exact H.
Qed.

Lemma get_None_notin (k : string) (o : obj V) :
  get k o = None -> ~ In k (map fst o).
Proof.
  induction o as [|[k' v'] r IH]; simpl; [tauto|].
  destruct (String.eqb k k') eqn:E; [discriminate|].
  apply String.eqb_neq in E. intros H [H1|H1]; [congruence|].
  exact (IH H H1).
Qed.

Lemma set_keys_present (k : string) (v : V) (o : obj V) :
  In k (map fst o) -> map fst (set k v o) = map fst o.
Proof.
  induction o as [|[k' v'] r IH]; simpl; [tauto|].
  destruct (String.eqb k k') eqn:E; [reflexivity|].
  apply String.eqb_neq in E. intros [H|H]; [congruence|].
  simpl. rewrite IH by exact H. reflexivity.
Qed.

Lemma set_absent (k : string) (v : V) (o : obj V) :
  ~ In k (map fst o) -> set k v o = (o ++ [(k, v)])%list.
Proof.
  induction o as [|[k' v'] r IH]; simpl; [reflexivity|].
  intro H. destruct (String.eqb k k') eqn:E.
  - apply String.eqb_eq in E. exfalso. apply H. left. congruence.
  - rewrite IH; [reflexivity|]. intro H1. apply H. right. exact H1.
Qed.

Lemma In_set_present (k : string) (v : V) (o : obj V) (k' : string) (v' : V) :
  NoDup (map fst o) -> In k (map fst o) ->
  (In (k', v') (set k v o)
   <-> (k' = k /\ v' = v) \/ (k' <> k /\ In (k', v') o)).
Proof.
  induction o as [|[k0 v0] r IH]; simpl; [tauto|].
  intros Hnd Hin. inversion Hnd as [|? ? Hn0 Hnd']; subst.
  destruct (String.eqb k k0) eqn:E.
  - apply String.eqb_eq in E. subst k0. simpl. split.
    + intros [H|H].
      * injection H as -> ->. left. split; reflexivity.
      * right. split; [|right; exact H].
        intro. subst k'. apply Hn0. change k with (fst (k, v')).
        apply in_map. exact H.
    + intros [[-> ->]|[Hne [H|H]]].
      * left. reflexivity.
      * injection H as <- _. congruence.
      * right. exact H.
  - apply String.eqb_neq in E.
    destruct Hin as [Hin|Hin]; [congruence|].
    simpl. rewrite (IH Hnd' Hin). split.
    + intros [H|[H|[Hne H]]].
      * injection H as <- <-. right. split; [congruence|left; reflexivity].
      * left. exact H.
      * right. split; [exact Hne|right; exact H].
    + intros [H|[Hne [H|H]]].
      * right. left. exact H.
      * left. exact H.
      * right. right. split; assumption.
Qed.

Lemma set_Forall_values (P : V -> Prop) (k : string) (v : V) (o : obj V) :
  Forall (fun e => P (snd e)) o -> P v ->
  Forall (fun e => P (snd e)) (set k v o).
Proof.
  intros Ho Hv. induction Ho as [|[k' v'] r He Hr IH]; simpl.
  - constructor; [exact Hv|constructor].
  - destruct (String.eqb k k'); constructor; simpl; assumption.
Qed.
End ObjFacts.

Lemma filter_split_perm {A : Type} (p : A -> bool) (l : list A) :
  Permutation l (filter p l ++ filter (fun x => negb (p x)) l).
Proof.
  induction l as [|x r IH]; simpl; [constructor|].
  destruct (p x); simpl.
  - constructor. exact IH.
  - apply Permutation_cons_app. exact IH.
Qed.

Lemma indexEntries_filter {V : Type} (o : obj V) :
  map snd (indexEntries o) = filter hasIndexKey o.
Proof.
  induction o as [|e r IH]; simpl; [reflexivity|].
  unfold hasIndexKey at 1.
  destruct (Str.arrayIndex (fst e)); simpl; rewrite IH; reflexivity.
Qed.

Lemma nameEntries_filter {V : Type} (o : obj V) :
  nameEntries o = filter (fun e => negb (hasIndexKey e)) o.
Proof.
  unfold nameEntries. apply filter_ext. intro e. unfold hasIndexKey.
  destruct (Str.arrayIndex (fst e)); reflexivity.
Qed.

(** Enumerating an object visits every entry once. *)
Lemma entries_perm {V : Type} (o : obj V) : Permutation o (entries o).
Proof.
  unfold entries.
  eapply Permutation_trans; [apply (filter_split_perm hasIndexKey)|].
  rewrite <- nameEntries_filter, <- indexEntries_filter.
  apply Permutation_app_tail. apply Permutation_map. apply sort_perm.
Qed.

Lemma filter_length_perm {A : Type} (p : A -> bool) (l l' : list A) :
  Permutation l l' -> List.length (filter p l) = List.length (filter p l').
Proof.
  induction 1 as [|x l l' _ IH|x y l|l l' l'' _ IH1 _ IH2]; simpl.
  - reflexivity.
  - destruct (p x); simpl; congruence.
  - destruct (p x), (p y); reflexivity.
  - congruence.
Qed.

(** ** Counting with [_.countBy] *)

Lemma count_occ_snoc (l : list string) (k k' : string) :
  count_occ string_dec (l ++ [k]) k' =
  (count_occ string_dec l k' + if string_dec k k' then 1 else 0)%nat.
Proof.
  rewrite count_occ_app. simpl. destruct (string_dec k k'); reflexivity.
Qed.

Lemma countStep_counts (l : list string) (o : obj nat) (k : string) :
  counts_of l o -> counts_of (l ++ [k]) (Lodash.countStep o k).
Proof.
  intros [Hnd Hc]. unfold Lodash.countStep.
  destruct (get k o) as [n|] eqn:G.
  - pose proof (get_Some_In _ _ _ G) as Hin.
    assert (Hk : In k (map fst o))
      by (change k with (fst (k, n)); apply in_map; exact Hin).
    split; [rewrite set_keys_present by exact Hk; exact Hnd|].
    intros k' n'. rewrite (In_set_present _ _ _ _ _ Hnd Hk), count_occ_snoc.
    apply Hc in Hin. destruct Hin as [Hn Hpos].
    destruct (string_dec k k') as [->|Hne].
    + split.
      * intros [[_ ->]|[Hx _]]; [|congruence]. split; lia.
      * intros [-> _]. left. split; [reflexivity|lia].
    + rewrite Nat.add_0_r. rewrite Hc. split.
      * intros [[-> _]|[_ H]]; [congruence|exact H].
      * intro H. right. split; [congruence|exact H].
  - pose proof (get_None_notin _ _ G) as Hk.
    rewrite set_absent by exact Hk.
    assert (H0 : count_occ string_dec l k = O).
    { destruct (count_occ string_dec l k) as [|c] eqn:Ec; [reflexivity|].
      exfalso. apply Hk. change k with (fst (k, S c)). apply in_map.
      apply Hc. split; [congruence|lia]. }
    split.
    + rewrite map_app. simpl.
      apply Permutation_NoDup with (l := k :: map fst o).
      * apply Permutation_cons_append.
      * constructor; assumption.
    + intros k' n'. rewrite in_app_iff, count_occ_snoc, Hc. simpl.
      destruct (string_dec k k') as [->|Hne].
      * rewrite H0. split.
        -- intros [[-> H]|[H|[]]]; [lia|]. injection H as <-. split; lia.
        -- intros [-> _]. right. left. reflexivity.
      * rewrite Nat.add_0_r. split.
        -- intros [H|[H|[]]]; [exact H|]. injection H as -> _. congruence.
        -- intro H. left. exact H.
Qed.

Lemma countBy_fold_counts (l pre : list string) (o : obj nat) :
  counts_of pre o ->
  counts_of (pre ++ l) (fold_left (fun acc x => Lodash.countStep acc x) l o).
Proof.
  revert pre o. induction l as [|x r IH]; intros pre o H; simpl.
  - rewrite app_nil_r. exact H.
  - replace (pre ++ x :: r)%list with ((pre ++ [x]) ++ r)%list
      by (rewrite <- app_assoc; reflexivity).
    apply IH. apply countStep_counts. exact H.
Qed.

Lemma countBy_counts (l : list string) :
  counts_of l (Lodash.countBy (fun s => s) l).
Proof.
  unfold Lodash.countBy.
  apply (countBy_fold_counts l [] []).
  split; [constructor|]. intros k n. simpl. split; [tauto|]. intros [-> H]. lia.
Qed.

(** The values of a count are the numbers of occurrences of the
    distinct elements. *)
Lemma count_values_filter (l : list string) (p : nat -> bool) :
  List.length (filter p (values (Lodash.countBy (fun s => s) l)))
  = List.length (filter (fun s => p (count_occ string_dec l s))
                        (nodup string_dec l)).
Proof.
  destruct (countBy_counts l) as [Hnd Hc].
  set (o := Lodash.countBy (fun s => s) l) in *.
  unfold values.
  rewrite (filter_length_perm p (map snd (entries o)) (map snd o))
    by (apply Permutation_map, Permutation_sym, entries_perm).
  assert (Hv : map snd o = map (count_occ string_dec l) (map fst o)).
  { rewrite map_map. apply map_ext_in. intros [k n] Hin. simpl.
    apply Hc in Hin. tauto. }
  rewrite Hv, filter_map_swap, length_map.
  apply filter_length_perm.
  apply NoDup_Permutation; [exact Hnd|apply NoDup_nodup|].
  intro k. rewrite nodup_In. split.
  - intro H. apply in_map_iff in H. destruct H as [[k' n] [<- Hin]].
    apply Hc in Hin. simpl. apply (count_occ_In string_dec). lia.
  - intro H. apply (count_occ_In string_dec) in H.
    change k with (fst (k, count_occ string_dec l k)).
    apply in_map. apply Hc. split; [reflexivity|lia].
Qed.

Lemma filter_idem {A : Type} (p : A -> bool) (l : list A) :
  filter p (filter p l) = filter p l.
Proof.
  induction l as [|x r IH]; simpl; [reflexivity|].
  destruct (p x) eqn:E; simpl; [rewrite E, IH; reflexivity|exact IH].
Qed.

(** ** Exceptions *)

(** A loop throws [e] as soon as one element makes its body throw [e],
    when the body can throw nothing else. *)
Lemma foldM_throws {A S : Type} (f : S -> A -> completion S) (e : exn)
  (l : list A) (x0 : A) :
  (forall s x, (exists s', f s x = Normal s') \/ f s x = Throw e) ->
  In x0 l -> (forall s, f s x0 = Throw e) ->
  forall s, foldM f l s = Throw e.
Proof.
  intros Hf Hin Hx0. induction l as [|x r IH]; intro s; [destruct Hin|].
  simpl. destruct Hin as [->|Hin].
  - rewrite Hx0. reflexivity.
  - destruct (Hf s x) as [[s' Hs]|Hs]; rewrite Hs; simpl.
    + apply IH. exact Hin.
    + reflexivity.
Qed.

Lemma isoMonthKey_invalid (rt : Runtime) (o : Order) :
  dateParse rt (date o) = None -> isoMonthKey rt o = Throw RangeError.
Proof.
  intro H. unfold isoMonthKey, Date.new. rewrite H. reflexivity.
Qed.

Lemma isoMonthKey_cases (rt : Runtime) (o : Order) :
  (exists k, isoMonthKey rt o = Normal k) \/ isoMonthKey rt o = Throw RangeError.
Proof.
  unfold isoMonthKey, Date.new. destruct (dateParse rt (date o)); simpl.
  - left. eexists. reflexivity.
  - right. reflexivity.
Qed.

Lemma mapM_isoMonthKey_throws (rt : Runtime) (l : list Order) (o : Order) :
  In o l -> dateParse rt (date o) = None ->
  mapM (isoMonthKey rt) l = Throw RangeError.
Proof.
  intros Hin Hp. unfold mapM.
  apply (foldM_throws _ RangeError l o); [|exact Hin|].
  - intros s x.
    destruct (isoMonthKey_cases rt x) as [[k Hk]|Hk]; rewrite Hk; simpl.
    + left. eexists. reflexivity.
    + right. reflexivity.
  - intro s. rewrite (isoMonthKey_invalid rt o Hp). reflexivity.
Qed.

Lemma analyzeTimePatterns_throws (rt : Runtime) (l : list Order) (o : Order) :
  In o l -> dateParse rt (date o) = None ->
  analyzeTimePatterns rt l = Throw RangeError.
Proof.
  intros Hin Hp. unfold analyzeTimePatterns.
  destruct l as [|x r]; [destruct Hin|].
  change (List.length (x :: r) =? 0)%nat with false. cbv iota.
  unfold countByM. rewrite (mapM_isoMonthKey_throws rt (x :: r) o Hin Hp).
  reflexivity.
Qed.

Lemma analyzeDiversity_throws (rt : Runtime) (l : list Order) (o : Order) :
  In o l -> dateParse rt (date o) = None ->
  (List.length l <? 2)%nat = false ->
  analyzeDiversity rt l = Throw RangeError.
Proof.
  intros Hin Hp Hlen. unfold analyzeDiversity. rewrite Hlen.
  rewrite (foldM_throws (discoveryStep rt) RangeError l o);
    [reflexivity| |exact Hin|].
  - intros [seen monthly] x. unfold discoveryStep.
    destruct (isoMonthKey_cases rt x) as [[k Hk]|Hk]; rewrite Hk; simpl.
    + left. destruct (negb _); eexists; reflexivity.
    + right. reflexivity.
  - intros [seen monthly]. unfold discoveryStep.
    rewrite (isoMonthKey_invalid rt o Hp). reflexivity.
Qed.

Lemma at_first {A : Type} (x : A) (l : list A) : at_ (x :: l) 0 = Normal x.
Proof. reflexivity. Qed.

Lemma at_last {A : Type} (l : list A) :
  l <> [] -> exists x, at_ l (List.length l - 1) = Normal x.
Proof.
  intro H. unfold at_.
  destruct (nth_error l (List.length l - 1)) eqn:E.
  - eexists. reflexivity.
  - apply nth_error_None in E. destruct l; [congruence|simpl in E; lia].
Qed.

Lemma last_cons_cons {A : Type} (b : A) (r : list A) (a : A) :
  last (b :: r) a = last r b.
Proof.
  revert a b. induction r as [|c r IH]; intros a b; [reflexivity|].
  change (last (b :: c :: r) a) with (last (c :: r) a).
  rewrite (IH a c), (IH b c). reflexivity.
Qed.

(** ** The trend of the recent months *)



Lemma analyzePredictive_general (rt : Runtime) (orders : list Order)
  (spending : SpendingAnalytics) (timeAnalysis : TimeAnalytics) :
  (2 <= List.length orders)%nat ->
  exists p,
    analyzePredictive rt orders spending timeAnalysis = Normal p /\
    trend_percentage p = capTrend (trendPercentageOf (recentMonths rt spending)) /\
    spending_trend p =
      (if JS.gt (trend_percentage p) (JS.Fin 5) then increasing
       else if JS.lt (trend_percentage p) (JS.Fin (-5)) then decreasing
       else stable) /\
    exists baseForecast,
      forecasted_monthly_spending p =
        JS.mul baseForecast
               (JS.add (JS.Fin 1) (JS.div (trend_percentage p) num100)).
Proof.
  intro H. unfold analyzePredictive.
  destruct (List.length orders <? 2)%nat eqn:E; [apply Nat.ltb_lt in E; lia|].
  destruct orders as [|o1 r]; [simpl in H; lia|].
  rewrite at_first.
  destruct (at_last (o1 :: r)) as [oLast HL]; [discriminate|].
  rewrite HL. cbn [bind].
  destruct (fold_left weightStep (indexed (recentMonths rt spending))
                      (JS.Fin 0, JS.Fin 0)) as [ws tw].
  eexists. split; [reflexivity|]. split; [reflexivity|].
  split; [reflexivity|]. eexists. reflexivity.
Qed.

(** The monthly totals that the spending analyzer produces are finite. *)
Lemma analyzeSpending_monthly_finite (rt : Runtime) (orders : list Order) :
  Forall (fun e => finite (snd e)) (monthly_spending (analyzeSpending rt orders)).
Proof.
  unfold analyzeSpending. cbn [monthly_spending].
  generalize (entries (Lodash.groupBy (localMonthKey rt) orders)).
  intro es.
  assert (H : Forall (fun e : string * JS.num => finite (snd e)) [])
    by constructor.
  revert H. generalize (@nil (string * JS.num)).
  induction es as [|e r IH]; intros acc Hacc; simpl; [exact Hacc|].
  apply IH. apply set_Forall_values; [exact Hacc|].
  destruct (sumBy_totalValue (snd e)) as [q [Hq _]]. rewrite Hq. reflexivity.
Qed.














(** What makes [leastSquaresSlope] the slope of the least-squares
    line: with the intercept that puts the line through the means, the
    residuals add up to 0 and so do their products with the index
    (the two normal equations), for the two to six values of the
    recent months. *)
Lemma leastSquaresSlope_normal_equations (ys : list Q) :
  (2 <= List.length ys <= 6)%nat ->
  let xs := indices (List.length ys) in
  let b := leastSquaresSlope ys in
  let a := meanQ ys - b * meanQ xs in
  let residuals := map (fun p => snd p - (a + b * fst p)) (combine xs ys) in
  sumQ residuals == 0 /\ dotQ xs residuals == 0.
Proof.
  intro H.
  destruct ys as [|y0 [|y1 [|y2 [|y3 [|y4 [|y5 [|y6 r]]]]]]];
    cbn [List.length] in H; try lia;
    cbv zeta;
    unfold leastSquaresSlope, meanQ, dotQ, indices, sumQ;
    cbn [List.length seq map combine fold_right fst snd];
    change (inject_Z (Z.of_nat 0)) with 0;
    change (inject_Z (Z.of_nat 1)) with 1;
    change (inject_Z (Z.of_nat 2)) with 2;
    change (inject_Z (Z.of_nat 3)) with 3;
    change (inject_Z (Z.of_nat 4)) with 4;
    change (inject_Z (Z.of_nat 5)) with 5;
    change (inject_Z (Z.of_nat 6)) with 6;
    split; field; repeat split; discriminate.
Qed.








Lemma isMonthKey_app (a b : string) :
  isMonthKey (a ++ b) = isMonthKey a && isMonthKey b.
Proof.
  unfold isMonthKey. induction a as [|c r IH]; [reflexivity|].
  cbn [append allChars]. rewrite IH, andb_assoc. reflexivity.
Qed.

Lemma digits_isMonthKey (d : Decimal.uint) :
  isMonthKey (NilEmpty.string_of_uint d) = true.
Proof. induction d; cbn [NilEmpty.string_of_uint]; try exact IHd; reflexivity. Qed.

Lemma ofInt_isMonthKey (i : option Z) : isMonthKey (Str.ofInt i) = true.
Proof.
  destruct i as [z|]; [|reflexivity].
  unfold Str.ofInt, Str.ofZ, NilZero.string_of_int.
  assert (H : forall d, isMonthKey (NilZero.string_of_uint d) = true).
  { intro d. destruct d; [reflexivity|..];
      match goal with
      | |- isMonthKey (NilZero.string_of_uint ?u) = true =>
          exact (digits_isMonthKey u)
      end. }
  destruct (Z.to_int z) as [d|d]; [apply H|].
  change (isMonthKey (String "-" (NilZero.string_of_uint d)))
    with (isMonthKey (NilZero.string_of_uint d)).
  apply H.
Qed.

Lemma padStart0_isMonthKey (n : nat) (s : string) :
  isMonthKey s = true -> isMonthKey (Str.padStart0 n s) = true.
Proof.
  intro H. unfold Str.padStart0. rewrite isMonthKey_app, H, andb_true_r.
  induction (n - String.length s)%nat as [|k IH]; [reflexivity|exact IH].
Qed.

(** The month keys of the engine are made of digits, [-] and the
    letters of [NaN]. *)
Lemma localMonthKey_isMonthKey (rt : Runtime) (o : Order) :
  isMonthKey (localMonthKey rt o) = true.
Proof.
  unfold localMonthKey. rewrite !isMonthKey_app, ofInt_isMonthKey.
  rewrite padStart0_isMonthKey by apply ofInt_isMonthKey. reflexivity.
Qed.

(** Writing a key keeps the keys distinct. *)
Lemma set_keeps_keys {V : Type} (P : string -> Prop) (k : string) (v : V)
      (o : obj V) :
  NoDup (map fst o) -> Forall P (map fst o) -> P k ->
  NoDup (map fst (set k v o)) /\ Forall P (map fst (set k v o)).
Proof.
  intros Hnd Hf Hk.
  destruct (in_dec string_dec k (map fst o)) as [Hin|Hnin].
  - rewrite set_keys_present by exact Hin. split; assumption.
  - rewrite set_absent by exact Hnin. rewrite map_app. split.
    + apply NoDup_app; [exact Hnd|repeat constructor; intros []|].
      intros x Hx [<-|[]]. exact (Hnin Hx).
    + apply Forall_app. split; [exact Hf|]. repeat constructor. exact Hk.
Qed.

Lemma fold_keeps_keys {E V : Type} (P : string -> Prop) (key : E -> string)
      (step : obj V -> E -> obj V) (es : list E) (acc : obj V) :
  (forall a e, exists v, step a e = set (key e) v a) ->
  Forall (fun e => P (key e)) es ->
  NoDup (map fst acc) -> Forall P (map fst acc) ->
  NoDup (map fst (fold_left step es acc)) /\
  Forall P (map fst (fold_left step es acc)).
Proof.
  intros Hstep Hes. revert acc.
  induction Hes as [|e r He _ IH]; intros acc Hnd Hf; [split; assumption|].
  cbn [fold_left]. destruct (Hstep acc e) as [v ->].
  destruct (set_keeps_keys P (key e) v acc Hnd Hf He) as [Hnd' Hf'].
  apply IH; assumption.
Qed.

(** What [analyzeSpending] records per month are monthly totals. *)
Lemma analyzeSpending_monthlyTotals (rt : Runtime) (orders : list Order) :
  monthlyTotals (monthly_spending (analyzeSpending rt orders)).
Proof.
  pose proof (analyzeSpending_monthly_finite rt orders) as Hfin.
  unfold analyzeSpending in *. cbn [monthly_spending] in *.
  set (P := fun k => isMonthKey k = true).
  assert (Hg : Forall P (map fst (Lodash.groupBy (localMonthKey rt) orders))).
  { unfold Lodash.groupBy.
    apply (fold_keeps_keys P (localMonthKey rt)
             (fun acc x => Lodash.groupStep acc (localMonthKey rt x) x)
             orders []).
    - intros a e. unfold Lodash.groupStep.
      destruct (get (localMonthKey rt e) a); eexists; reflexivity.
    - apply Forall_forall. intros o _. apply localMonthKey_isMonthKey.
    - constructor.
    - constructor. }
  assert (He : Forall (fun e : string * list Order => P (fst e))
                      (entries (Lodash.groupBy (localMonthKey rt) orders))).
  { apply Forall_map.
    eapply Permutation_Forall; [apply Permutation_map; apply entries_perm|].
    exact Hg. }
  destruct (fold_keeps_keys P fst
              (fun (acc : obj JS.num) (e : string * list Order) =>
                 set (fst e) (Lodash.sumBy totalValue (snd e)) acc)
              (entries (Lodash.groupBy (localMonthKey rt) orders)) [])
    as [Hnd Hk].
  - intros a e. eexists. reflexivity.
  - exact He.
  - constructor.
  - constructor.
  - split; [exact Hnd|].
    apply Forall_forall. intros e Hin.
    rewrite Forall_forall in Hk, Hfin.
    split; [apply Hk; apply in_map; exact Hin|apply Hfin; exact Hin].
Qed.


(** ** Order sizes *)

(** The tests of the loop are tests on the summed item quantity. *)
Lemma itemCount_test (o : Order) (c : Q) :
  Qle_bool (totalQuantity (items o)) c = Qle_bool (summedQuantity o) c.
Proof.
  unfold summedQuantity.
  pose proof (totalQuantity_sumQ (items o)) as E.
  destruct (Qle_bool (sumQ (map quantity (items o))) c) eqn:B.
  - apply Qle_bool_iff. apply Qle_bool_iff in B. rewrite E. exact B.
  - destruct (Qle_bool (totalQuantity (items o)) c) eqn:A; [|reflexivity].
    apply Qle_bool_iff in A. rewrite E in A. apply Qle_bool_iff in A.
    congruence.
Qed.

Lemma small_is_at_most_five (o : Order) :
  Qle_bool (summedQuantity o) 2 = true ->
  Qle_bool (summedQuantity o) 5 = true.
Proof.
  intro E2. apply Qle_bool_iff. apply Qle_bool_iff in E2.
  eapply Qle_trans; [exact E2|]. discriminate.
Qed.

Lemma sizeStep_fold (orders : list Order) (s m l : nat) :
  fold_left sizeStep orders (s, m, l) =
  ((s + List.length (filter isSmall orders))%nat,
   (m + List.length (filter isMedium orders))%nat,
   (l + List.length (filter isLarge orders))%nat).
Proof.
  revert s m l. induction orders as [|o os IH]; intros s m l; simpl.
  - rewrite !Nat.add_0_r. reflexivity.
  - unfold isSmall, isMedium, isLarge. rewrite !itemCount_test.
    destruct (Qle_bool (summedQuantity o) 2) eqn:E2.
    + rewrite (small_is_at_most_five o E2). simpl. rewrite IH.
      unfold isSmall, isMedium, isLarge. repeat (f_equal; try lia).
    + destruct (Qle_bool (summedQuantity o) 5) eqn:E5; simpl;
        rewrite IH; unfold isSmall, isMedium, isLarge;
        repeat (f_equal; try lia).
Qed.

Lemma size_classes_partition (orders : list Order) :
  (List.length (filter isSmall orders) + List.length (filter isMedium orders)
   + List.length (filter isLarge orders) = List.length orders)%nat.
Proof.
  induction orders as [|o os IH]; simpl; [reflexivity|].
  unfold isSmall, isMedium, isLarge in *.
  destruct (Qle_bool (summedQuantity o) 2) eqn:E2.
  - rewrite (small_is_at_most_five o E2). simpl. lia.
  - destruct (Qle_bool (summedQuantity o) 5) eqn:E5; simpl; lia.
Qed.

(** The classes are cut at 2 and at 5. *)
Lemma size_classes_thresholds (o : Order) :
  (isSmall o = true <-> summedQuantity o <= 2) /\
  (isMedium o = true <-> 2 < summedQuantity o /\ summedQuantity o <= 5) /\
  (isLarge o = true <-> 5 < summedQuantity o).
Proof.
  unfold isSmall, isMedium, isLarge.
  split; [apply Qle_bool_iff|]. split.
  - rewrite andb_true_iff, negb_true_iff. split.
    + intros [A B]. split; [|apply Qle_bool_iff; exact B].
      apply Qnot_le_lt. intro H. apply Qle_bool_iff in H. congruence.
    + intros [A B]. split; [|apply Qle_bool_iff; exact B].
      destruct (Qle_bool (summedQuantity o) 2) eqn:E; [|reflexivity].
      apply Qle_bool_iff in E. exfalso. exact (Qlt_not_le _ _ A E).
  - rewrite negb_true_iff. split.
    + intro A. apply Qnot_le_lt. intro H. apply Qle_bool_iff in H. congruence.
    + intro A. destruct (Qle_bool (summedQuantity o) 5) eqn:E; [|reflexivity].
      apply Qle_bool_iff in E. exfalso. exact (Qlt_not_le _ _ A E).
Qed.

(** ** Insights *)

Lemma timingInsight_category (rt : Runtime) (p : PatternAnalytics) :
  category (timingInsight rt p) = cat_timing.
Proof.
  unfold timingInsight.
  repeat match goal with
         | |- context [if ?b then _ else _] => destruct b
         end; reflexivity.
Qed.

(** The insights of a result are generated from its own facets. *)
Lemma analyze_insights (rt : Runtime) (orders : list Order)
  (x : FullAnalytics) :
  filter isDelivered orders <> [] -> analyze rt orders = Normal x ->
  insights x =
    generateInsights rt (spending x) (restaurants x) (patterns x)
      (costOptimization x) (predictive x) (advanced x) (healthDietary x)
      (diversity x).
Proof.
  intro Hne. unfold analyze.
  destruct (filter isDelivered orders) as [|o r]; [congruence|].
  change (List.length (o :: r) =? 0)%nat with false. cbv iota zeta.
  destruct (analyzeDiversity rt _) as [dv|]; cbn [bind]; [|discriminate].
  destruct (analyzeTimePatterns rt _) as [ta|]; cbn [bind]; [|discriminate].
  destruct (analyzePredictive rt _ _ _) as [pr|]; cbn [bind]; [|discriminate].
  destruct (analyzeAdvancedMetrics rt _ _ _ _) as [ad|]; cbn [bind];
    [|discriminate].
  intro H. injection H as <-. reflexivity.
Qed.

(** * The claims *)

(** C1.  The weekend filter of [analyzePatterns] counts an order exactly
    when its local weekday is Friday (5) or Saturday (6), not Saturday
    or Sunday: an order of Sunday 2024-01-07 is not counted in
    [weekend_orders] and an order of Friday 2024-01-05 is.  The example
    of Saturday 2024-01-06 with Tuesday 2024-01-09 still gives
    [weekend_orders = 1], [weekday_orders = 1], [weekend_percentage = 50]. *)
Theorem analyzePatterns_weekend_is_friday_saturday :
  (forall (rt : Runtime) (orders : list Order),
     weekend_orders (weekend_vs_weekday (analyzePatterns rt orders))
     = JS.ofNat (List.length (filter (isWeekendOrder rt) orders))) /\
  (forall (rt : Runtime) (o : Order),
     isWeekendOrder rt o = true <->
     Date.getDay rt (Date.new rt (date o)) = Some 5%Z \/
     Date.getDay rt (Date.new rt (date o)) = Some 6%Z) /\
  Date.weekdayLong Iso.dhaka (Date.new Iso.dhaka (date Sample.sunday))
    = "Sunday" /\
  weekend_orders (weekend_vs_weekday (analyzePatterns Iso.dhaka [Sample.sunday]))
    = JS.Fin 0 /\
  Date.weekdayLong Iso.dhaka (Date.new Iso.dhaka (date Sample.friday))
    = "Friday" /\
  weekend_orders (weekend_vs_weekday (analyzePatterns Iso.dhaka [Sample.friday]))
    = JS.Fin 1 /\
  weekend_orders
    (weekend_vs_weekday
       (analyzePatterns Iso.dhaka [Sample.saturday; Sample.tuesday]))
    = JS.Fin 1 /\
  weekday_orders
    (weekend_vs_weekday
       (analyzePatterns Iso.dhaka [Sample.saturday; Sample.tuesday]))
    = JS.Fin 1 /\
  JS.same
    (weekend_percentage
       (weekend_vs_weekday
          (analyzePatterns Iso.dhaka [Sample.saturday; Sample.tuesday])))
    (JS.Fin 50).
Proof.
  split; [intros rt orders; reflexivity|].
  split.
  - intros rt o. unfold isWeekendOrder, JS.ieq.
    destruct (Date.getDay rt (Date.new rt (date o))) as [d|].
    + rewrite orb_true_iff, !Z.eqb_eq. split; intros [H|H]; subst; auto;
        injection H as ->; auto.
    + simpl. split; [discriminate|intros [H|H]; discriminate].
  - repeat split; vm_compute; reflexivity.
Qed.

(** C2, as amended.  [categorizeSpending] compares the average with
    strict greater-than thresholds, in order: above 400 it is a
    "Big Spender", above 250 (and at most 400) a "Medium Spender",
    otherwise a "Light Spender".  An average of exactly 250 is a
    "Light Spender" and 400.01 is a "Big Spender". *)
Theorem categorizeSpending_thresholds (q : Q) :
  (sc_type (categorizeSpending (JS.Fin q)) = "Big Spender" <-> 400 < q) /\
  (sc_type (categorizeSpending (JS.Fin q)) = "Medium Spender"
   <-> 250 < q /\ q <= 400) /\
  (sc_type (categorizeSpending (JS.Fin q)) = "Light Spender" <-> q <= 250) /\
  sc_type (categorizeSpending (JS.Fin 250)) = "Light Spender" /\
  sc_type (categorizeSpending (JS.Fin (40001 # 100))) = "Big Spender".
Proof.
  unfold categorizeSpending.
  destruct (JS.gt (JS.Fin q) (JS.Fin 400)) eqn:E4.
  - apply gt_Fin in E4.
    repeat split; simpl; try discriminate; try reflexivity; intros; auto.
    + destruct H as [_ H]. exfalso. exact (Qlt_not_le _ _ E4 H).
    + exfalso. apply (Qlt_not_le _ _ E4).
      eapply Qle_trans; [exact H|]. discriminate.
  - apply gt_Fin_false in E4.
    destruct (JS.gt (JS.Fin q) (JS.Fin 250)) eqn:E2.
    + apply gt_Fin in E2.
      repeat split; simpl; try discriminate; try reflexivity; intros; auto.
      * exfalso. exact (Qlt_not_le _ _ H E4).
      * exfalso. exact (Qlt_not_le _ _ E2 H).
    + apply gt_Fin_false in E2.
      repeat split; simpl; try discriminate; try reflexivity; intros; auto.
      * exfalso. apply (Qlt_not_le _ _ H). exact E4.
      * destruct H as [H _]. exfalso. exact (Qlt_not_le _ _ H E2).
Qed.

(** C2, as stated, fails: an average of exactly 250 is not classified
    as a "Medium Spender". *)
Lemma categorizeSpending_250_not_medium :
  sc_type (categorizeSpending (JS.Fin 250)) <> "Medium Spender".
Proof. vm_compute. discriminate. Qed.

(** C3, as amended.  [analyze] does not validate dates.  When an order
    that survives the status filter has a date that does not parse,
    [analyze] returns no result: the RangeError of
    [Date.prototype.toISOString], raised in the diversity or the time
    facet, ends the call.  The orders that the filter removes are not
    looked at, whatever their date. *)
Theorem analyze_invalid_date_throws :
  (forall (rt : Runtime) (orders : list Order),
     (exists o, In o orders /\ isDelivered o = true
                /\ dateParse rt (date o) = None) ->
     analyze rt orders = Throw RangeError) /\
  (forall (rt : Runtime) (orders : list Order),
     analyze rt orders = analyze rt (filter isDelivered orders)).
Proof.
  split; [|intros rt orders; unfold analyze at 2; rewrite filter_idem;
           reflexivity].
  intros rt orders [o [Hin [Hd Hp]]]. unfold analyze.
  assert (Hdel : In o (filter isDelivered orders))
    by (apply filter_In; split; assumption).
  destruct (filter isDelivered orders) as [|x r] eqn:E; [destruct Hdel|].
  change (List.length (x :: r) =? 0)%nat with false. cbv iota zeta.
  assert (Hs : In o (Arr.sort (Arr.byNumber (orderTime rt)) (x :: r)))
    by (apply sort_In; exact Hdel).
  destruct (List.length (Arr.sort (Arr.byNumber (orderTime rt)) (x :: r)) <? 2)%nat
    eqn:Hlen.
  - rewrite (analyzeTimePatterns_throws rt _ o Hs Hp).
    unfold analyzeDiversity at 1. rewrite Hlen. reflexivity.
  - rewrite (analyzeDiversity_throws rt _ o Hs Hp Hlen). reflexivity.
Qed.

Lemma analyze_invalid_date_witness :
  analyze Iso.utc [Sample.friday; Sample.undated; Sample.tuesday]
  = Throw RangeError.
Proof.
  apply (proj1 analyze_invalid_date_throws Iso.utc
           [Sample.friday; Sample.undated; Sample.tuesday]).
  exists Sample.undated.
  split; [simpl; tauto|]. split; reflexivity.
Defined.

(** C3, as stated, fails: a cancelled order with an unparseable date
    makes [analyze] return the empty record, without any failure; and
    the failure on a delivered order with such a date is the engine's
    RangeError, which carries no order identifier. *)
Lemma analyze_does_not_validate_dates :
  dateParse Iso.utc (date Sample.undatedCancelled) = None /\
  analyze Iso.utc [Sample.undatedCancelled] = Normal getEmptyAnalytics /\
  dateParse Iso.utc (date Sample.undated) = None /\
  analyze Iso.utc [Sample.undated] = Throw RangeError.
Proof. repeat split; vm_compute; reflexivity. Qed.

(** C4.  When no order survives the status filter (the empty list
    included), [analyze] returns, without throwing, the constant
    [getEmptyAnalytics]: every numeric field is 0 except
    [spending_percentile], which is 50; every mapping is empty;
    [spending_category.type] is "N/A"; [insights] is empty.  The record
    depends neither on the orders nor on the runtime. *)
Theorem analyze_empty_is_canonical (rt : Runtime) (orders : list Order) :
  filter isDelivered orders = [] ->
  analyze rt orders = Normal getEmptyAnalytics /\
  Forall (fun x => x = JS.Fin 0) (numbersOf getEmptyAnalytics) /\
  Forall (fun n => n = O) (mappingSizes getEmptyAnalytics) /\
  sc_type (spending_category (spending getEmptyAnalytics)) = "N/A" /\
  spending_percentile (comparative getEmptyAnalytics) = JS.Fin 50 /\
  insights getEmptyAnalytics = [].
Proof.
  intro H. split.
  - unfold analyze. rewrite H. reflexivity.
  - repeat split; repeat constructor.
Qed.

Lemma analyze_empty_witness :
  analyze Iso.utc [] = Normal getEmptyAnalytics /\
  analyze Iso.dhaka [Sample.undatedCancelled] = Normal getEmptyAnalytics.
Proof.
  split.
  - apply (analyze_empty_is_canonical Iso.utc []). reflexivity.
  - apply (analyze_empty_is_canonical Iso.dhaka [Sample.undatedCancelled]).
    reflexivity.
Defined.

(** C5, as amended.  The reorder signature of an order is the sorted,
    pipe-joined list of its lowercased and trimmed item names, every
    occurrence kept (a name that occurs twice occurs twice in the
    signature), and [exact_reorder_count] is the number of distinct
    signatures that occur in more than one order. *)
Theorem reorder_signature_and_count (orders : list Order) :
  (forall order,
     exists names : list string,
       Permutation (map (fun i => Str.trim (Str.toLowerCase (name i)))
                        (items order)) names /\
       Sorted (fun a b => String.leb a b = true) names /\
       itemSignature order = Str.join "|" names) /\
  exact_reorder_count (reorder_patterns (analyzeOrderBehavior orders))
  = JS.ofNat
      (List.length
         (filter (fun s => (1 <? count_occ string_dec
                                    (map itemSignature orders) s)%nat)
                 (nodup string_dec (map itemSignature orders)))).
Proof.
  split.
  - intro order. exists (Arr.sortStrings (map itemKey (items order))).
    split; [apply sort_perm|].
    split; [apply sort_sorted; apply String.leb_total|reflexivity].
  - unfold analyzeOrderBehavior.
    destruct (fold_left sizeStep orders (0%nat, 0%nat, 0%nat)) as [[s m] l].
    destruct (fold_left addonStep orders (0%nat, 0%nat)) as [dr de].
    simpl. f_equal. apply count_values_filter.
Qed.

(** C5, as stated, fails: an order with the same item twice has the
    signature "burger|burger", not the signature "burger" of its set
    of distinct names; with an order of one burger, which has the same
    set of names, no signature occurs twice and [exact_reorder_count]
    is 0. *)
Lemma signature_keeps_duplicates :
  itemSignature Sample.twoBurgers = "burger|burger" /\
  signatureOfDistinctNames Sample.twoBurgers = "burger" /\
  signatureOfDistinctNames Sample.oneBurger = "burger" /\
  exact_reorder_count
    (reorder_patterns
       (analyzeOrderBehavior [Sample.twoBurgers; Sample.oneBurger]))
  = JS.Fin 0.
Proof. repeat split; vm_compute; reflexivity. Qed.



(** C7.  For a non-empty list of values [calculateMedian] returns the
    middle element of the list sorted in ascending order when the
    length is odd, and the mean of the two middle elements when it is
    even; it maps [100, 200, 300] to 200 and [100, 200, 300, 400]
    to 250. *)
Theorem calculateMedian_sorted_middle :
  (forall l : list Q,
     l <> [] ->
     exists s : list Q,
       Permutation l s /\ Sorted Qle s /\
       calculateMedian (map JS.Fin l) =
         (if Nat.odd (List.length l)
          then JS.Fin (nth (List.length l / 2) s 0)
          else JS.Fin ((nth (List.length l / 2 - 1) s 0
                        + nth (List.length l / 2) s 0) / 2))) /\
  calculateMedian (map JS.Fin [100; 200; 300]) = JS.Fin 200 /\
  JS.same (calculateMedian (map JS.Fin [100; 200; 300; 400])) (JS.Fin 250).
Proof.
  split; [|split; vm_compute; reflexivity].
  intros l Hne.
  exists (Arr.sort Qle_bool l).
  split; [apply sort_perm|].
  split; [apply Sorted_Qle_bool; apply sort_sorted; apply Qle_bool_total|].
  assert (Hlen : (0 < List.length l)%nat)
    by (destruct l; [congruence|simpl; lia]).
  unfold calculateMedian.
  rewrite length_map.
  destruct (List.length l =? 0)%nat eqn:E0; [apply Nat.eqb_eq in E0; lia|].
  rewrite sort_map_Fin, length_map, sort_length.
  assert (Hmid : (List.length l / 2 < List.length l)%nat)
    by (apply Nat.div_lt; lia).
  rewrite <- Nat.negb_even.
  destruct (Nat.even (List.length l)) eqn:Ev.
  - assert (Hm : (List.length l mod 2 =? 0)%nat = true).
    { apply Nat.eqb_eq. apply Nat.even_spec in Ev. destruct Ev as [k Hk].
      rewrite Hk, Nat.mul_comm. apply Nat.Div0.mod_mul. }
    rewrite Hm. simpl negb. cbv iota.
    rewrite !numAt_map_Fin by (rewrite sort_length; lia).
    reflexivity.
  - assert (Hm : (List.length l mod 2 =? 0)%nat = false).
    { apply Nat.eqb_neq. intro Hz.
      assert (Nat.even (List.length l) = true).
      { apply Nat.even_spec. exists (List.length l / 2)%nat.
        pose proof (Nat.div_mod_eq (List.length l) 2). lia. }
      congruence. }
    rewrite Hm. simpl negb. cbv iota.
    rewrite numAt_map_Fin by (rewrite sort_length; lia).
    reflexivity.
Qed.

Lemma calculateMedian_witness :
  exists s : list Q,
    Permutation [300; 100; 200] s /\ Sorted Qle s /\
    calculateMedian (map JS.Fin [300; 100; 200]) = JS.Fin (nth 1 s 0).
Proof.
  apply (proj1 calculateMedian_sorted_middle [300; 100; 200]).
  discriminate.
Defined.

(** C8.  [generateInsights] emits, in this order, one spending insight
    (titled with the spending category), a voucher insight exactly when
    [voucher_usage_rate > 20] (titled "Smart Saver" when the rate is
    above 50 and "Deal Hunter" otherwise), one timing insight and one
    loyalty insight; and the insights of a result of [analyze] on a
    non-empty filtered list are those of its own facets. *)
Theorem generateInsights_emission
  (rt : Runtime) (s : SpendingAnalytics) (r : RestaurantAnalytics)
  (p : PatternAnalytics) (c : CostOptimizationAnalytics)
  (f : PredictiveAnalytics) (a : AdvancedMetrics)
  (h : HealthDietaryAnalytics) (d : DiversityAnalytics) :
  map category (generateInsights rt s r p c f a h d) =
    (if JS.gt (voucher_usage_rate s) (JS.Fin 20)
     then [cat_spending; cat_voucher; cat_timing; cat_loyalty]
     else [cat_spending; cat_timing; cat_loyalty]) /\
  (forall i, In i (generateInsights rt s r p c f a h d) ->
     category i = cat_voucher ->
     title i = if JS.gt (voucher_usage_rate s) (JS.Fin 50)
               then "Smart Saver" else "Deal Hunter") /\
  (forall i, In i (generateInsights rt s r p c f a h d) ->
     category i = cat_spending ->
     title i = sc_type (spending_category s)) /\
  (forall q, voucher_usage_rate s = JS.Fin q ->
     (In cat_voucher (map category (generateInsights rt s r p c f a h d))
      <-> 20 < q)) /\
  (forall (orders : list Order) (x : FullAnalytics),
     filter isDelivered orders <> [] -> analyze rt orders = Normal x ->
     insights x =
       generateInsights rt (spending x) (restaurants x) (patterns x)
         (costOptimization x) (predictive x) (advanced x) (healthDietary x)
         (diversity x)).
Proof.
  assert (Hlast : forall (orders : list Order) (x : FullAnalytics),
             filter isDelivered orders <> [] -> analyze rt orders = Normal x ->
             insights x =
               generateInsights rt (spending x) (restaurants x) (patterns x)
                 (costOptimization x) (predictive x) (advanced x)
                 (healthDietary x) (diversity x))
    by (intros orders x; apply analyze_insights).
  revert Hlast. unfold generateInsights.
  pose proof (timingInsight_category rt p) as Ht.
  destruct (JS.gt (voucher_usage_rate s) (JS.Fin 20)) eqn:E20;
    cbn [app map];
    rewrite Ht; intro Hlast;
    (split; [reflexivity|]); (split; [|split; [|split; [|exact Hlast]]]).
  - intros i [H|[H|[H|[H|[]]]]] Hc; subst i;
      try (rewrite Ht in Hc); try discriminate Hc.
    reflexivity.
  - intros i [H|[H|[H|[H|[]]]]] Hc; subst i;
      try (rewrite Ht in Hc); try discriminate Hc.
    reflexivity.
  - intros q Hq. rewrite Hq in E20. apply Qltb_true in E20.
    split; [intros _; exact E20|]. intros _. right. left. reflexivity.
  - intros i [H|[H|[H|[]]]] Hc; subst i;
      try (rewrite Ht in Hc); discriminate Hc.
  - intros i [H|[H|[H|[]]]] Hc; subst i;
      try (rewrite Ht in Hc); try discriminate Hc.
    reflexivity.
  - intros q Hq. rewrite Hq in E20. apply Qltb_false in E20.
    split; [|intro L; exfalso; exact (Qlt_not_le _ _ L E20)].
    intros [H|[H|[H|[]]]]; discriminate.
Qed.

(** C9.  For a non-empty list of orders, [average_order_value] times
    the number of orders equals [total_spent], and [total_spent] is the
    sum of the [total_value] fields (in exact rational arithmetic). *)
Theorem analyzeSpending_average_times_count
  (rt : Runtime) (orders : list Order) :
  orders <> [] ->
  exists avg total : Q,
    average_order_value (analyzeSpending rt orders) = JS.Fin avg /\
    total_spent (analyzeSpending rt orders) = JS.Fin total /\
    total == sumQ (map total_value orders) /\
    avg * inject_Z (Z.of_nat (List.length orders)) == total.
Proof.
  intro Hne.
  assert (Hlen : List.length orders <> O)
    by (destruct orders; simpl; congruence).
  destruct (sumBy_totalValue orders) as [t [Hsum Hs]].
  exists (t / inject_Z (Z.of_nat (List.length orders))), t.
  unfold analyzeSpending; simpl. rewrite Hsum.
  split; [apply div_ofNat; exact Hlen|].
  split; [reflexivity|]. split; [exact Hs|].
  field. intro E. unfold Qeq in E. simpl in E. lia.
Qed.

Lemma analyzeSpending_average_witness :
  exists avg total : Q,
    average_order_value (analyzeSpending Iso.utc [Sample.friday; Sample.tuesday])
      = JS.Fin avg /\
    total_spent (analyzeSpending Iso.utc [Sample.friday; Sample.tuesday])
      = JS.Fin total /\
    total == sumQ (map total_value [Sample.friday; Sample.tuesday]) /\
    avg * inject_Z (Z.of_nat 2) == total.
Proof.
  apply (analyzeSpending_average_times_count Iso.utc
           [Sample.friday; Sample.tuesday]).
  discriminate.
Defined.

(** C10.  The order size distribution of [analyzeOrderBehavior] is a
    partition of the orders: every order is in exactly one of the
    classes small (the sum of its item quantities is at most 2),
    medium (above 2 and at most 5) and large (above 5), the three
    fields count the orders of these classes, and they add up to the
    number of orders.  The classes are stated on [sumQ] of the
    quantities, not on the loop of the code. *)
Theorem order_size_distribution_partition (orders : list Order) :
  small (order_size_distribution (analyzeOrderBehavior orders))
    = JS.ofNat (List.length (filter isSmall orders)) /\
  medium (order_size_distribution (analyzeOrderBehavior orders))
    = JS.ofNat (List.length (filter isMedium orders)) /\
  large (order_size_distribution (analyzeOrderBehavior orders))
    = JS.ofNat (List.length (filter isLarge orders)) /\
  (forall o : Order,
     (isSmall o = true <-> sumQ (map quantity (items o)) <= 2) /\
     (isMedium o = true <->
        2 < sumQ (map quantity (items o)) /\
        sumQ (map quantity (items o)) <= 5) /\
     (isLarge o = true <-> 5 < sumQ (map quantity (items o)))) /\
  (forall o : Order,
     (isSmall o = true /\ isMedium o = false /\ isLarge o = false) \/
     (isSmall o = false /\ isMedium o = true /\ isLarge o = false) \/
     (isSmall o = false /\ isMedium o = false /\ isLarge o = true)) /\
  (List.length (filter isSmall orders) + List.length (filter isMedium orders)
   + List.length (filter isLarge orders) = List.length orders)%nat.
Proof.
  unfold analyzeOrderBehavior.
  rewrite sizeStep_fold.
  destruct (fold_left addonStep orders (0%nat, 0%nat)) as [dr de].
  cbn [order_size_distribution small medium large].
  split; [reflexivity|]. split; [reflexivity|]. split; [reflexivity|].
  split; [|split].
  - intro o. exact (size_classes_thresholds o).
  - intro o. unfold isSmall, isMedium, isLarge.
    destruct (Qle_bool (summedQuantity o) 2) eqn:E2.
    + rewrite (small_is_at_most_five o E2). left. auto.
    + destruct (Qle_bool (summedQuantity o) 5); simpl; auto.
  - apply size_classes_partition.
Qed.

(** * Further properties *)

(** ** Orders whose dates parse *)

Lemma fridayTuesday_parse :
  Forall (dateParses Iso.utc) [Sample.friday; Sample.tuesday].
Proof. repeat constructor; unfold dateParses; vm_compute; discriminate. Qed.

Lemma fridayTuesday_delivered :
  filter isDelivered [Sample.friday; Sample.tuesday]
  = [Sample.friday; Sample.tuesday].
Proof. reflexivity. Qed.

(** ** When [analyze] returns *)

Lemma isoMonthKey_valid (rt : Runtime) (o : Order) :
  dateParses rt o -> isoMonthKey rt o = Normal (isoMonthOf rt o).
Proof.
  unfold dateParses, isoMonthKey, isoMonthOf, Date.new.
  destruct (dateParse rt (date o)); [reflexivity|congruence].
Qed.

Lemma foldM_mapM_normal {A B : Type} (f : A -> completion B) (g : A -> B)
  (l : list A) (acc : list B) :
  Forall (fun x => f x = Normal (g x)) l ->
  foldM (fun acc x => y <- f x ;; Normal (acc ++ [y])%list) l acc
  = Normal (acc ++ map g l)%list.
Proof.
  intro H. revert acc. induction H as [|x r Hx _ IH]; intro acc; simpl.
  - rewrite app_nil_r. reflexivity.
  - rewrite Hx. simpl. rewrite IH, <- app_assoc. reflexivity.
Qed.

Lemma mapM_isoMonthKey_valid (rt : Runtime) (l : list Order) :
  Forall (dateParses rt) l ->
  mapM (isoMonthKey rt) l = Normal (map (isoMonthOf rt) l).
Proof.
  intro H. unfold mapM.
  rewrite (foldM_mapM_normal _ (isoMonthOf rt)); [reflexivity|].
  eapply Forall_impl; [|exact H]. intros o Ho. apply isoMonthKey_valid. exact Ho.
Qed.

Lemma discovery_normal (rt : Runtime) (l : list Order)
  (st : list string * obj JS.num) :
  Forall (dateParses rt) l ->
  exists st', foldM (discoveryStep rt) l st = Normal st'.
Proof.
  intro H. revert st. induction H as [|o r Ho _ IH]; intro st; simpl.
  - eexists. reflexivity.
  - destruct st as [seen monthly]. unfold discoveryStep at 1.
    rewrite (isoMonthKey_valid rt o Ho). cbn [bind].
    destruct (negb _); cbn [bind]; apply IH.
Qed.

Lemma analyzeDiversity_normal (rt : Runtime) (l : list Order) :
  Forall (dateParses rt) l -> exists d, analyzeDiversity rt l = Normal d.
Proof.
  intro H. unfold analyzeDiversity.
  destruct (List.length l <? 2)%nat; [eexists; reflexivity|].
  destruct (discovery_normal rt l ([], []) H) as [[seen monthly] Hs].
  rewrite Hs. cbn [bind]. unfold groupByM.
  rewrite (mapM_isoMonthKey_valid rt l H). cbn [bind].
  eexists. reflexivity.
Qed.

Lemma at_in_bounds {A : Type} (l : list A) (i : nat) :
  (i < List.length l)%nat -> exists x, at_ l i = Normal x /\ In x l.
Proof.
  intro H. unfold at_. destruct (nth_error l i) eqn:E.
  - eexists. split; [reflexivity|]. eapply nth_error_In. exact E.
  - apply nth_error_None in E. lia.
Qed.

Lemma analyzeTimePatterns_normal (rt : Runtime) (l : list Order) :
  Forall (dateParses rt) l -> exists t, analyzeTimePatterns rt l = Normal t.
Proof.
  intro H. unfold analyzeTimePatterns.
  destruct (List.length l =? 0)%nat eqn:E0; [eexists; reflexivity|].
  apply Nat.eqb_neq in E0.
  unfold countByM. rewrite (mapM_isoMonthKey_valid rt l H). cbn [bind].
  destruct (fold_left gapStep (daysBetweenOrders rt l) (0, 0, 0, 0)%nat)
    as [[[sd ww] wm] om].
  destruct (0 <? List.length l / 2)%nat eqn:Em; [|eexists; reflexivity].
  apply Nat.ltb_lt in Em.
  destruct (at_in_bounds l (List.length l / 2)) as [oM [HM _]];
    [apply Nat.div_lt; lia|].
  destruct (at_in_bounds l 0) as [oF [HF _]]; [lia|].
  destruct (at_in_bounds l (List.length l - 1)) as [oL [HL _]]; [lia|].
  rewrite HM, HF, HL. cbn [bind]. eexists. reflexivity.
Qed.

Lemma analyzePredictive_normal (rt : Runtime) (l : list Order)
  (s : SpendingAnalytics) (t : TimeAnalytics) :
  exists p, analyzePredictive rt l s t = Normal p.
Proof.
  destruct (le_lt_dec 2 (List.length l)) as [H|H].
  - destruct (analyzePredictive_general rt l s t H) as [p [Hp _]].
    exists p. exact Hp.
  - unfold analyzePredictive.
    assert (E : (List.length l <? 2)%nat = true) by (apply Nat.ltb_lt; lia).
    rewrite E. eexists. reflexivity.
Qed.

Lemma analyzeAdvancedMetrics_normal (rt : Runtime) (l : list Order)
  (r : RestaurantAnalytics) (t : TimeAnalytics) (s : SpendingAnalytics) :
  exists a, analyzeAdvancedMetrics rt l r t s = Normal a.
Proof.
  unfold analyzeAdvancedMetrics.
  destruct (1 <? List.length l)%nat eqn:E.
  - apply Nat.ltb_lt in E.
    destruct (at_in_bounds l (List.length l - 1)) as [oL [HL _]]; [lia|].
    destruct (at_in_bounds l 0) as [oF [HF _]]; [lia|].
    rewrite HL, HF. cbn [bind]. eexists. reflexivity.
  - cbn [bind]. eexists. reflexivity.
Qed.

Lemma sorted_valid (rt : Runtime) (l : list Order) :
  Forall (dateParses rt) l ->
  Forall (dateParses rt) (Arr.sort (Arr.byNumber (orderTime rt)) l).
Proof.
  intro H. apply Forall_forall. intros o Ho. apply sort_In in Ho.
  rewrite Forall_forall in H. apply H. exact Ho.
Qed.

Lemma invalid_or_all_valid (rt : Runtime) (l : list Order) :
  Forall (dateParses rt) l \/
  exists o, In o l /\ dateParse rt (date o) = None.
Proof.
  induction l as [|o r [IH|[o' [Hin Hp]]]].
  - left. constructor.
  - destruct (dateParse rt (date o)) eqn:E.
    + left. constructor; [unfold dateParses; congruence|exact IH].
    + right. exists o. split; [left; reflexivity|exact E].
  - right. exists o'. split; [right; exact Hin|exact Hp].
Qed.

Lemma analyze_throws_on_invalid (rt : Runtime) (orders : list Order) :
  (exists o, In o (filter isDelivered orders) /\ dateParse rt (date o) = None) ->
  analyze rt orders = Throw RangeError.
Proof.
  intros [o [Hdel Hp]]. unfold analyze.
  destruct (filter isDelivered orders) as [|x r] eqn:E; [destruct Hdel|].
  change (List.length (x :: r) =? 0)%nat with false. cbv iota zeta.
  assert (Hs : In o (Arr.sort (Arr.byNumber (orderTime rt)) (x :: r)))
    by (apply sort_In; exact Hdel).
  destruct (List.length (Arr.sort (Arr.byNumber (orderTime rt)) (x :: r)) <? 2)%nat
    eqn:Hlen.
  - rewrite (analyzeTimePatterns_throws rt _ o Hs Hp).
    unfold analyzeDiversity at 1. rewrite Hlen. reflexivity.
  - rewrite (analyzeDiversity_throws rt _ o Hs Hp Hlen). reflexivity.
Qed.

Lemma analyze_normal_when_valid (rt : Runtime) (orders : list Order) :
  Forall (dateParses rt) (filter isDelivered orders) ->
  exists x, analyze rt orders = Normal x.
Proof.
  intro Hv. unfold analyze.
  destruct (filter isDelivered orders) as [|x r] eqn:E;
    [eexists; reflexivity|].
  change (List.length (x :: r) =? 0)%nat with false. cbv iota zeta.
  pose proof (sorted_valid rt _ Hv) as Hsv.
  destruct (analyzeDiversity_normal rt _ Hsv) as [d Hd]. rewrite Hd.
  cbn [bind].
  destruct (analyzeTimePatterns_normal rt _ Hsv) as [t Ht]. rewrite Ht.
  cbn [bind].
  destruct (analyzePredictive_normal rt
              (Arr.sort (Arr.byNumber (orderTime rt)) (x :: r))
              (analyzeSpending rt (x :: r)) t) as [p Hp].
  rewrite Hp. cbn [bind].
  destruct (analyzeAdvancedMetrics_normal rt
              (Arr.sort (Arr.byNumber (orderTime rt)) (x :: r))
              (analyzeRestaurants (x :: r)) t
              (analyzeSpending rt (x :: r))) as [a Ha].
  rewrite Ha. cbn [bind]. eexists. reflexivity.
Qed.

(** X1.  [analyze] returns a result exactly when the date of every order
    that survives the status filter parses; one surviving order with an
    unparseable date makes the call end in the engine's RangeError; and
    no input makes it end in a TypeError (no field of a missing order is
    ever read). *)
Theorem analyze_returns_iff_dates_parse (rt : Runtime) (orders : list Order) :
  ((exists x, analyze rt orders = Normal x) <->
   Forall (dateParses rt) (filter isDelivered orders)) /\
  ((exists o, In o (filter isDelivered orders) /\ dateParse rt (date o) = None)
   -> analyze rt orders = Throw RangeError) /\
  analyze rt orders <> Throw TypeError.
Proof.
  pose proof (analyze_throws_on_invalid rt orders) as Hthrow.
  pose proof (analyze_normal_when_valid rt orders) as Hok.
  split; [split; [|exact Hok]|split; [exact Hthrow|]].
  - intros [x Hx].
    destruct (invalid_or_all_valid rt (filter isDelivered orders)) as [H|H];
      [exact H|].
    rewrite (Hthrow H) in Hx. discriminate.
  - destruct (invalid_or_all_valid rt (filter isDelivered orders)) as [H|H].
    + destruct (Hok H) as [x Hx]. rewrite Hx. discriminate.
    + rewrite (Hthrow H). discriminate.
Qed.

(** ** The facets of a result of [analyze] *)

Lemma analyze_facets (rt : Runtime) (orders : list Order) (x : FullAnalytics) :
  filter isDelivered orders <> [] -> analyze rt orders = Normal x ->
  spending x = analyzeSpending rt (filter isDelivered orders) /\
  restaurants x = analyzeRestaurants (filter isDelivered orders) /\
  patterns x = analyzePatterns rt (filter isDelivered orders) /\
  payments x = analyzePayments (filter isDelivered orders) /\
  costOptimization x = analyzeCostOptimization (filter isDelivered orders) /\
  analyzeDiversity rt
    (Arr.sort (Arr.byNumber (orderTime rt)) (filter isDelivered orders))
  = Normal (diversity x) /\
  analyzeTimePatterns rt
    (Arr.sort (Arr.byNumber (orderTime rt)) (filter isDelivered orders))
  = Normal (timeAnalysis x) /\
  analyzePredictive rt
    (Arr.sort (Arr.byNumber (orderTime rt)) (filter isDelivered orders))
    (spending x) (timeAnalysis x)
  = Normal (predictive x) /\
  comparative x
  = analyzeComparative (spending x) (timeAnalysis x) (costOptimization x) /\
  analyzeAdvancedMetrics rt
    (Arr.sort (Arr.byNumber (orderTime rt)) (filter isDelivered orders))
    (restaurants x) (timeAnalysis x) (spending x)
  = Normal (advanced x).
Proof.
  intro Hne. unfold analyze.
  destruct (filter isDelivered orders) as [|o r]; [congruence|].
  change (List.length (o :: r) =? 0)%nat with false. cbv iota zeta.
  destruct (analyzeDiversity rt _) as [dv|]; cbn [bind]; [|discriminate].
  destruct (analyzeTimePatterns rt _) as [ta|]; cbn [bind]; [|discriminate].
  destruct (analyzePredictive rt _ _ _) as [pr|] eqn:Ep; cbn [bind];
    [|discriminate].
  destruct (analyzeAdvancedMetrics rt _ _ _ _) as [ad|] eqn:Ea; cbn [bind];
    [|discriminate].
  intro H. injection H as <-. cbn.
  repeat split; try reflexivity; assumption.
Qed.

(** X2.  In a result of [analyze], the spending percentile 50 and the
    frequency category "N/A" stand for no data: they are the values when
    no order survives the status filter, and with a surviving order the
    percentile is one of 30, 45, 60, 75 and 90 and the category one of
    Heavy, Moderate and Light. *)
Theorem percentile_50_means_no_data (rt : Runtime) (orders : list Order)
  (x : FullAnalytics) :
  analyze rt orders = Normal x ->
  (filter isDelivered orders = [] ->
   spending_percentile (comparative x) = JS.Fin 50 /\
   order_frequency_category (comparative x) = "N/A") /\
  (filter isDelivered orders <> [] ->
   In (spending_percentile (comparative x))
      [JS.Fin 30; JS.Fin 45; JS.Fin 60; JS.Fin 75; JS.Fin 90] /\
   In (order_frequency_category (comparative x))
      ["Heavy"; "Moderate"; "Light"]).
Proof.
  intro Hx. split.
  - intro He. unfold analyze in Hx. rewrite He in Hx. injection Hx as <-.
    split; reflexivity.
  - intro Hne.
    destruct (analyze_facets rt orders x Hne Hx) as [_ [_ [_ [_ [_ [_ [_ [_ [Hc _]]]]]]]]].
    rewrite Hc. unfold analyzeComparative. cbn [spending_percentile order_frequency_category].
    split.
    + repeat match goal with
             | |- context [if ?b then _ else _] => destruct b
             end; simpl; tauto.
    + repeat match goal with
             | |- context [if ?b then _ else _] => destruct b
             end; simpl; tauto.
Qed.

Lemma percentile_50_witness :
  exists x,
    analyze Iso.utc [Sample.friday; Sample.tuesday] = Normal x /\
    In (spending_percentile (comparative x))
       [JS.Fin 30; JS.Fin 45; JS.Fin 60; JS.Fin 75; JS.Fin 90] /\
    In (order_frequency_category (comparative x))
       ["Heavy"; "Moderate"; "Light"].
Proof.
  destruct (analyze_normal_when_valid Iso.utc [Sample.friday; Sample.tuesday]
              fridayTuesday_parse) as [x Hx].
  exists x. split; [exact Hx|].
  apply (proj2 (percentile_50_means_no_data
                  Iso.utc [Sample.friday; Sample.tuesday] x Hx)).
  discriminate.
Defined.

(** Weekend / weekday *)
(** ** Percentages *)

Lemma filter_length_le {A : Type} (p : A -> bool) (l : list A) :
  (List.length (filter p l) <= List.length l)%nat.
Proof.
  induction l as [|x r IH]; simpl; [lia|]. destruct (p x); simpl; lia.
Qed.

Lemma inject_nat_le (a b : nat) :
  (a <= b)%nat -> inject_Z (Z.of_nat a) <= inject_Z (Z.of_nat b).
Proof. intro H. rewrite <- Zle_Qle. lia. Qed.

(** [k / n * 100] for [k <= n], [n > 0]: a percentage. *)
Lemma percentage_bounds (k n : nat) :
  (k <= n)%nat -> n <> O ->
  exists pct,
    JS.mul (JS.div (JS.ofNat k) (JS.ofNat n)) num100 = JS.Fin pct /\
    0 <= pct /\ pct <= 100 /\
    pct * inject_Z (Z.of_nat n) == inject_Z (Z.of_nat k) * 100.
Proof.
  intros Hk Hn. unfold JS.ofNat at 1. rewrite div_ofNat by exact Hn.
  eexists. split; [reflexivity|].
  assert (Hpos : 0 < inject_Z (Z.of_nat n)).
  { replace 0 with (inject_Z 0) by reflexivity. rewrite <- Zlt_Qlt. lia. }
  assert (Hk0 : 0 <= inject_Z (Z.of_nat k)).
  { replace 0 with (inject_Z 0) by reflexivity. rewrite <- Zle_Qle. lia. }
  pose proof (inject_nat_le k n Hk) as Hkn.
  split; [|split].
  - apply Qmult_le_0_compat; [|discriminate].
    apply Qle_shift_div_l; [exact Hpos|]. rewrite Qmult_0_l. exact Hk0.
  - setoid_replace 100 with (1 * 100) at 2 by reflexivity.
    apply Qmult_le_compat_r; [|discriminate].
    apply Qle_shift_div_r; [exact Hpos|]. rewrite Qmult_1_l. exact Hkn.
  - field. intro E. rewrite E in Hpos. discriminate.
Qed.

(** X3.  For a non-empty list, [weekend_orders] and [weekday_orders] of
    [analyzePatterns] are two counts that add up to the number of
    orders, and [weekend_percentage] is a number between 0 and 100 with
    percentage * orders = weekend orders * 100. *)
Theorem weekend_weekday_split (rt : Runtime) (orders : list Order) :
  orders <> [] ->
  exists (we wd : nat) (pct : Q),
    weekend_orders (weekend_vs_weekday (analyzePatterns rt orders))
      = JS.ofNat we /\
    JS.same (weekday_orders (weekend_vs_weekday (analyzePatterns rt orders)))
            (JS.ofNat wd) /\
    (we + wd = List.length orders)%nat /\
    weekend_percentage (weekend_vs_weekday (analyzePatterns rt orders))
      = JS.Fin pct /\
    0 <= pct /\ pct <= 100 /\
    pct * inject_Z (Z.of_nat (List.length orders))
      == inject_Z (Z.of_nat we) * 100.
Proof.
  intro Hne.
  assert (Hn : List.length orders <> O) by (destruct orders; simpl; congruence).
  pose proof (filter_length_le (isWeekendOrder rt) orders) as Hle.
  destruct (percentage_bounds _ _ Hle Hn) as [pct [Hp [H0 [H100 Heq]]]].
  exists (List.length (filter (isWeekendOrder rt) orders)),
         (List.length orders - List.length (filter (isWeekendOrder rt) orders))%nat,
         pct.
  unfold analyzePatterns. cbn [weekend_vs_weekday weekend_orders weekday_orders
                                 weekend_percentage].
  split; [reflexivity|]. split.
  { unfold JS.ofNat, JS.sub, JS.neg, JS.add, JS.same.
    rewrite Nat2Z.inj_sub by exact Hle. unfold Z.sub.
    rewrite inject_Z_plus, inject_Z_opp. reflexivity. }
  split; [lia|]. split; [exact Hp|]. split; [exact H0|]. split; [exact H100|].
  exact Heq.
Qed.

Lemma weekend_weekday_witness :
  exists (we wd : nat) (pct : Q),
    weekend_orders
      (weekend_vs_weekday
         (analyzePatterns Iso.utc [Sample.friday; Sample.sunday]))
      = JS.ofNat we /\
    JS.same (weekday_orders
               (weekend_vs_weekday
                  (analyzePatterns Iso.utc [Sample.friday; Sample.sunday])))
            (JS.ofNat wd) /\
    (we + wd = 2)%nat /\
    weekend_percentage
      (weekend_vs_weekday
         (analyzePatterns Iso.utc [Sample.friday; Sample.sunday]))
      = JS.Fin pct /\
    0 <= pct /\ pct <= 100 /\
    pct * inject_Z (Z.of_nat 2) == inject_Z (Z.of_nat we) * 100.
Proof.
  apply (weekend_weekday_split Iso.utc [Sample.friday; Sample.sunday]).
  discriminate.
Defined.

(** Variance *)
(** ** calculateVariance *)

Lemma mean_Fin (l : list Q) :
  l <> [] ->
  exists m, Lodash.mean (map JS.Fin l) = JS.Fin m /\
            m * inject_Z (Z.of_nat (List.length l)) == sumQ l.
Proof.
  intro Hne. unfold Lodash.mean.
  destruct l as [|x r]; [congruence|]. cbn [map].
  change (JS.Fin x :: map JS.Fin r) with (map JS.Fin (x :: r)).
  destruct (sum_Fin (x :: r)) as [s [Hs Hq]]. rewrite Hs.
  rewrite length_map, div_ofNat by (simpl; lia).
  eexists. split; [reflexivity|]. rewrite <- Hq. field.
  intro E. unfold Qeq in E. simpl in E. lia.
Qed.

Lemma Qsquare_nonneg (q : Q) : 0 <= q * q.
Proof. unfold Qle, Qmult. simpl. nia. Qed.

Lemma sumQ_const (c : Q) (l : list Q) :
  Forall (fun q => q == c) l ->
  sumQ l == c * inject_Z (Z.of_nat (List.length l)).
Proof.
  induction 1 as [|x r Hx _ IH].
  - simpl. ring.
  - cbn [sumQ fold_right List.length]. fold (sumQ r). rewrite IH, Hx.
    rewrite Nat2Z.inj_succ. unfold Z.succ. rewrite inject_Z_plus. ring.
Qed.

Lemma inject_nat_pos (n : nat) : n <> O -> 0 < inject_Z (Z.of_nat n).
Proof.
  intro H. replace 0 with (inject_Z 0) by reflexivity. rewrite <- Zlt_Qlt. lia.
Qed.

Lemma sumQ_map_ext (f g : Q -> Q) (l : list Q) :
  (forall q, f q == g q) -> sumQ (map f l) == sumQ (map g l).
Proof.
  intro H. induction l as [|x r IH]; simpl; [reflexivity|].
  rewrite H, IH. reflexivity.
Qed.

(** X4.  [calculateVariance] of finite values is a finite number that
    is never negative, and 0 for no value and for a single one; it is
    the code's own formula, the mean of the squared deviations from the
    mean: its product with the number of values is the sum of the
    squares of the differences between the values and their mean. *)
Theorem calculateVariance_nonnegative (l : list Q) :
  exists v,
    calculateVariance (map JS.Fin l) = JS.Fin v /\ 0 <= v /\
    ((List.length l <= 1)%nat -> v == 0) /\
    (forall m, m * inject_Z (Z.of_nat (List.length l)) == sumQ l ->
               v * inject_Z (Z.of_nat (List.length l))
               == sumQ (map (fun q => (q - m) * (q - m)) l)).
Proof.
  unfold calculateVariance. rewrite length_map.
  destruct l as [|x r].
  - exists 0. simpl. split; [reflexivity|]. split; [apply Qle_refl|].
    split; intros; reflexivity.
  - change (List.length (x :: r) =? 0)%nat with false. cbv iota.
    destruct (mean_Fin (x :: r)) as [m [Hm Hmq]]; [discriminate|].
    rewrite Hm.
    set (sq := map (fun v => (v + - m) * (v + - m)) (x :: r)).
    assert (Hsq : map (fun v => JS.mul (JS.sub v (JS.Fin m)) (JS.sub v (JS.Fin m)))
                      (map JS.Fin (x :: r)) = map JS.Fin sq).
    { unfold sq. rewrite !map_map. reflexivity. }
    rewrite Hsq.
    destruct (mean_Fin sq) as [v [Hv Hvq]]; [unfold sq; discriminate|].
    exists v. split; [exact Hv|].
    assert (Hlen : 0 < inject_Z (Z.of_nat (List.length sq)))
      by (apply inject_nat_pos; unfold sq; discriminate).
    assert (Hn : 0 < inject_Z (Z.of_nat (List.length (x :: r))))
      by (apply inject_nat_pos; discriminate).
    split; [|split].
    + assert (H : 0 <= sumQ sq).
      { apply sumQ_nonneg. unfold sq. apply Forall_map. apply Forall_forall.
        intros q _. apply Qsquare_nonneg. }
      rewrite <- Hvq in H.
      apply (Qmult_le_r _ _ _ Hlen). rewrite Qmult_0_l. exact H.
    + intro Hone. pose (c := x).
      assert (Hc : Forall (fun q => q == c) (x :: r)).
      { destruct r; [repeat constructor; reflexivity|simpl in Hone; lia]. }
      assert (Hmc : m == c).
      { rewrite (sumQ_const c _ Hc) in Hmq.
        apply (Qmult_inj_r _ _ (inject_Z (Z.of_nat (List.length (x :: r)))));
          [|exact Hmq].
        intro E. rewrite E in Hn. discriminate. }
      assert (Hz : sumQ sq == 0 * inject_Z (Z.of_nat (List.length sq))).
      { apply sumQ_const. unfold sq. apply Forall_map.
        eapply Forall_impl; [|exact Hc]. intros q Hq. simpl.
        rewrite Hq, Hmc. ring. }
      rewrite Hz in Hvq.
      apply (Qmult_inj_r _ _ (inject_Z (Z.of_nat (List.length sq))));
        [|exact Hvq].
      intro E. rewrite E in Hlen. discriminate.
    + intros m' Hm'.
      assert (Hmm : m == m').
      { apply (Qmult_inj_r _ _ (inject_Z (Z.of_nat (List.length (x :: r))))).
        - intro E. rewrite E in Hn. discriminate.
        - rewrite Hmq, Hm'. reflexivity. }
      assert (Hl : List.length sq = List.length (x :: r))
        by (unfold sq; apply length_map).
      rewrite <- Hl, Hvq. unfold sq. apply sumQ_map_ext.
      intro q. rewrite Hmm. unfold Qminus. reflexivity.
Qed.

(** ** analyzeTimePatterns: the gaps between the orders *)

Lemma orderTime_valid (rt : Runtime) (o : Order) :
  dateParses rt o -> orderTime rt o = JS.ofZ (timeOf rt o).
Proof.
  unfold dateParses, orderTime, timeOf, Date.getTime, Date.new.
  destruct (dateParse rt (date o)); [reflexivity|congruence].
Qed.

Lemma daysFrom_valid (rt : Runtime) (a b : Order) :
  dateParses rt a -> dateParses rt b ->
  daysFrom rt a b
  = JS.Fin ((inject_Z (timeOf rt b) + - inject_Z (timeOf rt a))
            / inject_Z Date.msPerDay).
Proof.
  intros Ha Hb. unfold daysFrom.
  rewrite (orderTime_valid rt a Ha), (orderTime_valid rt b Hb). reflexivity.
Qed.

Lemma daysBetweenOrders_valid (rt : Runtime) (l : list Order) :
  Forall (dateParses rt) l ->
  daysBetweenOrders rt l = map JS.Fin (gaps rt l).
Proof.
  induction l as [|a r IH]; intro H; [reflexivity|].
  destruct r as [|b r']; [reflexivity|].
  inversion H as [|? ? Ha Hr]; subst. inversion Hr as [|? ? Hb _]; subst.
  cbn [daysBetweenOrders gaps map]. rewrite (daysFrom_valid rt a b Ha Hb).
  f_equal. apply IH. exact Hr.
Qed.

Lemma gaps_length (rt : Runtime) (l : list Order) :
  List.length (gaps rt l) = (List.length l - 1)%nat.
Proof.
  induction l as [|a r IH]; [reflexivity|].
  destruct r as [|b r']; [reflexivity|].
  cbn [gaps List.length] in *. rewrite IH. lia.
Qed.

(** The gaps add up to the time from the first order to the last. *)
Lemma gaps_telescope (rt : Runtime) (a : Order) (l : list Order) :
  sumQ (gaps rt (a :: l))
  == (inject_Z (timeOf rt (last l a)) + - inject_Z (timeOf rt a))
     / inject_Z Date.msPerDay.
Proof.
  revert a. induction l as [|b r IH]; intro a.
  - simpl. field. discriminate.
  - change (sumQ (gaps rt (a :: b :: r)))
      with ((inject_Z (timeOf rt b) + - inject_Z (timeOf rt a))
            / inject_Z Date.msPerDay + sumQ (gaps rt (b :: r))).
    rewrite (IH b), last_cons_cons. field. discriminate.
Qed.

Lemma le_Fin_Qle (a b : Q) : JS.le (JS.Fin a) (JS.Fin b) = Qle_bool a b.
Proof.
  unfold JS.le, JS.lt, JS.eq.
  destruct (Qle_bool a b) eqn:E.
  - apply Qle_bool_iff in E. apply orb_true_iff.
    destruct (Qeq_bool a b) eqn:Q; [right; reflexivity|left].
    apply Qltb_true. apply Qle_lteq in E. destruct E as [E|E]; [exact E|].
    apply Qeq_bool_iff in E. congruence.
  - apply orb_false_iff. split.
    + apply Qltb_false. apply Qlt_le_weak. apply Qnot_le_lt. intro H.
      apply Qle_bool_iff in H. congruence.
    + destruct (Qeq_bool a b) eqn:Q; [|reflexivity].
      apply Qeq_bool_iff in Q.
      assert (H : a <= b) by (rewrite Q; apply Qle_refl).
      apply Qle_bool_iff in H. congruence.
Qed.

(** The four counters of the loop over the gaps: below one day, up to
    a week, up to thirty days, and the others. *)
Lemma gapStep_counts (gs : list Q) (sd ww wm om : nat) :
  exists sd' ww' wm' om',
    fold_left gapStep (map JS.Fin gs) (sd, ww, wm, om) = (sd', ww', wm', om') /\
    (sd' = sd + gapsBelow 1 gs)%nat /\
    (sd' + ww' = sd + ww + gapsUpTo 7 gs)%nat /\
    (sd' + ww' + wm' = sd + ww + wm + gapsUpTo 30 gs)%nat /\
    (sd' + ww' + wm' + om' = sd + ww + wm + om + List.length gs)%nat.
Proof.
  revert sd ww wm om. induction gs as [|g r IH]; intros sd ww wm om.
  - exists sd, ww, wm, om. unfold gapsBelow, gapsUpTo. simpl.
    repeat split; lia.
  - cbn [map fold_left]. unfold gapStep at 2.
    unfold JS.lt. rewrite !le_Fin_Qle.
    unfold gapsBelow, gapsUpTo. cbn [filter List.length].
    change (negb (Qle_bool 1 g)) with (JS.Qltb g 1).
    destruct (JS.Qltb g 1) eqn:E1.
    + apply Qltb_true in E1.
      assert (E7 : Qle_bool g 7 = true).
      { apply Qle_bool_iff. apply Qlt_le_weak.
        eapply Qlt_trans; [exact E1|reflexivity]. }
      assert (E30 : Qle_bool g 30 = true).
      { apply Qle_bool_iff. apply Qlt_le_weak.
        eapply Qlt_trans; [exact E1|reflexivity]. }
      rewrite E7, E30.
      destruct (IH (S sd) ww wm om) as [a [b [c [d [Hf H]]]]].
      exists a, b, c, d. split; [exact Hf|].
      unfold gapsBelow, gapsUpTo in H. cbn [List.length]. lia.
    + destruct (Qle_bool g 7) eqn:E7.
      * assert (E30 : Qle_bool g 30 = true).
        { apply Qle_bool_iff. apply Qle_bool_iff in E7.
          eapply Qle_trans; [exact E7|discriminate]. }
        rewrite E30.
        destruct (IH sd (S ww) wm om) as [a [b [c [d [Hf H]]]]].
        exists a, b, c, d. split; [exact Hf|].
        unfold gapsBelow, gapsUpTo in H. cbn [List.length]. lia.
      * destruct (Qle_bool g 30) eqn:E30.
        -- destruct (IH sd ww (S wm) om) as [a [b [c [d [Hf H]]]]].
           exists a, b, c, d. split; [exact Hf|].
           unfold gapsBelow, gapsUpTo in H. cbn [List.length]. lia.
        -- destruct (IH sd ww wm (S om)) as [a [b [c [d [Hf H]]]]].
           exists a, b, c, d. split; [exact Hf|].
           unfold gapsBelow, gapsUpTo in H. cbn [List.length]. lia.
Qed.

(** The mean of the gaps, as the code computes it. *)
Lemma mean_gap (rt : Runtime) (first : Order) (rest : list Order) :
  exists avg,
    (if (0 <? List.length (map JS.Fin (gaps rt (first :: rest))))%nat
     then Lodash.mean (map JS.Fin (gaps rt (first :: rest)))
     else JS.Fin 0) = JS.Fin avg /\
    avg * inject_Z (Z.of_nat (List.length rest))
    == sumQ (gaps rt (first :: rest)).
Proof.
  destruct rest as [|b r].
  - exists 0. split; [reflexivity|]. simpl. ring.
  - assert (Hne : gaps rt (first :: b :: r) <> []) by discriminate.
    destruct (mean_Fin _ Hne) as [m [Hm Hmq]].
    exists m. rewrite length_map, gaps_length.
    change (0 <? List.length (first :: b :: r) - 1)%nat with true.
    cbv iota. split; [exact Hm|].
    rewrite gaps_length in Hmq.
    change (List.length (first :: b :: r) - 1)%nat
      with (List.length (b :: r)) in Hmq.
    exact Hmq.
Qed.

(** On valid dates the time facet returns, and its mean gap times the
    number of gaps is the sum of the gaps. *)
Lemma analyzeTimePatterns_average
  (rt : Runtime) (first : Order) (rest : list Order) :
  Forall (dateParses rt) (first :: rest) ->
  exists (t : TimeAnalytics) (avg : Q),
    analyzeTimePatterns rt (first :: rest) = Normal t /\
    average_days_between_orders t = JS.Fin avg /\
    avg * inject_Z (Z.of_nat (List.length rest))
    == sumQ (gaps rt (first :: rest)).
Proof.
  intro Hv. unfold analyzeTimePatterns.
  change (List.length (first :: rest) =? 0)%nat with false. cbv iota.
  unfold countByM. rewrite (mapM_isoMonthKey_valid rt _ Hv). cbn [bind].
  rewrite (daysBetweenOrders_valid rt _ Hv).
  destruct (fold_left gapStep (map JS.Fin (gaps rt (first :: rest)))
                      (0, 0, 0, 0)%nat) as [[[sd ww] wm] om].
  destruct (mean_gap rt first rest) as [avg [Ha Hq]]. rewrite Ha.
  destruct (0 <? List.length (first :: rest) / 2)%nat eqn:Em.
  - apply Nat.ltb_lt in Em.
    destruct (at_in_bounds (first :: rest) (List.length (first :: rest) / 2))
      as [oM [HM _]]; [apply Nat.div_lt; simpl; lia|].
    destruct (at_in_bounds (first :: rest) (List.length (first :: rest) - 1))
      as [oL [HL _]]; [simpl; lia|].
    rewrite HM, HL, at_first. cbn [bind].
    eexists. exists avg. split; [reflexivity|]. cbn. split; [reflexivity|exact Hq].
  - eexists. exists avg. split; [reflexivity|]. cbn. split; [reflexivity|exact Hq].
Qed.

(** X5.  On a non-empty list of orders with valid dates
    [analyzeTimePatterns] returns; the four counters of
    [time_gap_distribution] count every pair of consecutive orders once:
    [same_day] the gaps below one day, [within_week] the others of at
    most 7 days, [within_month] the others of at most 30 days and
    [over_month] the rest, so they add up to the number of orders minus
    one; and [average_days_between_orders] is the code's own mean of the
    gaps: its product with their number is their sum. *)
Theorem time_gaps_account_for_every_pair
  (rt : Runtime) (first : Order) (rest : list Order) :
  Forall (dateParses rt) (first :: rest) ->
  exists (t : TimeAnalytics) (sd ww wm om : nat) (avg : Q),
    analyzeTimePatterns rt (first :: rest) = Normal t /\
    time_gap_distribution t =
      {| same_day := JS.ofNat sd; within_week := JS.ofNat ww;
         within_month := JS.ofNat wm; over_month := JS.ofNat om |} /\
    sd = gapsBelow 1 (gaps rt (first :: rest)) /\
    (sd + ww)%nat = gapsUpTo 7 (gaps rt (first :: rest)) /\
    (sd + ww + wm)%nat = gapsUpTo 30 (gaps rt (first :: rest)) /\
    (sd + ww + wm + om = List.length rest)%nat /\
    average_days_between_orders t = JS.Fin avg /\
    avg * inject_Z (Z.of_nat (List.length rest))
    == sumQ (gaps rt (first :: rest)).
Proof.
  intro Hv. unfold analyzeTimePatterns.
  change (List.length (first :: rest) =? 0)%nat with false. cbv iota.
  unfold countByM. rewrite (mapM_isoMonthKey_valid rt _ Hv). cbn [bind].
  rewrite (daysBetweenOrders_valid rt _ Hv).
  destruct (gapStep_counts (gaps rt (first :: rest)) 0 0 0 0)
    as [sd [ww [wm [om [Hf [H1 [H7 [H30 Hall]]]]]]]].
  rewrite Hf. rewrite gaps_length in Hall. cbn [List.length] in Hall.
  rewrite Nat.sub_succ, Nat.sub_0_r in Hall. cbn [Nat.add] in *.
  destruct (mean_gap rt first rest) as [avg [Ha Hq]]. rewrite Ha.
  destruct (0 <? List.length (first :: rest) / 2)%nat eqn:Em.
  - apply Nat.ltb_lt in Em.
    destruct (at_in_bounds (first :: rest) (List.length (first :: rest) / 2))
      as [oM [HM _]]; [apply Nat.div_lt; simpl; lia|].
    destruct (at_in_bounds (first :: rest) (List.length (first :: rest) - 1))
      as [oL [HL _]]; [simpl; lia|].
    rewrite HM, HL, at_first. cbn [bind].
    eexists. exists sd, ww, wm, om, avg.
    split; [reflexivity|].
    cbn [time_gap_distribution average_days_between_orders].
    repeat split; assumption.
  - eexists. exists sd, ww, wm, om, avg.
    split; [reflexivity|].
    cbn [time_gap_distribution average_days_between_orders].
    repeat split; assumption.
Qed.

Lemma time_gaps_witness :
  exists (t : TimeAnalytics) (sd ww wm om : nat) (avg : Q),
    analyzeTimePatterns Iso.utc [Sample.friday; Sample.tuesday] = Normal t /\
    time_gap_distribution t =
      {| same_day := JS.ofNat sd; within_week := JS.ofNat ww;
         within_month := JS.ofNat wm; over_month := JS.ofNat om |} /\
    (sd + ww + wm + om = 1)%nat /\
    average_days_between_orders t = JS.Fin avg /\
    avg * inject_Z (Z.of_nat 1)
    == sumQ (gaps Iso.utc [Sample.friday; Sample.tuesday]).
Proof.
  destruct (time_gaps_account_for_every_pair Iso.utc Sample.friday
              [Sample.tuesday] fridayTuesday_parse)
    as [t [sd [ww [wm [om [avg [Ht [Hd [_ [_ [_ [Hn [Ha Hq]]]]]]]]]]]]].
  exists t, sd, ww, wm, om, avg. repeat split; assumption.
Defined.

(** *** Reading back what was written *)

Lemma get_set_same {V : Type} (k : string) (v : V) (o : obj V) :
  get k (set k v o) = Some v.
Proof.
  induction o as [|[k' v'] r IH]; simpl.
  - rewrite String.eqb_refl. reflexivity.
  - destruct (String.eqb k k') eqn:E; simpl; rewrite E; [reflexivity|exact IH].
Qed.

Lemma get_set_other {V : Type} (k k' : string) (v : V) (o : obj V) :
  k' <> k -> get k' (set k v o) = get k' o.
Proof.
  intro Hne. induction o as [|[k0 v0] r IH]; simpl.
  - apply String.eqb_neq in Hne. rewrite Hne. reflexivity.
  - destruct (String.eqb k k0) eqn:E; simpl.
    + apply String.eqb_eq in E. subst k0.
      apply String.eqb_neq in Hne. rewrite Hne. reflexivity.
    + rewrite IH. reflexivity.
Qed.

Lemma NoDup_set_keys {V : Type} (k : string) (v : V) (o : obj V) :
  NoDup (map fst o) -> NoDup (map fst (set k v o)).
Proof.
  intro Hnd. destruct (in_dec string_dec k (map fst o)) as [Hin|Hnin].
  - rewrite set_keys_present by exact Hin. exact Hnd.
  - rewrite set_absent by exact Hnin. rewrite map_app. simpl.
    apply NoDup_app; [exact Hnd|repeat constructor; intros []|].
    intros x Hx [<-|[]]. exact (Hnin Hx).
Qed.

Lemma In_get {V : Type} (k : string) (v : V) (o : obj V) :
  NoDup (map fst o) -> In (k, v) o -> get k o = Some v.
Proof.
  induction o as [|[k' v'] r IH]; simpl; [tauto|].
  intros Hnd Hin. inversion Hnd as [|? ? Hn Hnd']; subst.
  destruct (String.eqb k k') eqn:E.
  - apply String.eqb_eq in E. subst k'.
    destruct Hin as [Hin|Hin]; [congruence|].
    exfalso. apply Hn. change k with (fst (k, v)). apply in_map. exact Hin.
  - apply String.eqb_neq in E. destruct Hin as [Hin|Hin]; [congruence|].
    apply IH; assumption.
Qed.

(** Two objects with the same entries answer every lookup alike. *)
Lemma get_perm {V : Type} (k : string) (o o' : obj V) :
  NoDup (map fst o) -> Permutation o o' -> get k o' = get k o.
Proof.
  intros Hnd Hp.
  assert (Hnd' : NoDup (map fst o'))
    by (eapply Permutation_NoDup; [apply Permutation_map; exact Hp|exact Hnd]).
  destruct (get k o) as [v|] eqn:G.
  - apply In_get; [exact Hnd'|].
    apply (Permutation_in _ Hp). apply get_Some_In. exact G.
  - destruct (get k o') as [v|] eqn:G'; [|reflexivity].
    apply get_Some_In in G'.
    apply (Permutation_in _ (Permutation_sym Hp)) in G'.
    rewrite (In_get _ _ _ Hnd G') in G. discriminate.
Qed.

(** *** countBy with a key function *)

Lemma countBy_map {A : Type} (f : A -> string) (l : list A) :
  Lodash.countBy f l = Lodash.countBy (fun s => s) (map f l).
Proof.
  unfold Lodash.countBy. generalize (@nil (string * nat)).
  induction l as [|x r IH]; intro acc; simpl; [reflexivity|]. apply IH.
Qed.

Lemma countBy_counts_of {A : Type} (f : A -> string) (l : list A) :
  counts_of (map f l) (Lodash.countBy f l).
Proof. rewrite countBy_map. apply countBy_counts. Qed.

Lemma set_sum_present (k : string) (n m : nat) (o : obj nat) :
  get k o = Some n ->
  (list_sum (map snd (set k m o)) + n = list_sum (map snd o) + m)%nat.
Proof.
  induction o as [|[k' v] r IH]; simpl; [discriminate|].
  destruct (String.eqb k k').
  - intro H. injection H as ->. simpl. lia.
  - intro H. simpl. specialize (IH H). lia.
Qed.

Lemma set_sum_absent (k : string) (m : nat) (o : obj nat) :
  get k o = None ->
  list_sum (map snd (set k m o)) = (list_sum (map snd o) + m)%nat.
Proof.
  induction o as [|[k' v] r IH]; simpl; [lia|].
  destruct (String.eqb k k'); [discriminate|].
  intro H. simpl. rewrite (IH H). lia.
Qed.

Lemma countBy_total {A : Type} (f : A -> string) (l : list A) :
  list_sum (map snd (Lodash.countBy f l)) = List.length l.
Proof.
  unfold Lodash.countBy.
  assert (H : forall acc,
             list_sum (map snd (fold_left
                                  (fun acc x => Lodash.countStep acc (f x)) l acc))
             = (list_sum (map snd acc) + List.length l)%nat).
  { induction l as [|x r IH]; intro acc; simpl; [lia|].
    rewrite IH. unfold Lodash.countStep.
    destruct (get (f x) acc) as [n|] eqn:G.
    - pose proof (set_sum_present _ _ (S n) _ G). lia.
    - rewrite (set_sum_absent _ _ _ G). lia. }
  rewrite H. reflexivity.
Qed.

Lemma counts_of_get (l : list string) (o : obj nat) (k : string) :
  counts_of l o ->
  get k o = (if (count_occ string_dec l k =? 0)%nat then None
             else Some (count_occ string_dec l k)).
Proof.
  intros [Hnd Hc].
  destruct (get k o) as [n|] eqn:G.
  - apply get_Some_In in G. apply Hc in G. destruct G as [-> Hpos].
    destruct (count_occ string_dec l k =? 0)%nat eqn:E;
      [apply Nat.eqb_eq in E; lia|reflexivity].
  - apply get_None_notin in G.
    destruct (count_occ string_dec l k =? 0)%nat eqn:E; [reflexivity|].
    apply Nat.eqb_neq in E. exfalso. apply G.
    change k with (fst (k, count_occ string_dec l k)). apply in_map.
    apply Hc. split; [reflexivity|lia].
Qed.

Lemma get_mapValues {V W : Type} (f : V -> W) (k : string) (o : obj V) :
  get k (mapValues f o) = option_map f (get k o).
Proof.
  induction o as [|[k' v] r IH]; simpl; [reflexivity|].
  destruct (String.eqb k k'); [reflexivity|exact IH].
Qed.

(** The number of keys enumerated is the number of entries. *)
Lemma keys_length {V : Type} (o : obj V) :
  List.length (keys o) = List.length o.
Proof.
  unfold keys. rewrite length_map. symmetry. apply Permutation_length.
  apply entries_perm.
Qed.

Lemma keys_In {V : Type} (o : obj V) (k : string) :
  In k (keys o) <-> In k (map fst o).
Proof.
  unfold keys. split; apply Permutation_in; apply Permutation_map;
    [apply Permutation_sym|]; apply entries_perm.
Qed.

Lemma counts_of_keys (l : list string) (o : obj nat) (k : string) :
  counts_of l o -> (In k (map fst o) <-> In k l).
Proof.
  intros [Hnd Hc]. split.
  - intro H. apply in_map_iff in H. destruct H as [[k' n] [<- Hin]].
    apply Hc in Hin. simpl. apply (count_occ_In string_dec). lia.
  - intro H. apply (count_occ_In string_dec) in H.
    change k with (fst (k, count_occ string_dec l k)).
    apply in_map. apply Hc. split; [reflexivity|lia].
Qed.

Lemma counts_of_length (l : list string) (o : obj nat) :
  counts_of l o -> List.length o = List.length (nodup string_dec l).
Proof.
  intro H. rewrite <- (length_map fst o). apply Permutation_length.
  apply NoDup_Permutation; [apply H|apply NoDup_nodup|].
  intro k. rewrite nodup_In. apply counts_of_keys. exact H.
Qed.

(** *** The key with the largest count *)

Lemma countGt_cnt (counts : obj nat) (a b : string) :
  get b counts <> None ->
  countGt counts a b = (cnt counts b <? cnt counts a)%nat.
Proof.
  unfold countGt, cnt. destruct (get a counts), (get b counts);
    try congruence; try reflexivity.
Qed.

Lemma reduce_last_max (counts : obj nat) (l : list string) (a0 : string) :
  (forall k, In k l -> get k counts <> None) ->
  let r := fold_left (fun a b => if countGt counts a b then a else b) l a0 in
  (r = a0 /\ forall k, In k l -> (cnt counts k < cnt counts a0)%nat) \/
  (exists l1 l2, l = (l1 ++ r :: l2)%list /\
     (forall k, In k l2 -> (cnt counts k < cnt counts r)%nat) /\
     (forall k, In k l1 -> (cnt counts k <= cnt counts r)%nat) /\
     (cnt counts a0 <= cnt counts r)%nat).
Proof.
  induction l as [|b l IH] using rev_ind; intros Hk r.
  - left. split; [reflexivity|]. intros k [].
  - subst r. rewrite fold_left_app. cbn [fold_left].
    assert (Hk' : forall k, In k l -> get k counts <> None)
      by (intros k Hin; apply Hk; apply in_or_app; left; exact Hin).
    specialize (IH Hk'). cbv zeta in IH.
    set (r := fold_left (fun a b => if countGt counts a b then a else b) l a0)
      in *.
    rewrite countGt_cnt by (apply Hk; apply in_or_app; right; left; reflexivity).
    destruct (cnt counts b <? cnt counts r)%nat eqn:E.
    + apply Nat.ltb_lt in E. destruct IH as [[Hr Hall]|[l1 [l2 [Hl [H2 [H1 H0]]]]]].
      * left. split; [exact Hr|]. intros k Hin. apply in_app_or in Hin.
        destruct Hin as [Hin|[<-|[]]]; [apply Hall; exact Hin|].
        rewrite <- Hr. exact E.
      * right. exists l1, (l2 ++ [b])%list. split.
        { rewrite Hl, <- app_assoc. reflexivity. }
        split; [|split; assumption].
        intros k Hin. apply in_app_or in Hin.
        destruct Hin as [Hin|[<-|[]]]; [apply H2; exact Hin|exact E].
    + apply Nat.ltb_ge in E. right. exists l, []. split; [reflexivity|].
      split; [intros k []|].
      destruct IH as [[Hr Hall]|[l1 [l2 [Hl [H2 [H1 H0]]]]]].
      * split; [|rewrite <- Hr; exact E].
        intros k Hin. specialize (Hall k Hin). rewrite <- Hr in Hall. lia.
      * split; [|lia]. intros k Hin. rewrite Hl in Hin.
        apply in_app_or in Hin. destruct Hin as [Hin|[<-|Hin]].
        -- specialize (H1 k Hin). lia.
        -- exact E.
        -- specialize (H2 k Hin). lia.
Qed.

Lemma In_keys_get {V : Type} (o : obj V) (k : string) :
  In k (map fst o) -> get k o <> None.
Proof.
  intros H G. apply get_None_notin in G. exact (G H).
Qed.

(** [reduceMax] on a count of a non-empty list: a most frequent
    element, the last one enumerated among the most frequent. *)
Lemma reduceMax_mode (l : list string) (init : string) :
  l <> [] ->
  let counts := Lodash.countBy (fun s => s) l in
  let r := reduceMax counts init in
  In r l /\
  (forall k, (count_occ string_dec l k <= count_occ string_dec l r)%nat) /\
  exists before after,
    keys counts = (before ++ r :: after)%list /\
    forall k, In k after ->
              (count_occ string_dec l k < count_occ string_dec l r)%nat.
Proof.
  intros Hne counts r.
  pose proof (countBy_counts l) as Hc. fold counts in Hc.
  assert (Hcnt : forall k, cnt counts k = count_occ string_dec l k).
  { intro k. unfold cnt. rewrite (counts_of_get l counts k Hc).
    destruct (count_occ string_dec l k =? 0)%nat eqn:E; [|reflexivity].
    apply Nat.eqb_eq in E. congruence. }
  assert (Hkeys : forall k, In k (keys counts) <-> In k l).
  { intro k. rewrite keys_In. apply counts_of_keys. exact Hc. }
  assert (Hget : forall k, In k (keys counts) -> get k counts <> None).
  { intros k Hin. apply In_keys_get. apply keys_In. exact Hin. }
  pose proof (reduce_last_max counts (keys counts) init Hget) as H.
  cbv zeta in H. fold (reduceMax counts init) in H. fold r in H.
  destruct l as [|x l']; [congruence|].
  assert (Hx : In x (keys counts)) by (apply Hkeys; left; reflexivity).
  destruct H as [[Hr Hall]|[l1 [l2 [Hl [H2 [H1 H0]]]]]].
  - exfalso. pose proof (Hall x Hx) as Hlt. rewrite !Hcnt in Hlt.
    assert (Hi : In init (x :: l'))
      by (apply (count_occ_In string_dec); lia).
    apply Hkeys in Hi. specialize (Hall init Hi). lia.
  - assert (Hr : In r (keys counts))
      by (rewrite Hl; apply in_or_app; right; left; reflexivity).
    split; [apply Hkeys; exact Hr|]. split.
    + intro k. destruct (in_dec string_dec k (x :: l')) as [Hin|Hnin].
      * apply Hkeys in Hin. rewrite Hl in Hin. rewrite <- !Hcnt.
        apply in_app_or in Hin. destruct Hin as [Hin|[<-|Hin]].
        -- apply H1; exact Hin.
        -- lia.
        -- specialize (H2 k Hin). lia.
      * apply (count_occ_not_In string_dec) in Hnin. rewrite Hnin. lia.
    + exists l1, l2. split; [exact Hl|].
      intros k Hin. rewrite <- !Hcnt. apply H2; exact Hin.
Qed.

(** *** Sorting commutes with a map that respects the comparator *)

Lemma insert_map {A B : Type} (leA : A -> A -> bool) (leB : B -> B -> bool)
      (g : A -> B) (x : A) (l : list A) :
  (forall a b, leB (g a) (g b) = leA a b) ->
  Arr.insert leB (g x) (map g l) = map g (Arr.insert leA x l).
Proof.
  intro H. induction l as [|y r IH]; simpl; [reflexivity|].
  rewrite H. destruct (leA x y); simpl; [reflexivity|].
  rewrite IH. reflexivity.
Qed.

Lemma sort_map {A B : Type} (leA : A -> A -> bool) (leB : B -> B -> bool)
      (g : A -> B) (l : list A) :
  (forall a b, leB (g a) (g b) = leA a b) ->
  Arr.sort leB (map g l) = map g (Arr.sort leA l).
Proof.
  intro H. induction l as [|x r IH]; simpl; [reflexivity|].
  rewrite IH. apply insert_map. exact H.
Qed.

(** Mapping the values of an object keeps the enumeration order. *)
Lemma entries_mapValues {V W : Type} (f : V -> W) (o : obj V) :
  entries (mapValues f o) = mapValues f (entries o).
Proof.
  unfold entries, mapValues. rewrite map_app. f_equal.
  - assert (Hi : indexEntries (map (fun e => (fst e, f (snd e))) o)
                 = map (fun ne : Z * (string * V) =>
                          (fst ne, (fst (snd ne), f (snd (snd ne)))))
                       (indexEntries o)).
    { unfold indexEntries. induction o as [|e r IH]; simpl; [reflexivity|].
      rewrite IH. destruct (Str.arrayIndex (fst e)); reflexivity. }
    rewrite Hi.
    rewrite (sort_map (fun a b => (fst a <=? fst b)%Z)
                      (fun a b => (fst a <=? fst b)%Z)) by reflexivity.
    rewrite !map_map. reflexivity.
  - unfold nameEntries. induction o as [|e r IH]; simpl; [reflexivity|].
    destruct (Str.arrayIndex (fst e)); simpl; rewrite IH; reflexivity.
Qed.

Lemma keys_mapValues {V W : Type} (f : V -> W) (o : obj V) :
  keys (mapValues f o) = keys o.
Proof.
  unfold keys. rewrite entries_mapValues. unfold mapValues.
  rewrite map_map. reflexivity.
Qed.

(** An object without array-index keys is enumerated in creation
    order. *)
Lemma entries_names {V : Type} (o : obj V) :
  (forall k, In k (map fst o) -> Str.arrayIndex k = None) ->
  entries o = o.
Proof.
  intro H. unfold entries.
  assert (Hi : indexEntries o = []).
  { unfold indexEntries. induction o as [|e r IH]; simpl; [reflexivity|].
    rewrite (H (fst e)) by (left; reflexivity). simpl. apply IH.
    intros k Hk. apply H. right. exact Hk. }
  rewrite Hi. simpl.
  unfold nameEntries. induction o as [|e r IH]; simpl; [reflexivity|].
  rewrite (H (fst e)) by (left; reflexivity). f_equal. apply IH.
  - intros k Hk. apply H. right. exact Hk.
  - unfold indexEntries in *. simpl in Hi.
    rewrite (H (fst e)) in Hi by (left; reflexivity). exact Hi.
Qed.

(** ** analyzePayments *)

(** X6.  [analyzePayments]: [payment_method_counts] holds, for every
    payment method, the number of orders paid with it, and no entry for
    a method that no order has; the counts add up to the number of
    orders; [preferred_payment_method] is "N/A" for no order and
    otherwise a most frequent method: among equally frequent methods the
    one enumerated last (every method enumerated after it is strictly
    less frequent). *)
Theorem analyzePayments_counts_and_mode (orders : list Order) :
  let methods := map payment_method orders in
  let occ := count_occ string_dec methods in
  let p := analyzePayments orders in
  (forall m, get m (payment_method_counts p)
             = if (occ m =? 0)%nat then None else Some (JS.ofNat (occ m))) /\
  (exists counts : obj nat,
      payment_method_counts p = mapValues JS.ofNat counts /\
      list_sum (map snd counts) = List.length orders) /\
  (orders = [] -> preferred_payment_method p = "N/A") /\
  (orders <> [] ->
   In (preferred_payment_method p) methods /\
   (forall m, (occ m <= occ (preferred_payment_method p))%nat) /\
   exists before after,
     keys (payment_method_counts p)
     = (before ++ preferred_payment_method p :: after)%list /\
     forall m, In m after -> (occ m < occ (preferred_payment_method p))%nat).
Proof.
  intros methods occ p. unfold p, analyzePayments.
  cbn [payment_method_counts preferred_payment_method].
  split; [|split; [|split]].
  - intro m. rewrite get_mapValues.
    rewrite (counts_of_get methods _ m (countBy_counts_of _ _)).
    fold (occ m). destruct (occ m =? 0)%nat; reflexivity.
  - eexists. split; [reflexivity|]. apply countBy_total.
  - intros ->. reflexivity.
  - intro Hne. rewrite keys_mapValues, countBy_map.
    apply (reduceMax_mode methods "N/A").
    intro H. apply map_eq_nil in H. exact (Hne H).
Qed.

(** ** getTopN *)

Lemma fold_set_fresh {V : Type} (es acc : obj V) :
  NoDup (map fst (acc ++ es)) ->
  fold_left (fun acc e => set (fst e) (snd e) acc) es acc = (acc ++ es)%list.
Proof.
  revert acc. induction es as [|[k v] r IH]; intros acc Hnd; simpl.
  - rewrite app_nil_r. reflexivity.
  - rewrite set_absent.
    + rewrite IH; rewrite <- app_assoc; [reflexivity|exact Hnd].
    + rewrite map_app in Hnd. simpl in Hnd.
      apply NoDup_remove_2 in Hnd. intro H. apply Hnd.
      apply in_or_app. left. exact H.
Qed.

Lemma NoDup_firstn {A : Type} (n : nat) (l : list A) :
  NoDup l -> NoDup (firstn n l).
Proof.
  intro H. rewrite <- (firstn_skipn n l) in H.
  apply NoDup_app_remove_r in H. exact H.
Qed.

Lemma StronglySorted_app_le {A : Type} (R : A -> A -> Prop) (l1 l2 : list A) :
  StronglySorted R (l1 ++ l2) ->
  forall x y, In x l1 -> In y l2 -> R x y.
Proof.
  induction l1 as [|a r IH]; simpl; intros Hs x y Hx Hy; [destruct Hx|].
  inversion Hs as [|? ? Hs' Hall]; subst.
  destruct Hx as [<-|Hx].
  - rewrite Forall_forall in Hall. apply Hall. apply in_or_app. right. exact Hy.
  - apply (IH Hs' x y Hx Hy).
Qed.

Lemma fold_set_top (es : list (string * nat)) (n : nat) :
  NoDup (map fst es) ->
  fold_left (fun acc e => set (fst e) (snd e) acc)
            (Arr.sliceFirst n
               (Arr.sort (fun a b => (snd b <=? snd a)%nat) es)) []
  = firstn n (Arr.sort byCountDesc es).
Proof.
  intro Hnd. unfold Arr.sliceFirst.
  change (fun a b : string * nat => (snd b <=? snd a)%nat) with byCountDesc.
  rewrite fold_set_fresh; [reflexivity|]. simpl.
  rewrite <- firstn_map. apply NoDup_firstn.
  eapply Permutation_NoDup; [|exact Hnd].
  apply Permutation_map. apply sort_perm.
Qed.

Lemma sorted_byCountDesc (l : list (string * nat)) :
  StronglySorted (fun a b => (snd b <= snd a)%nat) (Arr.sort byCountDesc l).
Proof.
  apply Sorted_StronglySorted.
  - intros a b c Hab Hbc. lia.
  - assert (Ht : forall a b, byCountDesc a b = true \/ byCountDesc b a = true).
    { intros a b. unfold byCountDesc. rewrite !Nat.leb_le. lia. }
    pose proof (sort_sorted byCountDesc Ht l) as Hs.
    induction Hs as [|y r Hs' IH Hd]; constructor; [exact IH|].
    destruct Hd as [|z r' Hz]; constructor.
    apply Nat.leb_le. exact Hz.
Qed.

(** The first [n] entries by descending count. *)
Lemma top_entries_facts (es : list (string * nat)) (n : nat) :
  NoDup (map fst es) ->
  let top := firstn n (Arr.sort byCountDesc es) in
  List.length top = Nat.min n (List.length es) /\
  NoDup (map fst top) /\
  (forall k v, In (k, v) top -> In (k, v) es) /\
  (forall k v k' v',
      In (k, v) top -> In (k', v') es -> ~ In (k', v') top ->
      (v' <= v)%nat) /\
  StronglySorted (fun a b => (snd b <= snd a)%nat) top.
Proof.
  intros Hnd top. unfold top.
  set (sorted := Arr.sort byCountDesc es).
  assert (Hp : Permutation es sorted) by apply sort_perm.
  pose proof (sorted_byCountDesc es) as Hs. fold sorted in Hs.
  split; [|split; [|split; [|split]]].
  - rewrite length_firstn, (Permutation_length Hp). reflexivity.
  - rewrite <- firstn_map. apply NoDup_firstn.
    eapply Permutation_NoDup; [apply Permutation_map; exact Hp|exact Hnd].
  - intros k v Hin. eapply Permutation_in; [apply Permutation_sym; exact Hp|].
    rewrite <- (firstn_skipn n sorted). apply in_or_app. left. exact Hin.
  - intros k v k' v' Hin Hin' Hnot.
    assert (Hsk : In (k', v') (skipn n sorted)).
    { apply (Permutation_in _ Hp) in Hin'.
      rewrite <- (firstn_skipn n sorted) in Hin'.
      apply in_app_or in Hin'. destruct Hin' as [H|H]; [contradiction|exact H]. }
    rewrite <- (firstn_skipn n sorted) in Hs.
    exact (StronglySorted_app_le _ _ _ Hs (k, v) (k', v') Hin Hsk).
  - rewrite <- (firstn_skipn n sorted) in Hs.
    clear - Hs. induction (firstn n sorted) as [|a r IH]; [constructor|].
    simpl in Hs. inversion Hs as [|? ? Hs' Hall]; subst.
    constructor; [apply IH; exact Hs'|].
    rewrite Forall_forall in *. intros x Hx. apply Hall.
    apply in_or_app. left. exact Hx.
Qed.

Lemma getTopN_firstn (record : obj nat) (n : nat) :
  NoDup (map fst record) ->
  getTopN record n = firstn n (Arr.sort byCountDesc (entries record)).
Proof.
  intro Hnd. unfold getTopN. apply fold_set_top.
  eapply Permutation_NoDup; [|exact Hnd].
  apply Permutation_map. apply entries_perm.
Qed.

Lemma getTopN_facts (record : obj nat) (n : nat) :
  NoDup (map fst record) ->
  let top := getTopN record n in
  List.length top = Nat.min n (List.length record) /\
  NoDup (map fst top) /\
  (forall k v, In (k, v) top -> In (k, v) record) /\
  (forall k v k' v',
      In (k, v) top -> In (k', v') record -> ~ In (k', v') top ->
      (v' <= v)%nat) /\
  StronglySorted (fun a b => (snd b <= snd a)%nat) top.
Proof.
  intros Hnd top. unfold top. rewrite (getTopN_firstn record n Hnd).
  assert (Hnd' : NoDup (map fst (entries record))).
  { eapply Permutation_NoDup; [|exact Hnd].
    apply Permutation_map. apply entries_perm. }
  destruct (top_entries_facts (entries record) n Hnd')
    as [Hlen [Hk [Hsub [Hmax Hs]]]].
  split; [|split; [|split; [|split]]].
  - rewrite Hlen, <- (Permutation_length (entries_perm record)). reflexivity.
  - exact Hk.
  - intros k v Hin. apply (Permutation_in _ (Permutation_sym (entries_perm record))).
    apply Hsub. exact Hin.
  - intros k v k' v' Hin Hin' Hnot. apply (Hmax k v k' v' Hin); [|exact Hnot].
    apply (Permutation_in _ (entries_perm record)). exact Hin'.
  - exact Hs.
Qed.

(** X7.  For a record with distinct keys, [getTopN record n] holds
    min(n, size of the record) entries with distinct keys, each an entry
    of the record with its value; a lookup in the result finds exactly
    its entries; no entry left out has a greater value than an entry
    kept; and the entries are stored by descending value. *)
Theorem getTopN_keeps_the_largest (record : obj nat) (n : nat) :
  NoDup (map fst record) ->
  let top := getTopN record n in
  List.length top = Nat.min n (List.length record) /\
  NoDup (map fst top) /\
  (forall k v, get k top = Some v <-> In (k, v) top) /\
  (forall k v, In (k, v) top -> get k record = Some v) /\
  (forall k v k' v',
      In (k, v) top -> In (k', v') record -> ~ In (k', v') top ->
      (v' <= v)%nat) /\
  StronglySorted (fun a b => (snd b <= snd a)%nat) top.
Proof.
  intros Hnd top.
  destruct (getTopN_facts record n Hnd) as [Hlen [Hk [Hsub [Hmax Hs]]]].
  fold top in Hlen, Hk, Hsub, Hmax, Hs.
  split; [exact Hlen|]. split; [exact Hk|]. split.
  - intros k v. split; [apply get_Some_In|apply In_get; exact Hk].
  - split; [|split; [exact Hmax|exact Hs]].
    intros k v Hin. apply In_get; [exact Hnd|]. apply Hsub. exact Hin.
Qed.

Lemma getTopN_witness :
  getTopN [("a", 1%nat); ("b", 3%nat); ("c", 2%nat)] 2
  = [("b", 3%nat); ("c", 2%nat)] /\
  List.length (getTopN [("a", 1%nat); ("b", 3%nat); ("c", 2%nat)] 2)
  = Nat.min 2 3.
Proof.
  split; [reflexivity|].
  refine (proj1 (getTopN_keeps_the_largest
                   [("a", 1%nat); ("b", 3%nat); ("c", 2%nat)] 2 _)).
  repeat constructor; simpl; intuition discriminate.
Defined.

Lemma In_mapValues {V W : Type} (f : V -> W) (o : obj V) (k : string) (w : W) :
  In (k, w) (mapValues f o) <-> exists v, In (k, v) o /\ w = f v.
Proof.
  unfold mapValues. rewrite in_map_iff. split.
  - intros [[k' v] [H Hin]]. simpl in H. injection H as -> <-.
    exists v. split; [exact Hin|reflexivity].
  - intros [v [Hin ->]]. exists (k, v). split; [reflexivity|exact Hin].
Qed.

Lemma In_fst {V : Type} (o : obj V) (k : string) :
  In k (map fst o) <-> exists v, In (k, v) o.
Proof.
  rewrite in_map_iff. split.
  - intros [[k' v] [<- Hin]]. exists v. exact Hin.
  - intros [v Hin]. exists (k, v). split; [reflexivity|exact Hin].
Qed.

(** ** analyzeRestaurants *)

(** X8.  [analyzeRestaurants]: [unique_restaurants] is the number of
    distinct restaurant names; [top_restaurants_by_orders] has min(10,
    that number) entries with distinct keys, each a restaurant of the
    orders with its number of orders; and no restaurant left out has
    more orders than a restaurant kept. *)
Theorem analyzeRestaurants_top_counts (orders : list Order) :
  let names := map restaurant_name orders in
  let occ := count_occ string_dec names in
  let r := analyzeRestaurants orders in
  unique_restaurants r = JS.ofNat (List.length (nodup string_dec names)) /\
  List.length (top_restaurants_by_orders r)
  = Nat.min 10 (List.length (nodup string_dec names)) /\
  NoDup (map fst (top_restaurants_by_orders r)) /\
  (forall k v, In (k, v) (top_restaurants_by_orders r) ->
               In k names /\ v = JS.ofNat (occ k)) /\
  (forall k k', In k (keys (top_restaurants_by_orders r)) ->
                In k' names ->
                ~ In k' (keys (top_restaurants_by_orders r)) ->
                (occ k' <= occ k)%nat).
Proof.
  intros names occ r.
  pose proof (countBy_counts_of restaurant_name orders) as Hc.
  fold names in Hc.
  set (counts := Lodash.countBy restaurant_name orders) in *.
  pose proof (getTopN_facts counts 10 (proj1 Hc)) as Ht.
  cbv zeta in Ht. destruct Ht as [Hlen [Hnd [Hsub [Hmax _]]]].
  assert (Hr : top_restaurants_by_orders r
               = mapValues JS.ofNat (getTopN counts 10)).
  { unfold r, analyzeRestaurants. fold counts.
    destruct (JS.gt _ _); [reflexivity|]. destruct (JS.gt _ _); reflexivity. }
  assert (Hu : unique_restaurants r = JS.ofNat (List.length (keys counts))).
  { unfold r, analyzeRestaurants. fold counts.
    destruct (JS.gt _ _); [reflexivity|]. destruct (JS.gt _ _); reflexivity. }
  rewrite Hr, Hu. clear Hr Hu.
  split; [|split; [|split; [|split]]].
  - rewrite keys_length, (counts_of_length names counts Hc). reflexivity.
  - unfold mapValues. rewrite length_map, Hlen.
    rewrite (counts_of_length names counts Hc). reflexivity.
  - unfold mapValues. rewrite map_map. simpl. exact Hnd.
  - intros k v Hin. apply In_mapValues in Hin. destruct Hin as [c [Hin ->]].
    apply Hsub in Hin. apply (proj2 Hc) in Hin. destruct Hin as [-> Hpos].
    split; [|reflexivity]. apply (count_occ_In string_dec). exact Hpos.
  - intros k k' Hk Hk' Hnot. rewrite keys_mapValues in Hk, Hnot.
    rewrite keys_In in Hk, Hnot. apply In_fst in Hk. destruct Hk as [v Hv].
    assert (Hin' : In (k', occ k') counts).
    { apply (proj2 Hc). split; [reflexivity|].
      apply (count_occ_In string_dec). exact Hk'. }
    assert (Hv' := Hsub _ _ Hv). apply (proj2 Hc) in Hv'.
    destruct Hv' as [-> _].
    apply (Hmax k _ k' (occ k') Hv Hin').
    intro H. apply Hnot. apply In_fst. exists (occ k'). exact H.
Qed.

(** X9.  [analyzeRestaurants] on a non-empty list: when no restaurant
    name is an array-index string (the decimal form of an integer),
    [top_restaurant] is a restaurant with the greatest number of orders,
    [top_restaurant_percentage] is its share of the orders times 100,
    and the level is Super Loyal above 30, Loyal above 15 and Explorer
    otherwise. The condition is needed: keys that are array indices are
    enumerated first, so with the restaurants KFC, KFC and 7 the top
    restaurant is 7. *)
Theorem analyzeRestaurants_favourite (orders : list Order) :
  let names := map restaurant_name orders in
  let occ := count_occ string_dec names in
  let la := loyalty_analysis (analyzeRestaurants orders) in
  (orders <> [] ->
   (forall k, In k names -> Str.arrayIndex k = None) ->
   In (top_restaurant la) names /\
   (forall k, (occ k <= occ (top_restaurant la))%nat) /\
   exists pct,
     top_restaurant_percentage la = JS.Fin pct /\
     pct * inject_Z (Z.of_nat (List.length orders))
     == inject_Z (Z.of_nat (occ (top_restaurant la))) * 100 /\
     (level la = "Super Loyal" <-> 30 < pct) /\
     (level la = "Loyal" <-> 15 < pct /\ pct <= 30) /\
     (level la = "Explorer" <-> pct <= 15)) /\
  top_restaurant (loyalty_analysis
                    (analyzeRestaurants (visits ["KFC"; "KFC"; "7"]))) = "7".
Proof.
  intros names occ la. split; [|vm_compute; reflexivity].
  intros Hne Hidx.
  pose proof (countBy_counts_of restaurant_name orders) as Hc.
  fold names in Hc.
  set (counts := Lodash.countBy restaurant_name orders) in *.
  assert (Hkeys : forall k, In k (map fst counts) <-> In k names)
    by (intro k; apply counts_of_keys; exact Hc).
  assert (He : entries counts = counts).
  { apply entries_names. intros k Hk. apply Hidx. apply Hkeys. exact Hk. }
  pose proof (getTopN_firstn counts 10 (proj1 Hc)) as Htop. rewrite He in Htop.
  pose proof (sorted_byCountDesc counts) as Hs.
  pose proof (sort_perm byCountDesc counts) as Hp.
  set (sorted := Arr.sort byCountDesc counts) in *.
  assert (Hke : keys (getTopN counts 10) = map fst (getTopN counts 10)).
  { unfold keys. rewrite entries_names; [reflexivity|].
    intros k Hk. apply Hidx. apply Hkeys. rewrite Htop in Hk.
    rewrite <- firstn_map in Hk.
    apply (Permutation_in k (Permutation_sym (Permutation_map fst Hp))).
    rewrite <- (firstn_skipn 10 (map fst sorted)). apply in_or_app. left.
    exact Hk. }
  destruct sorted as [|[fav c] rest] eqn:Es.
  { exfalso. apply Permutation_sym, Permutation_nil in Hp.
    destruct orders as [|o os]; [congruence|].
    assert (Ho : In (restaurant_name o) (map fst counts))
      by (apply Hkeys; left; reflexivity).
    rewrite Hp in Ho. exact Ho. }
  assert (Hin : In (fav, c) counts).
  { apply (Permutation_in _ (Permutation_sym Hp)). left. reflexivity. }
  apply (proj2 Hc) in Hin. destruct Hin as [Hcv Hpos].
  assert (Hfav : In fav names) by (apply (count_occ_In string_dec); lia).
  assert (Hmax : forall k, (occ k <= occ fav)%nat).
  { intro k. destruct (in_dec string_dec k names) as [Hk|Hk].
    - assert (Hk' : In (k, occ k) counts).
      { apply (proj2 Hc). split; [reflexivity|].
        apply (count_occ_In string_dec). exact Hk. }
      apply (Permutation_in _ Hp) in Hk'. destruct Hk' as [Hk'|Hk'].
      + injection Hk' as -> _. lia.
      + inversion Hs as [|? ? _ Hall]; subst.
        rewrite Forall_forall in Hall. specialize (Hall _ Hk'). simpl in Hall.
        fold (occ fav) in Hall. exact Hall.
    - apply (count_occ_not_In string_dec) in Hk. unfold occ. rewrite Hk. lia. }
  assert (Hn : List.length orders <> O)
    by (destruct orders; [congruence|discriminate]).
  assert (Hle : (occ fav <= List.length orders)%nat).
  { unfold occ, names. rewrite <- (length_map restaurant_name orders).
    apply count_occ_bound. }
  destruct (percentage_bounds (occ fav) (List.length orders) Hle Hn)
    as [pct [Hpct [H0 [H100 Heq]]]].
  assert (Hname : hd "" (keys (getTopN counts 10)) = fav)
    by (rewrite Hke, Htop; reflexivity).
  assert (Hcount : get fav (getTopN counts 10) = Some (occ fav)).
  { rewrite Htop. simpl. rewrite String.eqb_refl. rewrite Hcv. reflexivity. }
  unfold la, analyzeRestaurants. fold counts.
  rewrite Hname, Hcount, Hpct.
  destruct (JS.gt (JS.Fin pct) (JS.Fin 30)) eqn:G30;
    [|destruct (JS.gt (JS.Fin pct) (JS.Fin 15)) eqn:G15];
    cbn [loyalty_analysis top_restaurant top_restaurant_percentage level];
    (split; [exact Hfav|split; [exact Hmax|]]);
    exists pct; (split; [reflexivity|split; [exact Heq|]]).
  - apply gt_Fin in G30. repeat split; try discriminate; try tauto.
    + intros [_ H]. exfalso. apply (Qlt_not_le _ _ G30 H).
    + intro H. exfalso. apply (Qlt_not_le 30 pct G30).
      apply (Qle_trans _ 15); [exact H|discriminate].
  - apply gt_Fin_false in G30. apply gt_Fin in G15.
    repeat split; try discriminate; try tauto.
    + intro H. exfalso. apply (Qlt_not_le _ _ H G30).
    + intro H. exfalso. apply (Qlt_not_le _ _ G15 H).
  - apply gt_Fin_false in G30. apply gt_Fin_false in G15.
    repeat split; try discriminate; try tauto.
    + intro H. exfalso. apply (Qlt_not_le _ _ H G30).
    + intros [H _]. exfalso. apply (Qlt_not_le _ _ H G15).
Qed.

(** *** groupBy *)

Lemma group_of_snoc_same {A : Type} (f : A -> string) (l : list A) (x : A) :
  group_of f (l ++ [x]) (f x)
  = Some (match group_of f l (f x) with Some g => g ++ [x] | None => [x] end)%list.
Proof.
  unfold group_of. rewrite filter_app. simpl. unfold inGroup at 2.
  rewrite String.eqb_refl.
  destruct (filter (inGroup f (f x)) l); reflexivity.
Qed.

Lemma group_of_snoc_other {A : Type} (f : A -> string) (l : list A) (x : A)
      (k : string) :
  k <> f x -> group_of f (l ++ [x]) k = group_of f l k.
Proof.
  intro Hne. unfold group_of. rewrite filter_app. simpl. unfold inGroup at 2.
  assert (E : String.eqb (f x) k = false)
    by (apply String.eqb_neq; congruence).
  rewrite E, app_nil_r. reflexivity.
Qed.

Lemma groupBy_fold {A : Type} (f : A -> string) (l pre : list A)
      (acc : obj (list A)) :
  NoDup (map fst acc) ->
  (forall k, get k acc = group_of f pre k) ->
  let g := fold_left (fun acc x => Lodash.groupStep acc (f x) x) l acc in
  NoDup (map fst g) /\ forall k, get k g = group_of f (pre ++ l) k.
Proof.
  revert pre acc. induction l as [|x r IH]; intros pre acc Hnd Hget; simpl.
  - rewrite app_nil_r. split; assumption.
  - replace (pre ++ x :: r)%list with ((pre ++ [x]) ++ r)%list
      by (rewrite <- app_assoc; reflexivity).
    apply IH.
    + unfold Lodash.groupStep. destruct (get (f x) acc);
        apply NoDup_set_keys; exact Hnd.
    + intro k. destruct (string_dec k (f x)) as [->|Hne].
      * rewrite group_of_snoc_same, <- Hget. unfold Lodash.groupStep.
        destruct (get (f x) acc); apply get_set_same.
      * rewrite (group_of_snoc_other f pre x k Hne), <- Hget.
        unfold Lodash.groupStep.
        destruct (get (f x) acc); apply get_set_other; exact Hne.
Qed.

Lemma groupBy_groups {A : Type} (f : A -> string) (l : list A) :
  NoDup (map fst (Lodash.groupBy f l)) /\
  forall k, get k (Lodash.groupBy f l) = group_of f l k.
Proof.
  apply (groupBy_fold f l [] []); [constructor|reflexivity].
Qed.

(** *** Sums over groups *)


Lemma fold_set_mapValues {V W : Type} (h : V -> W) (es : obj V) (acc : obj W) :
  NoDup (map fst acc ++ map fst es) ->
  fold_left (fun acc e => set (fst e) (h (snd e)) acc) es acc
  = (acc ++ mapValues h es)%list.
Proof.
  revert acc. induction es as [|[k v] r IH]; intros acc Hnd; simpl.
  - rewrite app_nil_r. reflexivity.
  - rewrite set_absent.
    + rewrite IH.
      * rewrite <- app_assoc. reflexivity.
      * rewrite map_app, <- app_assoc. exact Hnd.
    + simpl in Hnd. apply NoDup_remove_2 in Hnd. intro H. apply Hnd.
      apply in_or_app. left. exact H.
Qed.

(** ** The labels of months, quarters and days *)

Lemma cycle_month_range (doe : Z) :
  (0 <= doe < 146097)%Z -> (1 <= monthOfCycleDay doe <= 12)%Z.
Proof.
  intro H. unfold monthOfCycleDay. cbv zeta.
  set (yoe := ((doe - doe / 1460 + doe / 36524 - doe / 146096) / 365)%Z).
  set (doy := (doe - (365 * yoe + yoe / 4 - yoe / 100))%Z).
  assert (Hd : (0 <= doy <= 365)%Z).
  { unfold doy, yoe. Z.div_mod_to_equations. lia. }
  assert (Hm : (0 <= (5 * doy + 2) / 153 <= 11)%Z).
  { Z.div_mod_to_equations. lia. }
  destruct ((5 * doy + 2) / 153 <? 10)%Z eqn:E;
    [apply Z.ltb_lt in E|apply Z.ltb_ge in E]; lia.
Qed.

(** The months of the calendar are 1 to 12. *)
Lemma civil_month_range (days : Z) :
  (1 <= snd (fst (Date.civil days)) <= 12)%Z.
Proof.
  assert (E : snd (fst (Date.civil days))
              = monthOfCycleDay ((days + 719468) mod 146097)).
  { unfold Date.civil, monthOfCycleDay. cbv zeta. cbn [fst snd].
    rewrite (Z.mod_eq (days + 719468) 146097) by lia.
    rewrite (Z.mul_comm 146097). reflexivity. }
  rewrite E. apply cycle_month_range. apply Z.mod_pos_bound. lia.
Qed.

Lemma pad_twoDigits (k : Z) :
  (1 <= k <= 12)%Z -> Str.padStart0 2 (Str.ofZ k) = twoDigits k.
Proof.
  intro H.
  assert (C : (k = 1 \/ k = 2 \/ k = 3 \/ k = 4 \/ k = 5 \/ k = 6 \/ k = 7
               \/ k = 8 \/ k = 9 \/ k = 10 \/ k = 11 \/ k = 12)%Z) by lia.
  repeat (destruct C as [->|C]; [reflexivity|]). subst k. reflexivity.
Qed.

(** The month key of the code is the label of the local month. *)
Lemma localMonthKey_label (rt : Runtime) (o : Order) :
  localMonthKey rt o = monthLabel rt o.
Proof.
  unfold localMonthKey, monthLabel, Date.getFullYear, Date.getMonth, Date.new.
  destruct (dateParse rt (date o)) as [u|]; [|reflexivity].
  cbn [option_map JS.iadd Str.ofInt]. do 2 f_equal.
  apply pad_twoDigits. unfold Date.MonthFromTime.
  pose proof (civil_month_range (Date.Day (Date.LocalTime rt u))). lia.
Qed.

Lemma quarterKey_label (rt : Runtime) (o : Order) :
  quarterKey rt o = quarterLabel rt o.
Proof.
  unfold quarterKey, quarterLabel, Date.getFullYear, Date.getMonth, Date.new.
  destruct (dateParse rt (date o)) as [u|]; reflexivity.
Qed.

Lemma weekdayOf_range (rt : Runtime) (o : Order) :
  (-1 <= weekdayOf rt o <= 6)%Z /\
  (dateParses rt o -> (0 <= weekdayOf rt o)%Z).
Proof.
  unfold weekdayOf, dateParses, Date.getDay, Date.new.
  destruct (dateParse rt (date o)) as [u|]; cbn [option_map].
  - pose proof (Z.mod_pos_bound (Date.Day (Date.LocalTime rt u) + 4) 7
                  ltac:(lia)) as H.
    unfold Date.WeekDay. split; [lia|]. intros _. lia.
  - split; [lia|]. congruence.
Qed.

(** The day key of the code is the name of the day of the week. *)
Lemma dayNameKey_label (rt : Runtime) (o : Order) :
  dayNameKey (Date.getDay rt (Date.new rt (date o)))
  = weekdayName (weekdayOf rt o).
Proof.
  pose proof (proj1 (weekdayOf_range rt o)) as H. revert H.
  unfold weekdayOf.
  destruct (Date.getDay rt (Date.new rt (date o))) as [w|]; [|reflexivity].
  intro H. cbn [dayNameKey].
  assert (C : (w = -1 \/ w = 0 \/ w = 1 \/ w = 2 \/ w = 3 \/ w = 4
               \/ w = 5 \/ w = 6)%Z) by lia.
  repeat (destruct C as [->|C]; [reflexivity|]). subst w. reflexivity.
Qed.

Lemma filter_inGroup_ext {A : Type} (f g : A -> string) (k : string)
      (l : list A) :
  (forall x, f x = g x) -> filter (inGroup f k) l = filter (inGroup g k) l.
Proof.
  intro H. apply filter_ext. intro x. unfold inGroup. rewrite H. reflexivity.
Qed.

(** ** analyzeSpending: the monthly totals *)

Lemma monthly_spending_groups (rt : Runtime) (orders : list Order) :
  monthly_spending (analyzeSpending rt orders)
  = mapValues (Lodash.sumBy totalValue)
              (entries (Lodash.groupBy (localMonthKey rt) orders)).
Proof.
  unfold analyzeSpending. cbn [monthly_spending].
  apply (fold_set_mapValues (Lodash.sumBy totalValue) _ []). simpl.
  eapply Permutation_NoDup;
    [apply Permutation_map; apply entries_perm|].
  apply groupBy_groups.
Qed.

(** The monthly totals, by the month key of the code. *)
Lemma monthly_spending_by_key (rt : Runtime) (orders : list Order) :
  let s := analyzeSpending rt orders in
  let inMonth k o := String.eqb (localMonthKey rt o) k in
  (forall k, get k (monthly_spending s) = None
             <-> forall o, In o orders -> localMonthKey rt o <> k) /\
  (forall k v, get k (monthly_spending s) = Some v ->
               exists q, v = JS.Fin q /\
                         q == sumQ (map total_value (filter (inMonth k) orders))) /\
  NoDup (map fst (monthly_spending s)).
Proof.
  intros s inMonth. unfold s.
  pose proof (proj1 (analyzeSpending_monthlyTotals rt orders)) as Hdistinct.
  rewrite monthly_spending_groups in *.
  destruct (groupBy_groups (localMonthKey rt) orders) as [Hnd Hget].
  set (g := Lodash.groupBy (localMonthKey rt) orders) in *.
  assert (Hlook : forall k, get k (mapValues (Lodash.sumBy totalValue) (entries g))
                            = option_map (Lodash.sumBy totalValue)
                                (group_of (localMonthKey rt) orders k)).
  { intro k. rewrite get_mapValues.
    rewrite (get_perm k g (entries g) Hnd (entries_perm g)), Hget.
    reflexivity. }
  split; [|split].
  - intro k. rewrite Hlook. unfold group_of.
    change (inGroup (localMonthKey rt) k) with (inMonth k).
    split.
    + intros H o Hin Hk.
      assert (Hf : In o (filter (inMonth k) orders)).
      { apply filter_In. split; [exact Hin|]. unfold inMonth.
        apply String.eqb_eq. exact Hk. }
      destruct (filter (inMonth k) orders); [destruct Hf|discriminate].
    + intro H. destruct (filter (inMonth k) orders) as [|o r] eqn:E;
        [reflexivity|].
      exfalso. assert (Hf : In o (filter (inMonth k) orders))
        by (rewrite E; left; reflexivity).
      apply filter_In in Hf. destruct Hf as [Hin Hk].
      apply (H o Hin). apply String.eqb_eq. exact Hk.
  - intros k v. rewrite Hlook. unfold group_of.
    change (inGroup (localMonthKey rt) k) with (inMonth k).
    destruct (filter (inMonth k) orders) as [|o r]; [discriminate|].
    simpl. intro H. injection H as <-.
    destruct (sumBy_totalValue (o :: r)) as [q [Hq Hq']].
    exists q. split; assumption.
  - exact Hdistinct.
Qed.

(** X10.  [analyzeSpending]: [monthly_spending] has an entry exactly for
    the local months in which an order falls, under the label of the
    month (the year, a dash and the month of 1 to 12 as two digits), no
    month has two entries, and the entry of a month is the sum of
    [total_value] over the orders of that month. *)
Theorem analyzeSpending_monthly_totals (rt : Runtime) (orders : list Order) :
  let s := analyzeSpending rt orders in
  (forall k, get k (monthly_spending s) = None
             <-> forall o, In o orders -> monthLabel rt o <> k) /\
  (forall k v, get k (monthly_spending s) = Some v ->
               exists q, v = JS.Fin q /\
                         q == sumQ (map total_value
                                        (filter (inGroup (monthLabel rt) k)
                                                orders))) /\
  NoDup (map fst (monthly_spending s)).
Proof.
  intro s.
  destruct (monthly_spending_by_key rt orders) as [Hnone [Hsome Hnd]].
  fold s in Hnone, Hsome, Hnd.
  split; [|split; [|exact Hnd]].
  - intro k. rewrite Hnone. split; intros H o Ho.
    + rewrite <- localMonthKey_label. apply H. exact Ho.
    + rewrite localMonthKey_label. apply H. exact Ho.
  - intros k v Hk. destruct (Hsome k v Hk) as [q [Hv Hq]].
    exists q. split; [exact Hv|]. rewrite Hq.
    change (fun o : Order => String.eqb (localMonthKey rt o) k)
      with (inGroup (localMonthKey rt) k).
    rewrite (filter_inGroup_ext (localMonthKey rt) (monthLabel rt) k orders
               (localMonthKey_label rt)).
    reflexivity.
Qed.

(** ** analyzeHealthDietary *)

Lemma hourIn_disjoint (h : option Z) (a b c d : Z) :
  (b <= c)%Z -> hourIn h a b = true -> hourIn h c d = false.
Proof.
  destruct h as [z|]; simpl; [|discriminate].
  intros Hbc H. apply andb_true_iff in H. destruct H as [_ H].
  apply Z.ltb_lt in H. apply andb_false_iff. left. apply Z.leb_gt. lia.
Qed.

Lemma mealStep_fold (rt : Runtime) (orders : list Order) (b l d s : nat) :
  exists s',
    fold_left (mealStep rt) orders (b, l, d, s) =
    ((b + List.length (filter (fun o => hourIn (mealHour rt o) 5 11) orders))%nat,
     (l + List.length (filter (fun o => hourIn (mealHour rt o) 11 16) orders))%nat,
     (d + List.length (filter (fun o => hourIn (mealHour rt o) 16 22) orders))%nat,
     s') /\
    (s + List.length (filter (unparsed rt) orders) <= s')%nat /\
    (List.length (filter (fun o => hourIn (mealHour rt o) 5 11) orders)
     + List.length (filter (fun o => hourIn (mealHour rt o) 11 16) orders)
     + List.length (filter (fun o => hourIn (mealHour rt o) 16 22) orders)
     + s' = s + List.length orders)%nat.
Proof.
  revert b l d s. induction orders as [|o os IH]; intros b l d s.
  - exists s. simpl. rewrite !Nat.add_0_r. repeat split; lia.
  - cbn [fold_left filter]. unfold mealStep at 2. fold (mealHour rt o).
    assert (Hu : unparsed rt o = true -> mealHour rt o = None).
    { unfold unparsed, mealHour, Date.getHours, Date.new.
      destruct (dateParse rt (date o)); [discriminate|reflexivity]. }
    destruct (hourIn (mealHour rt o) 5 11) eqn:E1.
    + rewrite (hourIn_disjoint _ 5 11 11 16 ltac:(lia) E1).
      rewrite (hourIn_disjoint _ 5 11 16 22 ltac:(lia) E1).
      destruct (IH (S b) l d s) as [s' [Hf [Hs Hsum]]]. exists s'.
      rewrite Hf. cbn [List.length].
      destruct (unparsed rt o) eqn:U;
        [rewrite (Hu eq_refl) in E1; discriminate|].
      split; [repeat (f_equal; try lia)|]. split; lia.
    + destruct (hourIn (mealHour rt o) 11 16) eqn:E2.
      * rewrite (hourIn_disjoint _ 11 16 16 22 ltac:(lia) E2).
        destruct (IH b (S l) d s) as [s' [Hf [Hs Hsum]]]. exists s'.
        rewrite Hf. cbn [List.length].
        destruct (unparsed rt o) eqn:U;
          [rewrite (Hu eq_refl) in E2; discriminate|].
        split; [repeat (f_equal; try lia)|]. split; lia.
      * destruct (hourIn (mealHour rt o) 16 22) eqn:E3.
        -- destruct (IH b l (S d) s) as [s' [Hf [Hs Hsum]]]. exists s'.
           rewrite Hf. cbn [List.length].
           destruct (unparsed rt o) eqn:U;
             [rewrite (Hu eq_refl) in E3; discriminate|].
           split; [repeat (f_equal; try lia)|]. split; lia.
        -- destruct (IH b l d (S s)) as [s' [Hf [Hs Hsum]]]. exists s'.
           rewrite Hf.
           split; [reflexivity|].
           destruct (unparsed rt o); cbn [List.length]; split; lia.
Qed.

Lemma bump_fold (kh ki kd : list string) (its : list string) (h i d : nat) :
  fold_left
    (fun acc item =>
       let '(h, i, d) := acc in
       (bump (matchesAny kh item) h, bump (matchesAny ki item) i,
        bump (matchesAny kd item) d))
    its (h, i, d)
  = ((h + List.length (filter (matchesAny kh) its))%nat,
     (i + List.length (filter (matchesAny ki) its))%nat,
     (d + List.length (filter (matchesAny kd) its))%nat).
Proof.
  revert h i d. induction its as [|x r IH]; intros h i d; simpl.
  - rewrite !Nat.add_0_r. reflexivity.
  - rewrite IH. unfold bump.
    destruct (matchesAny kh x), (matchesAny ki x), (matchesAny kd x);
      simpl; repeat (f_equal; try lia).
Qed.

(** X11.  [analyzeHealthDietary]: breakfast, lunch and dinner count the
    orders whose local hour is in [5, 11), [11, 16) and [16, 22), snack
    counts all the others, so the four add up to the number of orders;
    an order whose date does not parse is a snack; the healthy and the
    indulgent percentage are numbers between 0 and 100, the code's own
    share of the item names, in lower case, that contain a healthy or
    an indulgent keyword (the product with the number of names is 100
    times the number of those names), and both are 0 when no order has
    an item; and [category_health_scores] is always empty. *)
Theorem analyzeHealthDietary_meals_and_shares
  (rt : Runtime) (orders : list Order) (patterns : PatternAnalytics) :
  let h := analyzeHealthDietary rt orders patterns in
  let names :=
    flat_map (fun o => map (fun i => Str.toLowerCase (name i)) (items o))
             orders in
  (exists s : nat,
      meal_type_distribution h =
        {| breakfast := JS.ofNat (ordersAtHours rt orders 5 11);
           lunch := JS.ofNat (ordersAtHours rt orders 11 16);
           dinner := JS.ofNat (ordersAtHours rt orders 16 22);
           snack := JS.ofNat s |} /\
      (ordersAtHours rt orders 5 11 + ordersAtHours rt orders 11 16 + ordersAtHours rt orders 16 22 + s = List.length orders)%nat /\
      (List.length (filter (unparsed rt) orders) <= s)%nat) /\
  (exists hp ip,
      healthy_food_percentage h = JS.Fin hp /\ 0 <= hp /\ hp <= 100 /\
      indulgent_food_percentage h = JS.Fin ip /\ 0 <= ip /\ ip <= 100 /\
      hp * inject_Z (Z.of_nat (List.length names))
      == inject_Z (Z.of_nat (mentioning
                               ["salad"; "soup"; "veg"; "fruit"; "grilled"]
                               names)) * 100 /\
      ip * inject_Z (Z.of_nat (List.length names))
      == inject_Z (Z.of_nat (mentioning
                               ["burger"; "pizza"; "fries"; "cake";
                                "ice cream"; "fried"]
                               names)) * 100) /\
  ((forall o, In o orders -> items o = []) ->
   healthy_food_percentage h = JS.Fin 0 /\
   indulgent_food_percentage h = JS.Fin 0) /\
  category_health_scores h = [].
Proof.
  intros h names.
  assert (Hnone : (forall o, In o orders -> items o = []) ->
                  Arr.flatMap
                    (fun o => map (fun i => Str.toLowerCase (name i)) (items o))
                    orders = []).
  { intro H. unfold Arr.flatMap. clear h names.
    induction orders as [|o r IH]; [reflexivity|].
    cbn [flat_map]. rewrite (H o) by (left; reflexivity).
    apply IH. intros o' Ho'. apply H. right. exact Ho'. }
  unfold h, ordersAtHours, analyzeHealthDietary.
  rewrite (bump_fold healthyKeywords indulgentKeywords dietDrinkKeywords).
  destruct (mealStep_fold rt orders 0 0 0 0) as [s [Hf [Hs Hsum]]].
  rewrite Hf. cbn [meal_type_distribution healthy_food_percentage
                     indulgent_food_percentage category_health_scores].
  unfold Arr.flatMap in *. fold names in Hnone |- *.
  split; [|split; [|split; [|reflexivity]]].
  3:{ intro H. rewrite (Hnone H). split; reflexivity. }
  - exists s. split; [reflexivity|]. split; [exact Hsum|exact Hs].
  - destruct (0 <? List.length names)%nat eqn:E.
    + apply Nat.ltb_lt in E.
      destruct (percentage_bounds
                  (List.length (filter (matchesAny healthyKeywords) names))
                  (List.length names) (filter_length_le _ _) ltac:(lia))
        as [hp [Hhp [H0 [H100 Hh]]]].
      destruct (percentage_bounds
                  (List.length (filter (matchesAny indulgentKeywords) names))
                  (List.length names) (filter_length_le _ _) ltac:(lia))
        as [ip [Hip [I0 [I100 Hi]]]].
      exists hp, ip. simpl Nat.add. rewrite Hhp, Hip.
      split; [reflexivity|]. split; [exact H0|]. split; [exact H100|].
      split; [reflexivity|]. split; [exact I0|]. split; [exact I100|].
      split; [exact Hh|exact Hi].
    + apply Nat.ltb_ge in E.
      assert (Hn : names = []) by (destruct names; [reflexivity|simpl in E; lia]).
      rewrite Hn. exists 0, 0.
      split; [reflexivity|]. split; [discriminate|]. split; [discriminate|].
      split; [reflexivity|]. split; [discriminate|]. split; [discriminate|].
      split; reflexivity.
Qed.

(** *** Math.min and Math.max over finite numbers *)

Lemma fold_min_Fin (l : list Q) (a : Q) :
  exists m, fold_left JS.min (map JS.Fin l) (JS.Fin a) = JS.Fin m /\
            In m (a :: l) /\ forall y, In y (a :: l) -> m <= y.
Proof.
  revert a. induction l as [|x r IH]; intro a; cbn [map fold_left].
  - exists a. split; [reflexivity|]. split; [left; reflexivity|].
    intros y [<-|[]]. apply Qle_refl.
  - unfold JS.min at 2. unfold JS.lt.
    destruct (JS.Qltb x a) eqn:E.
    + apply Qltb_true in E.
      destruct (IH x) as [m [Hm [Hin Hle]]]. exists m.
      split; [exact Hm|]. split; [right; exact Hin|].
      intros y [<-|Hy]; [|apply Hle; exact Hy].
      apply (Qle_trans _ x); [apply Hle; left; reflexivity|].
      apply Qlt_le_weak. exact E.
    + apply Qltb_false in E.
      destruct (IH a) as [m [Hm [Hin Hle]]]. exists m.
      split; [exact Hm|]. split.
      * destruct Hin as [<-|Hin]; [left; reflexivity|right; right; exact Hin].
      * intros y [<-|[<-|Hy]].
        -- apply Hle; left; reflexivity.
        -- apply (Qle_trans _ a); [apply Hle; left; reflexivity|exact E].
        -- apply Hle; right; exact Hy.
Qed.

Lemma fold_max_Fin (l : list Q) (a : Q) :
  exists m, fold_left JS.max (map JS.Fin l) (JS.Fin a) = JS.Fin m /\
            In m (a :: l) /\ forall y, In y (a :: l) -> y <= m.
Proof.
  revert a. induction l as [|x r IH]; intro a; cbn [map fold_left].
  - exists a. split; [reflexivity|]. split; [left; reflexivity|].
    intros y [<-|[]]. apply Qle_refl.
  - unfold JS.max at 2. unfold JS.lt.
    destruct (JS.Qltb a x) eqn:E.
    + apply Qltb_true in E.
      destruct (IH x) as [m [Hm [Hin Hle]]]. exists m.
      split; [exact Hm|]. split; [right; exact Hin|].
      intros y [<-|Hy]; [|apply Hle; exact Hy].
      apply (Qle_trans _ x); [|apply Hle; left; reflexivity].
      apply Qlt_le_weak. exact E.
    + apply Qltb_false in E.
      destruct (IH a) as [m [Hm [Hin Hle]]]. exists m.
      split; [exact Hm|]. split.
      * destruct Hin as [<-|Hin]; [left; reflexivity|right; right; exact Hin].
      * intros y [<-|[<-|Hy]].
        -- apply Hle; left; reflexivity.
        -- apply (Qle_trans _ a); [exact E|apply Hle; left; reflexivity].
        -- apply Hle; right; exact Hy.
Qed.

Lemma minOf_Fin (l : list Q) :
  l <> [] ->
  exists m, JS.minOf (map JS.Fin l) = JS.Fin m /\
            In m l /\ forall y, In y l -> m <= y.
Proof.
  destruct l as [|x r]; [congruence|]. intros _. apply (fold_min_Fin r x).
Qed.

Lemma maxOf_Fin (l : list Q) :
  l <> [] ->
  exists m, JS.maxOf (map JS.Fin l) = JS.Fin m /\
            In m l /\ forall y, In y l -> y <= m.
Proof.
  destruct l as [|x r]; [congruence|]. intros _. apply (fold_max_Fin r x).
Qed.

(** ** analyzeCostOptimization *)



(** *** Conditional writes into an object *)

Lemma fold_set_if {E V : Type} (key : E -> string) (val : E -> V)
      (p : E -> bool) (es : list E) (acc : obj V) :
  NoDup (map fst acc ++ map key es) ->
  fold_left (fun acc e => if p e then set (key e) (val e) acc else acc) es acc
  = (acc ++ map (fun e => (key e, val e)) (filter p es))%list.
Proof.
  revert acc. induction es as [|e r IH]; intros acc Hnd; simpl.
  - rewrite app_nil_r. reflexivity.
  - simpl in Hnd. destruct (p e).
    + rewrite set_absent.
      * rewrite IH.
        -- simpl. rewrite <- app_assoc. reflexivity.
        -- rewrite map_app, <- app_assoc. exact Hnd.
      * apply NoDup_remove_2 in Hnd. intro H. apply Hnd.
        apply in_or_app. left. exact H.
    + apply IH. apply NoDup_remove_1 in Hnd. exact Hnd.
Qed.



(** ** analyzeFood *)




(** ** constants.ts: payment methods *)

(** *** Substrings *)





(** *** Character maps *)






(** *** Facts about single characters, checked on all 256 of them *)













(** *** The fallback *)










(** *** mapPaymentMethod *)




(** ** analyzeDiversity *)

Lemma set_mapValues {V W : Type} (f : V -> W) (k : string) (v : V) (o : obj V) :
  set k (f v) (mapValues f o) = mapValues f (set k v o).
Proof.
  induction o as [|[k' v'] r IH]; simpl; [reflexivity|].
  destruct (String.eqb k k'); simpl; [reflexivity|].
  f_equal. exact IH.
Qed.


Lemma orZero_Fin (x : option Q) :
  exists q, orZero (option_map JS.Fin x) = JS.Fin q /\
            q == match x with Some old => old | None => 0 end.
Proof.
  destruct x as [old|]; simpl.
  - destruct (Qeq_bool old 0) eqn:E.
    + exists 0. split; [reflexivity|]. apply Qeq_bool_iff in E.
      symmetry. exact E.
    + exists old. split; reflexivity.
  - exists 0. split; reflexivity.
Qed.






(** ** The chronological view of [analyze] *)

Lemma byNumber_orderTime_total (rt : Runtime) (a b : Order) :
  Arr.byNumber (orderTime rt) a b = true \/
  Arr.byNumber (orderTime rt) b a = true.
Proof.
  unfold Arr.byNumber, orderTime, Date.getTime, Date.new, JS.ofInt.
  destruct (dateParse rt (date a)) as [ta|], (dateParse rt (date b)) as [tb|];
    try (left; reflexivity).
  change (Arr.byNumber (fun v => v) (JS.ofZ ta) (JS.ofZ tb) = true \/
          Arr.byNumber (fun v => v) (JS.ofZ tb) (JS.ofZ ta) = true).
  unfold JS.ofZ. rewrite !byNumber_Fin. apply Qle_bool_total.
Qed.

Lemma byNumber_orderTime_valid (rt : Runtime) (a b : Order) :
  dateParses rt a -> dateParses rt b ->
  Arr.byNumber (orderTime rt) a b = true -> (timeOf rt a <= timeOf rt b)%Z.
Proof.
  intros Ha Hb.
  change (Arr.byNumber (orderTime rt) a b)
    with (Arr.byNumber (fun v => v) (orderTime rt a) (orderTime rt b)).
  rewrite (orderTime_valid rt a Ha), (orderTime_valid rt b Hb).
  unfold JS.ofZ. rewrite byNumber_Fin, Qle_bool_iff, <- Zle_Qle. tauto.
Qed.

Lemma sorted_by_time (rt : Runtime) (l : list Order) :
  Forall (dateParses rt) l ->
  StronglySorted (fun a b => (timeOf rt a <= timeOf rt b)%Z)
                 (Arr.sort (Arr.byNumber (orderTime rt)) l).
Proof.
  intro Hv. apply Sorted_StronglySorted; [intros a b c; lia|].
  pose proof (sorted_valid rt l Hv) as Hsv.
  pose proof (sort_sorted (Arr.byNumber (orderTime rt))
                          (byNumber_orderTime_total rt) l) as Hs.
  induction Hs as [|y r Hs' IH Hd]; constructor.
  - apply IH. inversion Hsv; assumption.
  - inversion Hsv as [|? ? Hy Hr]; subst.
    destruct Hd as [|z r' Hz]; constructor.
    inversion Hr as [|? ? Hzv _]; subst.
    apply byNumber_orderTime_valid; assumption.
Qed.

Lemma last_In {A : Type} (l : list A) (a : A) : In (last l a) (a :: l).
Proof.
  revert a. induction l as [|b r IH]; intro a; [left; reflexivity|].
  rewrite last_cons_cons. right. apply IH.
Qed.

Lemma StronglySorted_last {A : Type} (R : A -> A -> Prop) (a : A) (l : list A) :
  (forall x, R x x) ->
  StronglySorted R (a :: l) ->
  forall x, In x (a :: l) -> R x (last l a).
Proof.
  intro Hrefl. revert a. induction l as [|b r IH]; intros a Hs x Hx.
  - destruct Hx as [<-|[]]. apply Hrefl.
  - inversion Hs as [|? ? Hs' Hall]; subst.
    rewrite last_cons_cons.
    destruct Hx as [<-|Hx].
    + rewrite Forall_forall in Hall. apply Hall. apply last_In.
    + apply (IH b Hs' x Hx).
Qed.

Lemma analyze_normal_dates (rt : Runtime) (orders : list Order)
      (x : FullAnalytics) :
  analyze rt orders = Normal x ->
  Forall (dateParses rt) (filter isDelivered orders).
Proof.
  intro Hx.
  destruct (invalid_or_all_valid rt (filter isDelivered orders)) as [H|H];
    [exact H|].
  rewrite (analyze_throws_on_invalid rt orders H) in Hx. discriminate.
Qed.

(** X16.  In a result of [analyze] with at least two surviving orders,
    [average_days_between_orders] is the code's own mean of the gaps
    between the surviving orders taken in the order of their dates (its
    product with the number of gaps is their sum), in whatever order
    the input lists them; it is not negative and not more than the time
    in days between the earliest and the latest surviving order.  The
    surviving orders are those whose status contains neither [cancel]
    nor [fail]. *)
Theorem analyze_average_gap_within_span (rt : Runtime) (orders : list Order)
        (x : FullAnalytics) :
  analyze rt orders = Normal x ->
  (2 <= List.length (filter isDelivered orders))%nat ->
  exists (sorted : list Order) (earliest latest : Order) (avg : Q),
    Permutation sorted (filter isDelivered orders) /\
    (forall o, In o sorted <-> In o orders /\ survives o) /\
    StronglySorted (fun a b => (timeOf rt a <= timeOf rt b)%Z) sorted /\
    In earliest (filter isDelivered orders) /\
    In latest (filter isDelivered orders) /\
    (forall o, In o (filter isDelivered orders) ->
               (timeOf rt earliest <= timeOf rt o <= timeOf rt latest)%Z) /\
    average_days_between_orders (timeAnalysis x) = JS.Fin avg /\
    avg * inject_Z (Z.of_nat (List.length (filter isDelivered orders) - 1))
    == sumQ (gaps rt sorted) /\
    0 <= avg /\
    avg <= inject_Z (timeOf rt latest - timeOf rt earliest)
           / inject_Z Date.msPerDay.
Proof.
  intros Hx Hlen.
  pose proof (analyze_normal_dates rt orders x Hx) as Hv.
  assert (Hne : filter isDelivered orders <> [])
    by (intro E; rewrite E in Hlen; simpl in Hlen; lia).
  destruct (analyze_facets rt orders x Hne Hx)
    as [_ [_ [_ [_ [_ [_ [Ht _]]]]]]].
  pose proof (sorted_by_time rt _ Hv) as Hs.
  pose proof (sorted_valid rt _ Hv) as Hsv.
  pose proof (sort_length (Arr.byNumber (orderTime rt))
                          (filter isDelivered orders)) as Hl.
  pose proof (sort_perm (Arr.byNumber (orderTime rt))
                        (filter isDelivered orders)) as Hperm.
  assert (Hin : forall o, In o (Arr.sort (Arr.byNumber (orderTime rt))
                                         (filter isDelivered orders))
                          <-> In o (filter isDelivered orders))
    by (intro o; apply sort_In).
  destruct (Arr.sort (Arr.byNumber (orderTime rt)) (filter isDelivered orders))
    as [|first rest]; [simpl in Hl; lia|].
  destruct (analyzeTimePatterns_average rt first rest Hsv)
    as [t [avg [Ht' [Ha Hq]]]].
  rewrite Ht in Ht'. injection Ht' as <-.
  simpl in Hl.
  assert (Hrest : List.length rest
                  = (List.length (filter isDelivered orders) - 1)%nat) by lia.
  assert (Hspan : (timeOf rt first <= timeOf rt (last rest first))%Z).
  { apply (StronglySorted_last
             (fun a b => (timeOf rt a <= timeOf rt b)%Z) first rest
             (fun o => Z.le_refl _) Hs).
    left. reflexivity. }
  exists (first :: rest), first, (last rest first), avg.
  split; [apply Permutation_sym; exact Hperm|].
  split.
  { intro o. rewrite Hin, filter_In. unfold isDelivered, survives.
    rewrite andb_true_iff, !negb_true_iff. reflexivity. }
  split; [exact Hs|].
  split; [apply Hin; left; reflexivity|].
  split; [apply Hin; apply last_In|].
  split.
  { intros o Ho. apply Hin in Ho. split.
    - destruct Ho as [<-|Ho]; [lia|].
      inversion Hs as [|? ? _ Hall]; subst.
      rewrite Forall_forall in Hall. apply Hall. exact Ho.
    - exact (StronglySorted_last
               (fun a b => (timeOf rt a <= timeOf rt b)%Z) first rest
               (fun o => Z.le_refl _) Hs o Ho). }
  split; [exact Ha|].
  split; [rewrite <- Hrest; exact Hq|].
  assert (Hpos : 0 < inject_Z (Z.of_nat (List.length rest))).
  { apply inject_nat_pos. lia. }
  assert (Hq' : avg * inject_Z (Z.of_nat (List.length rest))
                == inject_Z (timeOf rt (last rest first) - timeOf rt first)
                   / inject_Z Date.msPerDay).
  { rewrite Hq, gaps_telescope. unfold Z.sub.
    rewrite inject_Z_plus, inject_Z_opp. reflexivity. }
  assert (Hspan0 : 0 <= inject_Z (timeOf rt (last rest first) - timeOf rt first)
                        / inject_Z Date.msPerDay).
  { apply Qmult_le_0_compat.
    - replace 0 with (inject_Z 0) by reflexivity. rewrite <- Zle_Qle. lia.
    - discriminate. }
  assert (H0 : 0 <= avg).
  { apply (Qmult_le_r _ _ _ Hpos). rewrite Qmult_0_l, Hq'. exact Hspan0. }
  split; [exact H0|].
  rewrite <- Hq'.
  apply (Qle_trans _ (1 * avg)); [rewrite Qmult_1_l; apply Qle_refl|].
  rewrite (Qmult_comm avg). apply Qmult_le_compat_r; [|exact H0].
  replace 1 with (inject_Z 1) by reflexivity. rewrite <- Zle_Qle. lia.
Qed.

Lemma analyze_average_gap_witness :
  exists x (earliest latest : Order) (avg : Q),
    analyze Iso.utc [Sample.tuesday; Sample.friday] = Normal x /\
    In earliest [Sample.tuesday; Sample.friday] /\
    In latest [Sample.tuesday; Sample.friday] /\
    average_days_between_orders (timeAnalysis x) = JS.Fin avg /\
    0 <= avg /\
    avg <= inject_Z (timeOf Iso.utc latest - timeOf Iso.utc earliest)
           / inject_Z Date.msPerDay.
Proof.
  assert (Hv : Forall (dateParses Iso.utc)
                      (filter isDelivered [Sample.tuesday; Sample.friday]))
    by (repeat constructor; unfold dateParses; vm_compute; discriminate).
  destruct (analyze_normal_when_valid Iso.utc [Sample.tuesday; Sample.friday]
              Hv) as [x Hx].
  destruct (analyze_average_gap_within_span
              Iso.utc [Sample.tuesday; Sample.friday] x Hx (le_n 2))
    as [s [e [l [avg [_ [_ [_ [He [Hl [_ [Ha [_ [H0 Hq]]]]]]]]]]]]].
  exists x, e, l, avg. repeat split; assumption.
Defined.

(** ** calculateMedian splits the values in two halves *)

Lemma filter_all_length {A : Type} (p : A -> bool) (l : list A) :
  (forall x, In x l -> p x = true) -> List.length (filter p l) = List.length l.
Proof.
  induction l as [|x r IH]; intro H; simpl; [reflexivity|].
  rewrite (H x) by (left; reflexivity). simpl. f_equal. apply IH.
  intros y Hy. apply H. right. exact Hy.
Qed.

Lemma filter_app_length {A : Type} (p : A -> bool) (a b : list A) :
  List.length (filter p (a ++ b))
  = (List.length (filter p a) + List.length (filter p b))%nat.
Proof. rewrite filter_app, length_app. reflexivity. Qed.

Lemma StronglySorted_nth_le (s : list Q) (i j : nat) :
  StronglySorted Qle s -> (i <= j)%nat -> (j < List.length s)%nat ->
  nth i s 0 <= nth j s 0.
Proof.
  intro Hs. revert i j. induction Hs as [|a r Hs IH Hall]; intros i j Hij Hj.
  - simpl in Hj. lia.
  - destruct i as [|i], j as [|j]; simpl in *; try lia.
    + apply Qle_refl.
    + rewrite Forall_forall in Hall. apply Hall. apply nth_In. lia.
    + apply IH; lia.
Qed.

Lemma sorted_prefix_le (s : list Q) (k : nat) (m : Q) :
  StronglySorted Qle s -> (k < List.length s)%nat -> nth k s 0 <= m ->
  (S k <= List.length (filter (fun q => Qle_bool q m) s))%nat.
Proof.
  intros Hs Hk Hm.
  rewrite <- (firstn_skipn (S k) s), filter_app_length.
  rewrite filter_all_length.
  - rewrite length_firstn. lia.
  - intros x Hx. apply Qle_bool_iff.
    apply (In_nth _ _ 0) in Hx. destruct Hx as [i [Hi <-]].
    rewrite length_firstn in Hi.
    rewrite nth_firstn.
    assert (E : (i <? S k)%nat = true) by (apply Nat.ltb_lt; lia).
    rewrite E.
    apply (Qle_trans _ (nth k s 0)); [|exact Hm].
    apply StronglySorted_nth_le; [exact Hs|lia|exact Hk].
Qed.

Lemma sorted_suffix_ge (s : list Q) (k : nat) (m : Q) :
  StronglySorted Qle s -> (k < List.length s)%nat -> m <= nth k s 0 ->
  (List.length s - k <= List.length (filter (fun q => Qle_bool m q) s))%nat.
Proof.
  intros Hs Hk Hm.
  rewrite <- (firstn_skipn k s) at 2. rewrite filter_app_length.
  rewrite (filter_all_length _ (skipn k s)).
  - rewrite length_skipn. lia.
  - intros x Hx. apply Qle_bool_iff.
    apply (In_nth _ _ 0) in Hx. destruct Hx as [i [Hi <-]].
    rewrite length_skipn in Hi. rewrite nth_skipn.
    apply (Qle_trans _ (nth k s 0)); [exact Hm|].
    apply StronglySorted_nth_le; [exact Hs|lia|lia].
Qed.

Lemma sort_Qle_sorted (l : list Q) : StronglySorted Qle (Arr.sort Qle_bool l).
Proof.
  apply Sorted_StronglySorted; [intros a b c; apply Qle_trans|].
  apply Sorted_Qle_bool. apply sort_sorted. apply Qle_bool_total.
Qed.

(** X17.  [calculateMedian] of finite values returns a finite number m
    such that at least half of the values are at most m and at least
    half are at least m; for a non-empty list m lies between two of the
    values. *)
Theorem calculateMedian_splits_in_halves (l : list Q) :
  exists m,
    calculateMedian (map JS.Fin l) = JS.Fin m /\
    (List.length l <= 2 * List.length (filter (fun q => Qle_bool q m) l))%nat /\
    (List.length l <= 2 * List.length (filter (fun q => Qle_bool m q) l))%nat /\
    (l <> [] -> exists lo hi, In lo l /\ In hi l /\ lo <= m /\ m <= hi).
Proof.
  destruct l as [|x0 l0]; [exists 0; simpl; repeat split; try lia; congruence|].
  set (l := x0 :: l0).
  set (s := Arr.sort Qle_bool l).
  pose proof (sort_Qle_sorted l) as Hs. fold s in Hs.
  pose proof (sort_perm Qle_bool l) as Hp. fold s in Hp.
  pose proof (sort_length Qle_bool l) as Hl. fold s in Hl.
  assert (Hlen : (0 < List.length l)%nat) by (simpl; lia).
  assert (Hmid : (List.length l / 2 < List.length l)%nat)
    by (apply Nat.div_lt; lia).
  assert (Hcount : forall p, List.length (filter p l)
                             = List.length (filter p s))
    by (intro p; apply filter_length_perm; exact Hp).
  assert (Hmem : forall i, (i < List.length l)%nat -> In (nth i s 0) l).
  { intros i Hi. apply (Permutation_in _ (Permutation_sym Hp)).
    apply nth_In. lia. }
  unfold calculateMedian. rewrite length_map.
  change (List.length l =? 0)%nat with false. cbv iota zeta.
  rewrite sort_map_Fin, length_map. fold s. rewrite Hl.
  pose proof (Nat.div_mod_eq (List.length l) 2) as Hdm.
  pose proof (Nat.mod_upper_bound (List.length l) 2 ltac:(lia)) as Hmb.
  destruct (List.length l mod 2 =? 0)%nat eqn:Ev; cbn [negb].
  - apply Nat.eqb_eq in Ev.
    assert (Hm1 : (List.length l / 2 - 1 < List.length l)%nat) by lia.
    assert (Hge1 : (1 <= List.length l / 2)%nat) by lia.
    rewrite !numAt_map_Fin by lia.
    set (a := nth (List.length l / 2 - 1) s 0).
    set (b := nth (List.length l / 2) s 0).
    assert (Hab : a <= b)
      by (apply StronglySorted_nth_le; [exact Hs|lia|lia]).
    exists ((a + b) / 2).
    assert (Ha : a <= (a + b) / 2).
    { apply (Qmult_le_r _ _ 2); [reflexivity|].
      assert (E : (a + b) / 2 * 2 == a + b) by (field).
      rewrite E. apply (Qle_trans _ (a + a)); [ring_simplify; apply Qle_refl|].
      apply Qplus_le_r. exact Hab. }
    assert (Hb : (a + b) / 2 <= b).
    { apply (Qmult_le_r _ _ 2); [reflexivity|].
      assert (E : (a + b) / 2 * 2 == a + b) by (field).
      rewrite E. apply (Qle_trans _ (b + b)); [|ring_simplify; apply Qle_refl].
      apply Qplus_le_l. exact Hab. }
    split; [reflexivity|]. rewrite !Hcount. split; [|split].
    + pose proof (sorted_prefix_le s (List.length l / 2 - 1) _ Hs
                    ltac:(lia) Ha). lia.
    + pose proof (sorted_suffix_ge s (List.length l / 2) _ Hs
                    ltac:(lia) Hb). lia.
    + intros _. exists a, b. repeat split; try assumption; apply Hmem; lia.
  - apply Nat.eqb_neq in Ev.
    rewrite numAt_map_Fin by lia.
    set (m := nth (List.length l / 2) s 0).
    exists m. split; [reflexivity|]. rewrite !Hcount. split; [|split].
    + pose proof (sorted_prefix_le s (List.length l / 2) m Hs
                    ltac:(lia) (Qle_refl m)). lia.
    + pose proof (sorted_suffix_ge s (List.length l / 2) m Hs
                    ltac:(lia) (Qle_refl m)). lia.
    + intros _. exists m, m.
      repeat split; try apply Qle_refl; apply Hmem; lia.
Qed.

(** ** analyzePrices *)

Lemma totalCost_sumQ (its : list OrderItem) :
  totalCost its == sumQ (map (fun i => price i * quantity i) its).
Proof.
  unfold totalCost.
  assert (H : forall a,
             fold_left (fun sum item => sum + price item * quantity item) its a
             == a + sumQ (map (fun i => price i * quantity i) its)).
  { induction its as [|i r IH]; intro a; simpl; [ring|]. rewrite IH. ring. }
  rewrite H. ring.
Qed.

Lemma pricePerItem_finite (its : list OrderItem) :
  exists avg, pricePerItem its = JS.Fin avg /\
              (0 < totalQuantity its -> avg * totalQuantity its == totalCost its) /\
              (totalQuantity its <= 0 -> avg = 0).
Proof.
  unfold pricePerItem. destruct (JS.Qltb 0 (totalQuantity its)) eqn:E.
  - apply Qltb_true in E. unfold JS.div.
    destruct (Qeq_bool (totalQuantity its) 0) eqn:Z.
    + apply Qeq_bool_iff in Z. rewrite Z in E. exfalso. exact (Qlt_irrefl 0 E).
    + eexists. split; [reflexivity|]. split.
      * intros _. field. intro H. rewrite H in E. exact (Qlt_irrefl 0 E).
      * intro H. exfalso. exact (Qlt_not_le _ _ E H).
  - apply Qltb_false in E. exists 0. split; [reflexivity|]. split.
    + intro H. exfalso. exact (Qlt_not_le _ _ H E).
    + reflexivity.
Qed.

Lemma get_filter_key {V : Type} (p : string -> bool) (k : string) (o : obj V) :
  get k (filter (fun e => p (fst e)) o) = if p k then get k o else None.
Proof.
  induction o as [|[k' v] r IH]; cbn [filter get fst];
    [destruct (p k); reflexivity|].
  destruct (String.eqb k k') eqn:E.
  - apply String.eqb_eq in E. subst k'.
    destruct (p k); cbn [get]; [rewrite String.eqb_refl; reflexivity|].
    exact IH.
  - destruct (p k'); cbn [get]; [rewrite E|]; exact IH.
Qed.

(** The value scores: one entry per restaurant name of an order, none
    for the name [__proto__]. *)
Lemma restaurant_value_scores_lookup (rt : Runtime) (orders : list Order)
      (k : string) :
  get k (restaurant_value_scores (analyzePrices rt orders))
  = if String.eqb k "__proto__" then None
    else option_map (Lodash.meanBy totalValue)
                    (group_of restaurant_name orders k).
Proof.
  unfold analyzePrices. cbn [restaurant_value_scores].
  destruct (groupBy_groups restaurant_name orders) as [Hnd Hget].
  set (g := Lodash.groupBy restaurant_name orders) in *.
  set (p := fun e : string * list Order =>
              negb (String.eqb (fst e) "__proto__")).
  assert (Hstep : forall es acc,
             fold_left
               (fun (acc : obj JS.num) (e : string * list Order) =>
                  assign (fst e) (Lodash.meanBy totalValue (snd e)) acc)
               es acc
             = fold_left
                 (fun (acc : obj JS.num) (e : string * list Order) =>
                    if p e
                    then set (fst e) (Lodash.meanBy totalValue (snd e)) acc
                    else acc)
                 es acc).
  { induction es as [|e r IH]; intro acc; [reflexivity|].
    cbn [fold_left]. rewrite IH. unfold assign, p.
    destruct (String.eqb (fst e) "__proto__"); reflexivity. }
  rewrite Hstep.
  rewrite (fold_set_if fst (fun e => Lodash.meanBy totalValue (snd e)) p
                       (entries g) []).
  2:{ simpl. eapply Permutation_NoDup;
        [apply Permutation_map; apply entries_perm|exact Hnd]. }
  cbn [app].
  change (map (fun e : string * list Order =>
                 (fst e, Lodash.meanBy totalValue (snd e)))
              (filter p (entries g)))
    with (mapValues (Lodash.meanBy totalValue) (filter p (entries g))).
  rewrite get_mapValues.
  change p with (fun e : string * list Order =>
                   (fun k => negb (String.eqb k "__proto__")) (fst e)).
  rewrite get_filter_key.
  destruct (String.eqb k "__proto__"); [reflexivity|]. cbn [negb].
  rewrite (get_perm k g (entries g) Hnd (entries_perm g)), Hget.
  reflexivity.
Qed.

(** X18.  [analyzePrices]: without any item the price range is 0 to 0
    and the average price 0; otherwise [price_range] holds the least and
    the greatest item price, both prices of an item, the average price
    per item is finite, and when every quantity is positive it is the
    code's own quotient, the cost of all items over their number: its
    product with the sum of the quantities is the sum of price times
    quantity.  [restaurant_value_scores] has an entry exactly for the
    restaurant names of the orders other than [__proto__], for which
    the assignment creates no key, and the entry is the code's own mean
    of [total_value] over the orders at that restaurant. *)
Theorem analyzePrices_range_and_average (rt : Runtime) (orders : list Order) :
  let its := flat_map items orders in
  let p := analyzePrices rt orders in
  (its = [] ->
   price_range p = {| pr_min := JS.Fin 0; pr_max := JS.Fin 0 |} /\
   average_price_per_item p = JS.Fin 0) /\
  (its <> [] ->
   exists lo hi avg,
     price_range p = {| pr_min := JS.Fin lo; pr_max := JS.Fin hi |} /\
     In lo (map price its) /\ In hi (map price its) /\
     (forall i, In i its -> lo <= price i /\ price i <= hi) /\
     average_price_per_item p = JS.Fin avg /\
     ((forall i, In i its -> 0 < quantity i) ->
      avg * sumQ (map quantity its)
      == sumQ (map (fun i => price i * quantity i) its))) /\
  get "__proto__" (restaurant_value_scores p) = None /\
  (forall k, k <> "__proto__" ->
     (get k (restaurant_value_scores p) = None
      <-> forall o, In o orders -> restaurant_name o <> k) /\
     (forall v, get k (restaurant_value_scores p) = Some v ->
        exists m, v = JS.Fin m /\
                  m * inject_Z (Z.of_nat (List.length (ordersAt orders k)))
                  == sumQ (map total_value (ordersAt orders k)))).
Proof.
  intros its p.
  split; [|split; [|split]].
  3:{ unfold p. rewrite restaurant_value_scores_lookup. reflexivity. }
  3:{ intros k Hk. unfold p. rewrite restaurant_value_scores_lookup.
      apply String.eqb_neq in Hk. rewrite Hk.
      unfold group_of. fold (ordersAt orders k).
      assert (Hmem : forall o, In o (ordersAt orders k)
                               <-> In o orders /\ restaurant_name o = k).
      { intro o. unfold ordersAt, inGroup. rewrite filter_In, String.eqb_eq.
        tauto. }
      destruct (ordersAt orders k) as [|o r] eqn:E.
      - split.
        + split; [|reflexivity]. intros _ o Ho Hn.
          apply (proj2 (Hmem o)). split; assumption.
        + intros v Hv. discriminate.
      - split.
        + split; [discriminate|]. intro H. exfalso.
          destruct (proj1 (Hmem o) (or_introl eq_refl)) as [Ho Hn].
          exact (H o Ho Hn).
        + intros v Hv. cbn [option_map] in Hv. injection Hv as <-.
          assert (Hne : map total_value (o :: r) <> []) by discriminate.
          destruct (mean_Fin _ Hne) as [m [Hm Hmq]].
          exists m. rewrite length_map in Hmq. split; [|exact Hmq].
          unfold Lodash.meanBy, totalValue.
          rewrite <- Hm, map_map. reflexivity. }
  all: unfold p, analyzePrices, Arr.flatMap; fold its;
    cbn [price_range average_price_per_item]; rewrite length_map.
  - intros ->. split; reflexivity.
  - intro Hne.
    assert (Hlen : (0 <? List.length its)%nat = true)
      by (apply Nat.ltb_lt; destruct its; [congruence|simpl; lia]).
    rewrite Hlen.
    assert (Hf : map price its <> [])
      by (intro H; apply map_eq_nil in H; exact (Hne H)).
    destruct (minOf_Fin _ Hf) as [lo [Hlo [Hlo_in Hlo_le]]].
    destruct (maxOf_Fin _ Hf) as [hi [Hhi [Hhi_in Hhi_le]]].
    destruct (pricePerItem_finite its) as [avg [Havg [Hpos _]]].
    exists lo, hi, avg.
    rewrite <- !(map_map price JS.Fin), Hlo, Hhi.
    split; [reflexivity|]. split; [exact Hlo_in|]. split; [exact Hhi_in|].
    split.
    { intros i Hi. split; [apply Hlo_le|apply Hhi_le]; apply in_map; exact Hi. }
    split; [exact Havg|].
    intro Hq.
    assert (Hq0 : forall i, In i its -> 0 <= quantity i)
      by (intros i Hi; apply Qlt_le_weak; apply Hq; exact Hi).
    assert (Htot : 0 < sumQ (map quantity its)).
    { destruct its as [|i r]; [congruence|]. simpl.
      apply (Qlt_le_trans _ (quantity i + 0)).
      - rewrite Qplus_0_r. apply Hq. left. reflexivity.
      - apply Qplus_le_r. apply sumQ_nonneg. apply Forall_forall.
        intros q Hin. apply in_map_iff in Hin. destruct Hin as [j [<- Hj]].
        apply Hq0. right. exact Hj. }
    assert (Htq : 0 < totalQuantity its)
      by (rewrite totalQuantity_sumQ; exact Htot).
    specialize (Hpos Htq).
    rewrite totalQuantity_sumQ, totalCost_sumQ in Hpos.
    exact Hpos.
Qed.

(** ** analyzeAdvancedMetrics *)

Lemma advanced_exploitation_explicit
  (rt : Runtime) (orders : list Order) (r : RestaurantAnalytics)
  (t : TimeAnalytics) (s : SpendingAnalytics) :
  orders <> [] ->
  let names := map restaurant_name orders in
  let occ := count_occ string_dec names in
  exists (a : AdvancedMetrics) (fav : string),
    analyzeAdvancedMetrics rt orders r t s = Normal a /\
    In fav names /\ (forall k, (occ k <= occ fav)%nat) /\
    exploitation_percentage (exploration_vs_exploitation a)
    = JS.mul (JS.div (JS.ofNat (occ fav)) (JS.ofNat (List.length orders)))
             num100 /\
    exploration_percentage (exploration_vs_exploitation a)
    = JS.sub num100
             (exploitation_percentage (exploration_vs_exploitation a)) /\
    In (churn_risk_score a) [JS.Fin 80; JS.Fin 50; JS.Fin 20] /\
    deal_dependency_ratio a = voucher_usage_rate s.
Proof.
  intros Hne names occ.
  destruct (analyzeAdvancedMetrics_normal rt orders r t s) as [a Ha].
  pose proof (countBy_counts_of restaurant_name orders) as Hc.
  fold names in Hc.
  set (counts := Lodash.countBy restaurant_name orders) in *.
  assert (Hvals : map JS.ofNat (values counts)
                  = map JS.Fin (map (fun c => inject_Z (Z.of_nat c))
                                    (values counts)))
    by (rewrite map_map; reflexivity).
  assert (Hnev : map (fun c => inject_Z (Z.of_nat c)) (values counts) <> []).
  { intro H. apply map_eq_nil in H. unfold values in H. apply map_eq_nil in H.
    destruct orders as [|o os]; [congruence|].
    assert (Ho : In (restaurant_name o) (map fst counts)).
    { apply (counts_of_keys names counts _ Hc). left. reflexivity. }
    apply In_fst in Ho. destruct Ho as [v Hv].
    apply (Permutation_in _ (entries_perm counts)) in Hv.
    rewrite H in Hv. exact Hv. }
  destruct (maxOf_Fin _ Hnev) as [m [Hm [Hm_in Hm_le]]].
  apply in_map_iff in Hm_in. destruct Hm_in as [c [<- Hc_in]].
  unfold values in Hc_in. apply in_map_iff in Hc_in.
  destruct Hc_in as [[fav c'] [Hc' Hfav]]. simpl in Hc'. subst c'.
  apply (Permutation_in _ (Permutation_sym (entries_perm counts))) in Hfav.
  pose proof (proj1 (proj2 Hc fav c) Hfav) as [Hcv Hpos].
  assert (Hfav_in : In fav names)
    by (apply (count_occ_In string_dec); rewrite <- Hcv; lia).
  assert (Hmax : forall k, (occ k <= occ fav)%nat).
  { intro k. destruct (in_dec string_dec k names) as [Hk|Hk].
    - assert (Hk' : In (k, occ k) counts).
      { apply (proj2 Hc). split; [reflexivity|].
        apply (count_occ_In string_dec). exact Hk. }
      apply (Permutation_in _ (entries_perm counts)) in Hk'.
      assert (Hq : inject_Z (Z.of_nat (occ k)) <= inject_Z (Z.of_nat c)).
      { apply Hm_le. apply in_map_iff. exists (occ k). split; [reflexivity|].
        unfold values. apply in_map_iff. exists (k, occ k).
        split; [reflexivity|exact Hk']. }
      rewrite <- Zle_Qle in Hq. unfold occ at 2. rewrite <- Hcv. lia.
    - apply (count_occ_not_In string_dec) in Hk. unfold occ. rewrite Hk. lia. }
  exists a, fav.
  split; [exact Ha|]. split; [exact Hfav_in|]. split; [exact Hmax|].
  unfold analyzeAdvancedMetrics in Ha.
  destruct (if (1 <? List.length orders)%nat then _ else _) as [td|];
    cbn [bind] in Ha; [|discriminate].
  injection Ha as <-.
  cbn [exploration_vs_exploitation exploitation_percentage
         exploration_percentage churn_risk_score deal_dependency_ratio].
  fold counts. rewrite Hvals, Hm. unfold occ. rewrite <- Hcv.
  split; [reflexivity|]. split; [reflexivity|]. split; [|reflexivity].
  destruct (JS.lt _ _); [simpl; tauto|].
  destruct (JS.lt _ _); simpl; tauto.
Qed.

(** X19.  For a non-empty list [analyzeAdvancedMetrics] returns;
    [exploitation_percentage] is the share of the orders, times 100, of
    a restaurant with the greatest number of orders, a number between 0
    and 100, and [exploration_percentage] is 100 minus it;
    [churn_risk_score] is 80, 50 or 20; and [deal_dependency_ratio] is
    the voucher usage rate of the spending facet. *)
Theorem analyzeAdvancedMetrics_exploitation
  (rt : Runtime) (orders : list Order) (r : RestaurantAnalytics)
  (t : TimeAnalytics) (s : SpendingAnalytics) :
  orders <> [] ->
  let names := map restaurant_name orders in
  let occ := count_occ string_dec names in
  exists (a : AdvancedMetrics) (fav : string) (e : Q),
    analyzeAdvancedMetrics rt orders r t s = Normal a /\
    In fav names /\ (forall k, (occ k <= occ fav)%nat) /\
    exploitation_percentage (exploration_vs_exploitation a) = JS.Fin e /\
    e * inject_Z (Z.of_nat (List.length orders))
    == 100 * inject_Z (Z.of_nat (occ fav)) /\
    0 <= e /\ e <= 100 /\
    exploration_percentage (exploration_vs_exploitation a)
    = JS.Fin (100 + - e) /\
    In (churn_risk_score a) [JS.Fin 80; JS.Fin 50; JS.Fin 20] /\
    deal_dependency_ratio a = voucher_usage_rate s.
Proof.
  intros Hne names occ.
  destruct (advanced_exploitation_explicit rt orders r t s Hne)
    as [a [fav [Ha [Hfav [Hmax [He [Hx [Hchurn Hdeal]]]]]]]].
  fold names in Hfav, Hmax, He. fold occ in Hmax, He.
  assert (Hn : List.length orders <> O)
    by (destruct orders; [congruence|discriminate]).
  assert (Hle : (occ fav <= List.length orders)%nat).
  { unfold occ, names.
    rewrite <- (length_map restaurant_name orders). apply count_occ_bound. }
  destruct (percentage_bounds (occ fav) (List.length orders) Hle Hn)
    as [e [Hpe [H0 [H100 Heq]]]].
  exists a, fav, e.
  split; [exact Ha|]. split; [exact Hfav|]. split; [exact Hmax|].
  rewrite Hx, He, Hpe.
  split; [reflexivity|]. split; [rewrite Heq; ring|].
  split; [exact H0|]. split; [exact H100|]. split; [reflexivity|].
  split; [exact Hchurn|exact Hdeal].
Qed.

Lemma analyzeAdvancedMetrics_exploitation_witness :
  exists (a : AdvancedMetrics) (fav : string) (e : Q),
    analyzeAdvancedMetrics Iso.utc [Sample.friday; Sample.tuesday]
      (restaurants getEmptyAnalytics) (timeAnalysis getEmptyAnalytics)
      (spending getEmptyAnalytics) = Normal a /\
    In fav ["A"; "B"] /\
    exploitation_percentage (exploration_vs_exploitation a) = JS.Fin e /\
    0 <= e /\ e <= 100.
Proof.
  destruct (analyzeAdvancedMetrics_exploitation
              Iso.utc [Sample.friday; Sample.tuesday]
              (restaurants getEmptyAnalytics) (timeAnalysis getEmptyAnalytics)
              (spending getEmptyAnalytics) ltac:(discriminate))
    as [a [fav [e [Ha [Hfav [_ [He [_ [H0 [H100 _]]]]]]]]]].
  exists a, fav, e. repeat split; assumption.
Defined.

(** ** analyzePatterns: the peak hour *)

Lemma hour_strings (h : Z) :
  (0 <= h < 24)%Z ->
  Str.parseInt (Str.ofZ h) = Some h /\ Str.arrayIndex (Str.ofZ h) = Some h.
Proof.
  intro Hh.
  assert (H : forallb (fun n =>
                         match Str.parseInt (Str.ofZ (Z.of_nat n)),
                               Str.arrayIndex (Str.ofZ (Z.of_nat n)) with
                         | Some a, Some b =>
                             (a =? Z.of_nat n)%Z && (b =? Z.of_nat n)%Z
                         | _, _ => false
                         end) (seq 0 24) = true)
    by (vm_compute; reflexivity).
  rewrite forallb_forall in H. specialize (H (Z.to_nat h)).
  rewrite Z2Nat.id in H by lia.
  assert (Hin : In (Z.to_nat h) (seq 0 24)) by (apply in_seq; lia).
  specialize (H Hin).
  destruct (Str.parseInt (Str.ofZ h)) as [a|]; [|discriminate].
  destruct (Str.arrayIndex (Str.ofZ h)) as [b|]; [|discriminate].
  apply andb_true_iff in H. destruct H as [Ha Hb].
  apply Z.eqb_eq in Ha, Hb. subst. split; reflexivity.
Qed.

Lemma hourOf_range (rt : Runtime) (o : Order) : (0 <= hourOf rt o < 24)%Z.
Proof.
  unfold hourOf, mealHour, Date.getHours, Date.new.
  destruct (dateParse rt (date o)); simpl; [|lia].
  unfold Date.HourFromTime. apply Z.mod_pos_bound. lia.
Qed.

Lemma hour_key_valid (rt : Runtime) (o : Order) :
  dateParses rt o -> Str.ofInt (mealHour rt o) = Str.ofZ (hourOf rt o).
Proof.
  unfold dateParses, hourOf, mealHour, Date.getHours, Date.new.
  destruct (dateParse rt (date o)); [reflexivity|congruence].
Qed.

Lemma count_occ_map_inj {A : Type} (decA : forall a b : A, {a = b} + {a <> b})
      (f : A -> string) (l : list A) (y : A) :
  (forall x, In x l -> f x = f y -> x = y) ->
  count_occ string_dec (map f l) (f y) = count_occ decA l y.
Proof.
  induction l as [|x r IH]; intro H; simpl; [reflexivity|].
  destruct (string_dec (f x) (f y)) as [E|E], (decA x y) as [E'|E'].
  - f_equal. apply IH. intros z Hz. apply H. right. exact Hz.
  - exfalso. apply E'. apply H; [left; reflexivity|exact E].
  - exfalso. apply E. rewrite E'. reflexivity.
  - apply IH. intros z Hz. apply H. right. exact Hz.
Qed.

(** *** The enumeration order of array-index keys *)

Lemma indexEntries_index {V : Type} (o : obj V) (n : Z) (e : string * V) :
  In (n, e) (indexEntries o) -> Str.arrayIndex (fst e) = Some n /\ In e o.
Proof.
  unfold indexEntries. rewrite in_flat_map. intros [e' [Hin H]].
  destruct (Str.arrayIndex (fst e')) as [m|] eqn:E; [|destruct H].
  destruct H as [H|[]]. injection H as <- <-. split; [exact E|exact Hin].
Qed.

Lemma nameEntries_none {V : Type} (o : obj V) :
  (forall k, In k (map fst o) -> Str.arrayIndex k <> None) ->
  nameEntries o = [].
Proof.
  intro H. unfold nameEntries. induction o as [|e r IH]; [reflexivity|].
  simpl. destruct (Str.arrayIndex (fst e)) eqn:E.
  - apply IH. intros k Hk. apply H. right. exact Hk.
  - exfalso. apply (H (fst e)); [left; reflexivity|exact E].
Qed.

Lemma keys_index_sorted {V : Type} (o : obj V) :
  (forall k, In k (map fst o) -> Str.arrayIndex k <> None) ->
  StronglySorted (fun a b => (indexOf a <= indexOf b)%Z) (keys o).
Proof.
  intro H. unfold keys, entries. rewrite (nameEntries_none o H), app_nil_r.
  assert (Ht : forall a b : Z * (string * V),
             (fst a <=? fst b)%Z = true \/ (fst b <=? fst a)%Z = true)
    by (intros a b; rewrite !Z.leb_le; lia).
  pose proof (sort_sorted _ Ht (indexEntries o)) as Hs.
  assert (Hin : forall x, In x (Arr.sort (fun a b => (fst a <=? fst b)%Z)
                                          (indexEntries o))
                          -> indexOf (fst (snd x)) = fst x).
  { intros [n e] Hx. apply sort_In in Hx. apply indexEntries_index in Hx.
    unfold indexOf. simpl. rewrite (proj1 Hx). reflexivity. }
  apply Sorted_StronglySorted; [intros a b c; lia|].
  induction Hs as [|x r Hs' IH Hd]; simpl; constructor.
  - apply IH. intros y Hy. apply Hin. right. exact Hy.
  - destruct Hd as [|y r' Hy]; simpl; constructor.
    rewrite (Hin x) by (left; reflexivity).
    rewrite (Hin y) by (right; left; reflexivity).
    apply Z.leb_le. exact Hy.
Qed.

(** X20.  For a non-empty list of orders with valid dates, [peak_hour]
    of [analyzePatterns] is a local hour, from 0 to 23, of one of the
    orders, with the greatest number of orders; among equally frequent
    hours it is the latest (every later hour has strictly fewer orders). *)
Theorem analyzePatterns_peak_hour (rt : Runtime) (orders : list Order) :
  orders <> [] ->
  Forall (dateParses rt) orders ->
  let hrs := map (hourOf rt) orders in
  let occ := count_occ Z.eq_dec hrs in
  exists h,
    peak_hour (analyzePatterns rt orders) = JS.ofZ h /\
    In h hrs /\ (0 <= h < 24)%Z /\
    (forall h', (occ h' <= occ h)%nat) /\
    (forall h', (h < h')%Z -> (occ h' < occ h)%nat).
Proof.
  intros Hne Hv hrs occ.
  set (ks := map (fun o => Str.ofZ (hourOf rt o)) orders).
  assert (Hks : map Str.ofInt
                    (map (fun o => Date.getHours rt (Date.new rt (date o)))
                         orders) = ks).
  { rewrite map_map. unfold ks. apply map_ext_in. intros o Ho.
    rewrite Forall_forall in Hv. apply (hour_key_valid rt o (Hv o Ho)). }
  assert (Hkne : ks <> [])
    by (intro E; apply map_eq_nil in E; exact (Hne E)).
  pose proof (reduceMax_mode ks "0" Hkne) as Hm. cbv zeta in Hm.
  destruct Hm as [Hr [Hmax [before [after [Hkeys Hafter]]]]].
  set (counts := Lodash.countBy (fun s => s) ks) in *.
  set (r := reduceMax counts "0") in *.
  assert (Hpeak : peak_hour (analyzePatterns rt orders)
                  = JS.ofInt (Str.parseInt r)).
  { unfold analyzePatterns. cbn [peak_hour].
    rewrite (countBy_map Str.ofInt), Hks. reflexivity. }
  unfold ks in Hr. apply in_map_iff in Hr. destruct Hr as [o [Hro Ho]].
  set (h := hourOf rt o) in *.
  pose proof (hourOf_range rt o) as Hh. fold h in Hh.
  assert (Hinj : forall y, (0 <= y < 24)%Z ->
                   count_occ string_dec ks (Str.ofZ y) = occ y).
  { intros y Hy. unfold ks, occ, hrs.
    rewrite <- (map_map (hourOf rt) Str.ofZ).
    apply count_occ_map_inj. intros x Hx E.
    apply in_map_iff in Hx. destruct Hx as [o' [<- _]].
    pose proof (hourOf_range rt o') as Hx.
    pose proof (proj1 (hour_strings _ Hx)) as P1.
    pose proof (proj1 (hour_strings _ Hy)) as P2.
    rewrite E in P1. congruence. }
  assert (Hout : forall y, ~ (0 <= y < 24)%Z -> occ y = O).
  { intros y Hy. apply (count_occ_not_In Z.eq_dec). intro Hin.
    apply in_map_iff in Hin. destruct Hin as [o' [<- _]].
    apply Hy. apply hourOf_range. }
  assert (Hoh : (0 < occ h)%nat).
  { apply (count_occ_In Z.eq_dec). apply in_map. exact Ho. }
  exists h. rewrite Hpeak, <- Hro, (proj1 (hour_strings h Hh)).
  split; [reflexivity|]. split; [apply in_map; exact Ho|]. split; [exact Hh|].
  split.
  - intro h'. destruct (Z_le_dec 0 h') as [H0|H0];
      [destruct (Z_lt_dec h' 24) as [H1|H1]|];
      try (rewrite (Hout h') by lia; lia).
    rewrite <- (Hinj h') by lia. rewrite <- (Hinj h Hh), Hro. apply Hmax.
  - intros h' Hlt. destruct (Z_lt_dec h' 24) as [H1|H1];
      [|rewrite (Hout h') by lia; exact Hoh].
    destruct (Nat.eq_dec (occ h') 0) as [Hz|Hnz]; [rewrite Hz; exact Hoh|].
    rewrite <- (Hinj h') by lia. rewrite <- (Hinj h Hh), Hro.
    apply Hafter.
    assert (Hk' : In (Str.ofZ h') (keys counts)).
    { apply keys_In.
      apply (counts_of_keys ks counts _ (countBy_counts ks)).
      apply (count_occ_In string_dec). rewrite (Hinj h') by lia. lia. }
    rewrite Hkeys in Hk'. apply in_app_or in Hk'.
    destruct Hk' as [Hb|[Heq|Ha]]; [|exfalso|exact Ha].
    + exfalso.
      assert (Hsorted : StronglySorted
                          (fun a b => (indexOf a <= indexOf b)%Z)
                          (keys counts)).
      { apply keys_index_sorted. intros k Hk.
        apply (counts_of_keys ks counts _ (countBy_counts ks)) in Hk.
        unfold ks in Hk. apply in_map_iff in Hk. destruct Hk as [o' [<- _]].
        rewrite (proj2 (hour_strings _ (hourOf_range rt o'))). discriminate. }
      rewrite Hkeys in Hsorted.
      pose proof (StronglySorted_app_le _ _ _ Hsorted (Str.ofZ h') r Hb
                    (or_introl eq_refl)) as Hle.
      unfold indexOf in Hle. rewrite <- Hro in Hle.
      rewrite (proj2 (hour_strings h Hh)) in Hle.
      rewrite (proj2 (hour_strings h' ltac:(lia))) in Hle. lia.
    + rewrite <- Hro in Heq.
      pose proof (proj1 (hour_strings h Hh)) as P1.
      pose proof (proj1 (hour_strings h' ltac:(lia))) as P2.
      rewrite Heq in P1. rewrite P1 in P2. injection P2 as P2. lia.
Qed.

Lemma analyzePatterns_peak_hour_witness :
  exists h,
    peak_hour (analyzePatterns Iso.utc [Sample.friday; Sample.tuesday])
    = JS.ofZ h /\ (0 <= h < 24)%Z.
Proof.
  destruct (analyzePatterns_peak_hour Iso.utc [Sample.friday; Sample.tuesday]
              ltac:(discriminate) fridayTuesday_parse)
    as [h [Hp [_ [Hh _]]]].
  exists h. split; assumption.
Defined.

(** ** analyzeOrderBehavior: the reordered items and the add-ons *)

Lemma addonStep_fold (orders : list Order) (d s : nat) :
  fold_left addonStep orders (d, s)
  = ((d + List.length (filter (hasAddon drinkKeywords) orders))%nat,
     (s + List.length (filter (hasAddon dessertKeywords) orders))%nat).
Proof.
  revert d s. induction orders as [|o os IH]; intros d s.
  - simpl. rewrite !Nat.add_0_r. reflexivity.
  - cbn [fold_left filter].
    assert (E : addonStep (d, s) o
                = (if hasAddon drinkKeywords o then S d else d,
                   if hasAddon dessertKeywords o then S s else s))
      by reflexivity.
    rewrite E, IH.
    destruct (hasAddon drinkKeywords o), (hasAddon dessertKeywords o);
      simpl; repeat (f_equal; try lia).
Qed.

(** Filtering the entries of an object keeps its keys distinct. *)
Lemma filter_keys_NoDup {V : Type} (keep : string * V -> bool) (o : obj V) :
  NoDup (map fst o) -> NoDup (map fst (filter keep o)).
Proof.
  intro Hnd. induction o as [|e r IH]; simpl; [constructor|].
  apply NoDup_cons_iff in Hnd. destruct Hnd as [Hn Hr].
  destruct (keep e); simpl; [|exact (IH Hr)].
  constructor; [|exact (IH Hr)].
  intro Hin. apply Hn. apply in_map_iff in Hin.
  destruct Hin as [y [Hy Hin]]. apply filter_In in Hin.
  rewrite <- Hy. apply in_map. tauto.
Qed.

(** X21.  [analyzeOrderBehavior]: [similar_items_frequency] holds at
    most ten entries, each an item name that occurs at least three times
    with its number of occurrences; no name with three occurrences that
    is left out occurs more often than a name kept, and with fewer than
    ten entries none is left out; for a non-empty list the drinks and
    the desserts percentage are numbers between 0 and 100. *)
Theorem analyzeOrderBehavior_reordered_items (orders : list Order) :
  let names := itemNames orders in
  let occ := count_occ string_dec names in
  let b := analyzeOrderBehavior orders in
  let sim := similar_items_frequency (reorder_patterns b) in
  (List.length sim <= 10)%nat /\
  (forall k v, In (k, v) sim -> v = JS.ofNat (occ k) /\ (3 <= occ k)%nat) /\
  (forall k k', In k (map fst sim) -> (3 <= occ k')%nat ->
                ~ In k' (map fst sim) -> (occ k' <= occ k)%nat) /\
  ((List.length sim < 10)%nat ->
   forall k, (3 <= occ k)%nat -> In k (map fst sim)) /\
  (orders <> [] ->
   exists dp sp,
     drinks_percentage (addon_frequency b) = JS.Fin dp /\
     0 <= dp /\ dp <= 100 /\
     desserts_percentage (addon_frequency b) = JS.Fin sp /\
     0 <= sp /\ sp <= 100).
Proof.
  intros names occ b sim.
  pose proof (countBy_counts names) as Hc.
  set (counts := Lodash.countBy (fun s => s) names) in *.
  set (es := filter (fun e : string * nat => (2 <? snd e)%nat) (entries counts)).
  assert (Hnd : NoDup (map fst es)).
  { apply filter_keys_NoDup.
    eapply Permutation_NoDup; [apply Permutation_map; apply entries_perm|].
    apply Hc. }
  assert (Hes : forall k v, In (k, v) es <-> v = occ k /\ (3 <= v)%nat).
  { intros k v. unfold es. rewrite filter_In. simpl. rewrite Nat.ltb_lt.
    split.
    - intros [Hin Hv].
      apply (Permutation_in _ (Permutation_sym (entries_perm counts))) in Hin.
      apply (proj2 Hc) in Hin. split; [tauto|lia].
    - intros [Hv H3]. split; [|lia].
      apply (Permutation_in _ (entries_perm counts)).
      apply (proj2 Hc). split; [exact Hv|lia]. }
  assert (Hsim : sim = mapValues JS.ofNat (firstn 10 (Arr.sort byCountDesc es))).
  { unfold sim, b, analyzeOrderBehavior.
    destruct (fold_left sizeStep orders (0, 0, 0)%nat) as [[sm md] lg].
    destruct (fold_left addonStep orders (0, 0)%nat) as [dr ds].
    cbn [reorder_patterns similar_items_frequency].
    unfold Arr.flatMap. fold (itemNames orders). fold names. fold counts.
    fold es. rewrite (fold_set_top es 10 Hnd). reflexivity. }
  destruct (top_entries_facts es 10 Hnd) as [Hlen [Hk [Hsub [Hmax _]]]].
  set (top := firstn 10 (Arr.sort byCountDesc es)) in *.
  assert (Hkeys : map fst sim = map fst top).
  { rewrite Hsim. unfold mapValues. rewrite map_map. reflexivity. }
  split; [|split; [|split; [|split]]].
  - rewrite Hsim. unfold mapValues. rewrite length_map, Hlen. lia.
  - intros k v Hin. rewrite Hsim in Hin. apply In_mapValues in Hin.
    destruct Hin as [c [Hin ->]]. apply Hsub, Hes in Hin.
    destruct Hin as [-> H3]. split; [reflexivity|exact H3].
  - intros k k' Hin H3 Hnot. rewrite Hkeys in Hin, Hnot.
    apply In_fst in Hin. destruct Hin as [v Hv].
    assert (Hv' := Hsub _ _ Hv). apply Hes in Hv'. destruct Hv' as [-> _].
    apply (Hmax k _ k' (occ k') Hv); [apply Hes; split; [reflexivity|exact H3]|].
    intro H. apply Hnot. apply In_fst. exists (occ k'). exact H.
  - intros Hlt k H3. rewrite Hkeys.
    rewrite Hsim in Hlt. unfold mapValues in Hlt. rewrite length_map, Hlen in Hlt.
    assert (Hall : top = Arr.sort byCountDesc es).
    { unfold top. apply firstn_all2. rewrite sort_length. lia. }
    rewrite Hall. apply In_fst. exists (occ k).
    apply (Permutation_in _ (sort_perm byCountDesc es)).
    apply Hes. split; [reflexivity|exact H3].
  - intro Hne.
    assert (Hn : List.length orders <> O)
      by (destruct orders; [congruence|discriminate]).
    destruct (percentage_bounds
                (List.length (filter (hasAddon drinkKeywords) orders))
                (List.length orders) (filter_length_le _ _) Hn)
      as [dp [Hdp [D0 [D100 _]]]].
    destruct (percentage_bounds
                (List.length (filter (hasAddon dessertKeywords) orders))
                (List.length orders) (filter_length_le _ _) Hn)
      as [sp [Hsp [S0 [S100 _]]]].
    exists dp, sp. unfold b, analyzeOrderBehavior.
    destruct (fold_left sizeStep orders (0, 0, 0)%nat) as [[sm md] lg].
    rewrite addonStep_fold.
    cbn [addon_frequency drinks_percentage desserts_percentage Nat.add].
    rewrite Hdp, Hsp. repeat split; assumption.
Qed.

(** ** analyzeTimePatterns: the breakdowns by day, quarter and month *)

(** What the loop [acc[key] = (acc[key] || 0) + total_value] leaves
    under each key: the sum over the orders with that key. *)
Lemma accumulate_lookup (key : Order -> string) (l : list Order) (qs : obj Q) :
  exists qs',
    fold_left (fun acc o => accumulate (key o) (totalValue o) acc) l
              (mapValues JS.Fin qs)
    = mapValues JS.Fin qs' /\
    (forall k, get k qs' = None <->
               get k qs = None /\ forall o, In o l -> key o <> k) /\
    (forall k q, get k qs' = Some q ->
                 q == amount qs k
                      + sumQ (map total_value (filter (inGroup key k) l))).
Proof.
  revert qs. induction l as [|o r IH]; intro qs; cbn [fold_left].
  - exists qs. split; [reflexivity|]. split.
    + intro k. split; [intro H; split; [exact H|intros o []]|tauto].
    + intros k q H. unfold amount. rewrite H. simpl. ring.
  - unfold accumulate at 2. rewrite get_mapValues.
    destruct (orZero_Fin (get (key o) qs)) as [q0 [Hq Hq']].
    rewrite Hq. unfold totalValue at 2. cbn [JS.add]. rewrite set_mapValues.
    destruct (IH (set (key o) (q0 + total_value o) qs))
      as [qs' [Hf [Hnone Hsome]]].
    exists qs'. split; [exact Hf|]. split.
    + intro k. rewrite Hnone. split.
      * intros [Hg Hr].
        destruct (string_dec k (key o)) as [->|Hne].
        -- rewrite get_set_same in Hg. discriminate.
        -- rewrite get_set_other in Hg by exact Hne. split; [exact Hg|].
           intros o' [<-|Ho']; [congruence|apply Hr; exact Ho'].
      * intros [Hg Hall].
        assert (Hne : k <> key o)
          by (intro E; apply (Hall o); [left; reflexivity|congruence]).
        rewrite get_set_other by exact Hne. split; [exact Hg|].
        intros o' Ho'. apply Hall. right. exact Ho'.
    + intros k q Hk. rewrite (Hsome k q Hk). unfold amount.
      cbn [filter]. unfold inGroup at 2.
      destruct (string_dec k (key o)) as [->|Hne].
      * rewrite get_set_same, String.eqb_refl. cbn [map sumQ fold_right].
        rewrite Hq'. fold (sumQ (map total_value
                                     (filter (inGroup key (key o)) r))).
        ring.
      * rewrite get_set_other by exact Hne.
        assert (E : String.eqb (key o) k = false)
          by (apply String.eqb_neq; congruence).
        rewrite E. reflexivity.
Qed.

Lemma sumQ_inject_nat (l : list nat) :
  sumQ (map (fun c => inject_Z (Z.of_nat c)) l)
  == inject_Z (Z.of_nat (list_sum l)).
Proof.
  induction l as [|c r IH]; simpl; [reflexivity|].
  rewrite IH, Nat2Z.inj_add, inject_Z_plus. reflexivity.
Qed.

Lemma weekday_name (rt : Runtime) (o : Order) :
  dateParses rt o ->
  In (dayNameKey (Date.getDay rt (Date.new rt (date o)))) Date.dayNames.
Proof.
  unfold dateParses, Date.getDay, Date.new.
  destruct (dateParse rt (date o)) as [u|]; [|congruence]. intros _.
  cbn [option_map dayNameKey].
  assert (H : (0 <= Date.WeekDay (Date.LocalTime rt u) < 7)%Z)
    by (unfold Date.WeekDay; apply Z.mod_pos_bound; lia).
  destruct (Date.WeekDay (Date.LocalTime rt u) <? 0)%Z eqn:E;
    [apply Z.ltb_lt in E; lia|].
  apply nth_In. simpl. lia.
Qed.

Lemma analyzeTimePatterns_fields (rt : Runtime) (l : list Order) :
  Forall (dateParses rt) l -> l <> [] ->
  exists t,
    analyzeTimePatterns rt l = Normal t /\
    spending_by_day_of_week t
    = fold_left
        (fun acc order =>
           accumulate (dayNameKey (Date.getDay rt (Date.new rt (date order))))
                      (totalValue order) acc) l [] /\
    seasonal_patterns t
    = fold_left (fun acc order => accumulate (quarterKey rt order)
                                             (totalValue order) acc) l [] /\
    order_frequency_trend t
    = mapValues JS.ofNat (Lodash.countBy (fun k => k) (map (isoMonthOf rt) l)).
Proof.
  intros H Hne. unfold analyzeTimePatterns.
  destruct (List.length l =? 0)%nat eqn:E0;
    [apply Nat.eqb_eq in E0; destruct l; [congruence|discriminate]|].
  apply Nat.eqb_neq in E0.
  unfold countByM. rewrite (mapM_isoMonthKey_valid rt l H). cbn [bind].
  destruct (fold_left gapStep (daysBetweenOrders rt l) (0, 0, 0, 0)%nat)
    as [[[sd ww] wm] om].
  destruct (0 <? List.length l / 2)%nat eqn:Em.
  - apply Nat.ltb_lt in Em.
    destruct (at_in_bounds l (List.length l / 2)) as [oM [HM _]];
      [apply Nat.div_lt; lia|].
    destruct (at_in_bounds l 0) as [oF [HF _]]; [lia|].
    destruct (at_in_bounds l (List.length l - 1)) as [oL [HL _]]; [lia|].
    rewrite HM, HF, HL. cbn [bind]. eexists. split; [reflexivity|].
    cbn. repeat split.
  - eexists. split; [reflexivity|]. cbn. repeat split.
Qed.

(** The breakdowns, by the keys of the code. *)
Lemma analyzeTimePatterns_by_code_key
  (rt : Runtime) (orders : list Order) :
  Forall (dateParses rt) orders -> orders <> [] ->
  let dayOf o := dayNameKey (Date.getDay rt (Date.new rt (date o))) in
  exists (t : TimeAnalytics) (byMonth : Q),
    analyzeTimePatterns rt orders = Normal t /\
    (forall k, get k (spending_by_day_of_week t) = None
               <-> forall o, In o orders -> dayOf o <> k) /\
    (forall k v, get k (spending_by_day_of_week t) = Some v ->
                 In k Date.dayNames /\
                 exists q, v = JS.Fin q /\
                           q == sumQ (map total_value
                                          (filter (inGroup dayOf k) orders))) /\
    (forall k, get k (seasonal_patterns t) = None
               <-> forall o, In o orders -> quarterKey rt o <> k) /\
    (forall k v, get k (seasonal_patterns t) = Some v ->
                 exists q, v = JS.Fin q /\
                           q == sumQ (map total_value
                                          (filter (inGroup (quarterKey rt) k)
                                                  orders))) /\
    Lodash.sum (values (order_frequency_trend t)) = JS.Fin byMonth /\
    byMonth == inject_Z (Z.of_nat (List.length orders)).
Proof.
  intros Hv Hne dayOf.
  destruct (analyzeTimePatterns_fields rt orders Hv Hne)
    as [t [Ht [Hday [Hseason Hmonth]]]].
  destruct (accumulate_lookup dayOf orders []) as [qd [Hqd [Hnd Hsd]]].
  destruct (accumulate_lookup (quarterKey rt) orders [])
    as [qq [Hqq [Hnq Hsq]]].
  change (mapValues JS.Fin []) with (@nil (string * JS.num)) in Hqd, Hqq.
  unfold obj in *.
  assert (Hday' : spending_by_day_of_week t = mapValues JS.Fin qd)
    by (rewrite Hday; exact Hqd).
  clear Hday Hqd.
  rewrite Hqq in Hseason.
  set (counts := Lodash.countBy (fun k => k) (map (isoMonthOf rt) orders)) in *.
  assert (Hm : exists byMonth,
             Lodash.sum (values (mapValues JS.ofNat counts)) = JS.Fin byMonth /\
             byMonth == inject_Z (Z.of_nat (List.length orders))).
  { unfold values. rewrite entries_mapValues. unfold mapValues.
    rewrite map_map. simpl.
    rewrite <- (map_map snd JS.ofNat).
    rewrite <- (map_map (fun c => inject_Z (Z.of_nat c)) JS.Fin).
    destruct (sum_Fin (map (fun c => inject_Z (Z.of_nat c))
                           (map snd (entries counts)))) as [m [Hs Hq]].
    exists m. split; [exact Hs|]. rewrite Hq, sumQ_inject_nat.
    assert (E : list_sum (map snd (entries counts))
                = List.length orders).
    { rewrite <- (length_map (isoMonthOf rt) orders).
      rewrite <- (countBy_total (fun k => k) (map (isoMonthOf rt) orders)).
      fold counts.
      assert (P : Permutation (map snd (entries counts)) (map snd counts))
        by (apply Permutation_map, Permutation_sym, entries_perm).
      clear - P. induction P; simpl; lia. }
    rewrite E. reflexivity. }
  destruct Hm as [byMonth [Hm1 Hm2]].
  assert (Hlook : forall (qs : list (string * Q)) k v,
             get k (mapValues JS.Fin qs) = Some v ->
             exists q, get k qs = Some q /\ v = JS.Fin q).
  { intros qs k v. rewrite get_mapValues.
    destruct (get k qs) as [q|]; [|discriminate].
    intro H. injection H as <-. exists q. split; reflexivity. }
  assert (Hmiss : forall (qs : list (string * Q)) k,
             get k (mapValues JS.Fin qs) = None <-> get k qs = None).
  { intros qs k. rewrite get_mapValues.
    destruct (get k qs); simpl; split; congruence. }
  exists t, byMonth. rewrite Hday', Hseason, Hmonth.
  split; [exact Ht|]. split.
  { intro k. rewrite Hmiss, Hnd. simpl. tauto. }
  split.
  { intros k v Hk. apply Hlook in Hk. destruct Hk as [q [Hq ->]]. split.
    - assert (Hin : exists o, In o orders /\ dayOf o = k).
      { destruct (in_dec string_dec k (map dayOf orders)) as [Hin|Hnin].
        - apply in_map_iff in Hin. destruct Hin as [o [E Ho]]. exists o.
          split; assumption.
        - exfalso. assert (Hn : get k qd = None).
          { apply Hnd. split; [reflexivity|]. intros o Ho E. apply Hnin.
            apply in_map_iff. exists o. split; assumption. }
          congruence. }
      destruct Hin as [o [Ho <-]]. apply weekday_name.
      rewrite Forall_forall in Hv. apply Hv. exact Ho.
    - exists q. split; [reflexivity|]. rewrite (Hsd k q Hq).
      unfold amount. simpl. ring. }
  split.
  { intro k. rewrite Hmiss, Hnq. simpl. tauto. }
  split.
  { intros k v Hk. apply Hlook in Hk. destruct Hk as [q [Hq ->]].
    exists q. split; [reflexivity|]. rewrite (Hsq k q Hq).
    unfold amount. simpl. ring. }
  split; [exact Hm1|exact Hm2].
Qed.

(** X22.  For a non-empty list of orders with valid dates:
    [spending_by_day_of_week] has an entry exactly for the days of the
    week on which an order falls, under the English name of the day,
    and the entry is the sum of [total_value] over the orders of that
    day, in their order; [seasonal_patterns] has the same for the
    quarters, under the year, [-Q] and the quarter of 1 to 4; and the
    entries of [order_frequency_trend], which are counts, add up to the
    number of orders. *)
Theorem analyzeTimePatterns_breakdowns_by_key
  (rt : Runtime) (orders : list Order) :
  Forall (dateParses rt) orders -> orders <> [] ->
  let dayOf o := weekdayName (weekdayOf rt o) in
  exists (t : TimeAnalytics) (byMonth : Q),
    analyzeTimePatterns rt orders = Normal t /\
    (forall k, get k (spending_by_day_of_week t) = None
               <-> forall o, In o orders -> dayOf o <> k) /\
    (forall k v, get k (spending_by_day_of_week t) = Some v ->
                 (exists w, (0 <= w <= 6)%Z /\ k = weekdayName w) /\
                 exists q, v = JS.Fin q /\
                           q == sumQ (map total_value
                                          (filter (inGroup dayOf k) orders))) /\
    (forall k, get k (seasonal_patterns t) = None
               <-> forall o, In o orders -> quarterLabel rt o <> k) /\
    (forall k v, get k (seasonal_patterns t) = Some v ->
                 exists q, v = JS.Fin q /\
                           q == sumQ (map total_value
                                          (filter (inGroup (quarterLabel rt) k)
                                                  orders))) /\
    Lodash.sum (values (order_frequency_trend t)) = JS.Fin byMonth /\
    byMonth == inject_Z (Z.of_nat (List.length orders)).
Proof.
  intros Hv Hne dayOf.
  destruct (analyzeTimePatterns_by_code_key rt orders Hv Hne)
    as [t [byMonth [Ht [Hdn [Hds [Hqn [Hqs [Hm Hm']]]]]]]].
  exists t, byMonth. split; [exact Ht|].
  assert (Hlabel : forall o,
             dayNameKey (Date.getDay rt (Date.new rt (date o))) = dayOf o)
    by (intro o; apply dayNameKey_label).
  split.
  { intro k. rewrite Hdn. split; intros H o Ho.
    - rewrite <- Hlabel. apply H. exact Ho.
    - rewrite Hlabel. apply H. exact Ho. }
  split.
  { intros k v Hk. destruct (Hds k v Hk) as [_ [q [Hq Hq']]]. split.
    - assert (Hin : exists o, In o orders /\ dayOf o = k).
      { destruct (in_dec string_dec k (map dayOf orders)) as [Hin|Hnin].
        - apply in_map_iff in Hin. destruct Hin as [o [E Ho]]. exists o.
          split; assumption.
        - exfalso.
          assert (Hn : get k (spending_by_day_of_week t) = None).
          { apply Hdn. intros o Ho E. apply Hnin. apply in_map_iff.
            exists o. split; [rewrite <- Hlabel; exact E|exact Ho]. }
          congruence. }
      destruct Hin as [o [Ho <-]]. exists (weekdayOf rt o).
      split; [|reflexivity].
      destruct (weekdayOf_range rt o) as [Hr Hp].
      rewrite Forall_forall in Hv. specialize (Hp (Hv o Ho)). lia.
    - exists q. split; [exact Hq|]. rewrite Hq'.
      rewrite (filter_inGroup_ext _ dayOf k orders Hlabel). reflexivity. }
  split.
  { intro k. rewrite Hqn. split; intros H o Ho.
    - rewrite <- quarterKey_label. apply H. exact Ho.
    - rewrite quarterKey_label. apply H. exact Ho. }
  split; [|split; assumption].
  intros k v Hk. destruct (Hqs k v Hk) as [q [Hq Hq']].
  exists q. split; [exact Hq|]. rewrite Hq'.
  rewrite (filter_inGroup_ext _ (quarterLabel rt) k orders
             (quarterKey_label rt)).
  reflexivity.
Qed.

Lemma analyzeTimePatterns_breakdowns_witness :
  exists (t : TimeAnalytics) (byMonth : Q),
    analyzeTimePatterns Iso.utc [Sample.friday; Sample.tuesday] = Normal t /\
    (forall k v, get k (spending_by_day_of_week t) = Some v ->
                 exists w, (0 <= w <= 6)%Z /\ k = weekdayName w) /\
    Lodash.sum (values (order_frequency_trend t)) = JS.Fin byMonth /\
    byMonth == 2.
Proof.
  destruct (analyzeTimePatterns_breakdowns_by_key
              Iso.utc [Sample.friday; Sample.tuesday]
              fridayTuesday_parse ltac:(discriminate))
    as [t [m [Ht [_ [Hd [_ [_ [Hm Hm']]]]]]]].
  exists t, m. split; [exact Ht|]. split; [|split; assumption].
  intros k v Hk. exact (proj1 (Hd k v Hk)).
Defined.

(** ** A single delivered order *)

(** X23.  When exactly one order survives the status filter and
    [analyze] returns: the date of that order parses; the diversity
    facet is all zero and empty; the average gap and the ordering
    acceleration are 0; the predictive facet is the fallback (forecast
    the average order value, stable, 0 percent, 7 days, twelve times the
    total per year); total, average and median are the order's
    [total_value]; the top restaurant is the order's, at 100 percent,
    Super Loyal; the lifetime value is total / 30 * 365; and the churn
    risk is 20. *)
Theorem analyze_single_order (rt : Runtime) (orders : list Order) (o : Order)
        (x : FullAnalytics) :
  filter isDelivered orders = [o] ->
  analyze rt orders = Normal x ->
  dateParse rt (date o) <> None /\
  diversity x =
    {| cuisine_switching_rate := JS.Fin 0; new_restaurants_per_month := [];
       restaurant_discovery_rate := JS.Fin 0;
       cuisine_preference_evolution := []; variety_score := JS.Fin 0 |} /\
  average_days_between_orders (timeAnalysis x) = JS.Fin 0 /\
  ordering_acceleration (timeAnalysis x) = JS.Fin 0 /\
  predictive x =
    {| forecasted_monthly_spending := average_order_value (spending x);
       spending_trend := stable; trend_percentage := JS.Fin 0;
       predicted_next_order_days := JS.Fin 7;
       estimated_annual_spending :=
         JS.mul (total_spent (spending x)) (JS.Fin 12) |} /\
  total_spent (spending x) = JS.Fin (total_value o) /\
  JS.same (average_order_value (spending x)) (JS.Fin (total_value o)) /\
  JS.same (median_order_value (spending x)) (JS.Fin (total_value o)) /\
  top_restaurant (loyalty_analysis (restaurants x)) = restaurant_name o /\
  JS.same (top_restaurant_percentage (loyalty_analysis (restaurants x)))
          (JS.Fin 100) /\
  level (loyalty_analysis (restaurants x)) = "Super Loyal" /\
  JS.same (customer_lifetime_value (advanced x))
          (JS.Fin (total_value o / 30 * 365)) /\
  churn_risk_score (advanced x) = JS.Fin 20.
Proof.
  intros Hf Hx.
  assert (Hne : filter isDelivered orders <> []) by (rewrite Hf; discriminate).
  pose proof (analyze_normal_dates rt orders x Hx) as Hv.
  destruct (analyze_facets rt orders x Hne Hx)
    as [Hs [Hr [_ [_ [_ [Hd [Ht [Hp [_ Ha]]]]]]]]].
  rewrite Hf in *. inversion Hv as [|? ? Ho _]; subst.
  change (Arr.sort (Arr.byNumber (orderTime rt)) [o]) with [o] in *.
  split; [exact Ho|].
  assert (Hd' : analyzeDiversity rt [o]
                = Normal {| cuisine_switching_rate := JS.Fin 0;
                            new_restaurants_per_month := [];
                            restaurant_discovery_rate := JS.Fin 0;
                            cuisine_preference_evolution := [];
                            variety_score := JS.Fin 0 |}) by reflexivity.
  rewrite Hd' in Hd. injection Hd as Hd.
  split; [symmetry; exact Hd|].
  assert (Hta : average_days_between_orders (timeAnalysis x) = JS.Fin 0 /\
                ordering_acceleration (timeAnalysis x) = JS.Fin 0).
  { unfold analyzeTimePatterns in Ht.
    change (List.length [o] =? 0)%nat with false in Ht. cbv iota in Ht.
    unfold countByM in Ht. rewrite (mapM_isoMonthKey_valid rt [o] Hv) in Ht.
    cbn [bind] in Ht. cbn in Ht. injection Ht as <-. split; reflexivity. }
  destruct Hta as [Hta1 Hta2].
  split; [exact Hta1|]. split; [exact Hta2|].
  assert (Hp' : predictive x
                = {| forecasted_monthly_spending :=
                       average_order_value (spending x);
                     spending_trend := stable; trend_percentage := JS.Fin 0;
                     predicted_next_order_days := JS.Fin 7;
                     estimated_annual_spending :=
                       JS.mul (total_spent (spending x)) (JS.Fin 12) |}).
  { unfold analyzePredictive in Hp.
    change (List.length [o] <? 2)%nat with true in Hp. cbv iota in Hp.
    injection Hp as <-. reflexivity. }
  split; [exact Hp'|].
  assert (Htot : total_spent (spending x) = JS.Fin (total_value o))
    by (rewrite Hs; reflexivity).
  split; [exact Htot|].
  split.
  { rewrite Hs. unfold analyzeSpending. cbn [average_order_value].
    cbn. unfold Qdiv. field. }
  split.
  { rewrite Hs. unfold analyzeSpending. cbn [median_order_value].
    cbn. reflexivity. }
  assert (Hcounts : Lodash.countBy restaurant_name [o]
                    = [(restaurant_name o, 1%nat)]) by reflexivity.
  assert (Htop : getTopN [(restaurant_name o, 1%nat)] 10
                 = [(restaurant_name o, 1%nat)]).
  { rewrite getTopN_firstn by (repeat constructor; intros []).
    assert (He : entries [(restaurant_name o, 1%nat)]
                 = [(restaurant_name o, 1%nat)]).
    { apply Permutation_length_1_inv. apply entries_perm. }
    rewrite He. reflexivity. }
  assert (Hkeys : keys [(restaurant_name o, 1%nat)] = [restaurant_name o]).
  { unfold keys.
    assert (He : entries [(restaurant_name o, 1%nat)]
                 = [(restaurant_name o, 1%nat)]).
    { apply Permutation_length_1_inv. apply entries_perm. }
    rewrite He. reflexivity. }
  assert (Hla : loyalty_analysis (restaurants x)
                = {| level := "Super Loyal";
                     la_description := "You have a favorite place";
                     top_restaurant := restaurant_name o;
                     top_restaurant_percentage :=
                       JS.Fin (inject_Z 1 / inject_Z 1 * 100) |}).
  { rewrite Hr. unfold analyzeRestaurants. rewrite Hcounts, Htop, Hkeys.
    cbn [hd get]. rewrite String.eqb_refl. reflexivity. }
  rewrite Hla. cbn [top_restaurant top_restaurant_percentage level].
  split; [reflexivity|]. split; [reflexivity|]. split; [reflexivity|].
  unfold analyzeAdvancedMetrics in Ha.
  change (1 <? List.length [o])%nat with false in Ha. cbv iota in Ha.
  cbn [bind] in Ha. injection Ha as <-.
  cbn [customer_lifetime_value churn_risk_score]. rewrite Htot, Hta2.
  split; [|reflexivity].
  cbn. reflexivity.
Qed.

Lemma analyze_single_order_witness :
  exists x,
    analyze Iso.utc [Sample.friday; Sample.undatedCancelled] = Normal x /\
    predicted_next_order_days (predictive x) = JS.Fin 7 /\
    top_restaurant (loyalty_analysis (restaurants x)) = "A" /\
    total_spent (spending x) = JS.Fin 300.
Proof.
  assert (Hf : filter isDelivered [Sample.friday; Sample.undatedCancelled]
               = [Sample.friday]) by reflexivity.
  assert (Hv : Forall (dateParses Iso.utc)
                 (filter isDelivered [Sample.friday; Sample.undatedCancelled]))
    by (rewrite Hf; repeat constructor; unfold dateParses; vm_compute;
        discriminate).
  destruct (analyze_normal_when_valid
              Iso.utc [Sample.friday; Sample.undatedCancelled] Hv) as [x Hx].
  destruct (analyze_single_order
              Iso.utc [Sample.friday; Sample.undatedCancelled] Sample.friday
              x Hf Hx)
    as [_ [_ [_ [_ [Hp [Ht [_ [_ [Hr _]]]]]]]]].
  exists x. split; [exact Hx|]. rewrite Hp. repeat split; assumption.
Defined.

(** ** The favourite restaurant, seen by two facets *)

Lemma restaurants_top_explicit (orders : list Order) :
  orders <> [] ->
  let names := map restaurant_name orders in
  let occ := count_occ string_dec names in
  exists name,
    top_restaurant (loyalty_analysis (analyzeRestaurants orders)) = name /\
    In name names /\
    top_restaurant_percentage (loyalty_analysis (analyzeRestaurants orders))
    = JS.mul (JS.div (JS.ofNat (occ name)) (JS.ofNat (List.length orders)))
             num100 /\
    ((forall k, In k names -> Str.arrayIndex k = None) ->
     forall k, (occ k <= occ name)%nat).
Proof.
  intros Hne names occ.
  pose proof (countBy_counts_of restaurant_name orders) as Hc.
  fold names in Hc.
  set (counts := Lodash.countBy restaurant_name orders) in *.
  destruct (getTopN_facts counts 10 (proj1 Hc)) as [Hlen [Hnd [Hsub [Hmax _]]]].
  set (top := getTopN counts 10) in *.
  assert (Hcne : List.length counts <> O).
  { rewrite (counts_of_length names counts Hc).
    destruct orders as [|o os]; [congruence|].
    assert (Hin : In (restaurant_name o) (nodup string_dec names))
      by (apply nodup_In; left; reflexivity).
    destruct (nodup string_dec names); [destruct Hin|discriminate]. }
  assert (Hkne : keys top <> []).
  { intro E. apply (f_equal (@List.length string)) in E.
    rewrite keys_length, Hlen in E. cbn [List.length] in E. lia. }
  destruct (keys top) as [|name ks] eqn:Ek; [congruence|].
  assert (Hname : In name (map fst top)).
  { apply keys_In. rewrite Ek. left. reflexivity. }
  apply In_fst in Hname. destruct Hname as [c Hc_in].
  pose proof (In_get name c top Hnd Hc_in) as Hget.
  pose proof (proj1 (proj2 Hc name c) (Hsub _ _ Hc_in)) as [Hcv Hpos].
  exists name.
  assert (Hforms : top_restaurant (loyalty_analysis (analyzeRestaurants orders))
                   = name /\
                   top_restaurant_percentage
                     (loyalty_analysis (analyzeRestaurants orders))
                   = JS.mul (JS.div (JS.ofNat c)
                                    (JS.ofNat (List.length orders))) num100).
  { unfold analyzeRestaurants. fold counts. fold top. rewrite Ek.
    cbn [hd]. rewrite Hget.
    destruct (JS.gt _ _); [split; reflexivity|].
    destruct (JS.gt _ _); split; reflexivity. }
  destruct Hforms as [H1 H2].
  split; [exact H1|].
  split; [apply (count_occ_In string_dec); rewrite <- Hcv; lia|].
  split; [rewrite H2; unfold occ; rewrite <- Hcv; reflexivity|].
  intros Hidx k.
  assert (Hkeys : forall k, In k (map fst counts) <-> In k names)
    by (intro k0; apply counts_of_keys; exact Hc).
  assert (He : entries counts = counts).
  { apply entries_names. intros k0 Hk0. apply Hidx. apply Hkeys. exact Hk0. }
  pose proof (getTopN_firstn counts 10 (proj1 Hc)) as Htop. rewrite He in Htop.
  fold top in Htop.
  assert (Hke : keys top = map fst top).
  { unfold keys. rewrite entries_names; [reflexivity|].
    intros k0 Hk0. apply Hidx. apply Hkeys.
    apply In_fst in Hk0. destruct Hk0 as [v Hv]. apply In_fst. exists v.
    apply Hsub. exact Hv. }
  pose proof (sorted_byCountDesc counts) as Hs.
  pose proof (sort_perm byCountDesc counts) as Hp.
  destruct (Arr.sort byCountDesc counts) as [|[fav cf] rest] eqn:Es.
  { apply Permutation_sym, Permutation_nil in Hp. rewrite Hp in Hcne.
    simpl in Hcne. congruence. }
  rewrite Hke, Htop in Ek. simpl in Ek. injection Ek as Ek _. subst fav.
  assert (Hcf : cf = c).
  { assert (H : In (name, cf) counts)
      by (apply (Permutation_in _ (Permutation_sym Hp)); left; reflexivity).
    apply (proj2 Hc) in H. destruct H as [-> _]. exact (eq_sym Hcv). }
  subst cf.
  destruct (in_dec string_dec k names) as [Hk|Hk].
  - assert (Hk' : In (k, occ k) counts).
    { apply (proj2 Hc). split; [reflexivity|].
      apply (count_occ_In string_dec). exact Hk. }
    apply (Permutation_in _ Hp) in Hk'. destruct Hk' as [Hk'|Hk'].
    + injection Hk' as -> _. lia.
    + apply StronglySorted_inv in Hs. destruct Hs as [_ Hall].
      rewrite Forall_forall in Hall. specialize (Hall _ Hk'). simpl in Hall.
      unfold occ at 2. rewrite <- Hcv. exact Hall.
  - apply (count_occ_not_In string_dec) in Hk. unfold occ. rewrite Hk. lia.
Qed.

Lemma percentage_mono (a b n : nat) :
  (a <= b)%nat -> n <> O ->
  JS.le (JS.mul (JS.div (JS.ofNat a) (JS.ofNat n)) num100)
        (JS.mul (JS.div (JS.ofNat b) (JS.ofNat n)) num100) = true.
Proof.
  intros Hab Hn. unfold JS.ofNat at 1 3. rewrite !div_ofNat by exact Hn.
  unfold JS.mul, num100, JS.le, JS.lt, JS.eq.
  destruct (Nat.eq_dec a b) as [->|Hneq].
  - apply orb_true_iff. right. apply Qeq_bool_iff. reflexivity.
  - apply orb_true_iff. left. apply Qltb_true.
    apply Qmult_lt_r; [reflexivity|].
    apply Qmult_lt_r.
    + apply Qinv_lt_0_compat. apply inject_nat_pos. exact Hn.
    + rewrite <- Zlt_Qlt. lia.
Qed.

(** X24.  In a result of [analyze] with a surviving order, the loyalty
    facet's [top_restaurant_percentage] is at most the advanced facet's
    [exploitation_percentage], and the two are equal when no surviving
    order has a restaurant name that is an array-index string; and
    [deal_dependency_ratio] is the [voucher_usage_rate]. *)
Theorem analyze_favourite_share_consistent
  (rt : Runtime) (orders : list Order) (x : FullAnalytics) :
  analyze rt orders = Normal x ->
  filter isDelivered orders <> [] ->
  let top := top_restaurant_percentage (loyalty_analysis (restaurants x)) in
  let exploit :=
    exploitation_percentage (exploration_vs_exploitation (advanced x)) in
  JS.le top exploit = true /\
  ((forall o, In o (filter isDelivered orders) ->
              Str.arrayIndex (restaurant_name o) = None) ->
   top = exploit) /\
  deal_dependency_ratio (advanced x) = voucher_usage_rate (spending x).
Proof.
  intros Hx Hne top exploit.
  destruct (analyze_facets rt orders x Hne Hx)
    as [_ [Hr [_ [_ [_ [_ [_ [_ [_ Ha]]]]]]]]].
  set (delivered := filter isDelivered orders) in *.
  set (sorted := Arr.sort (Arr.byNumber (orderTime rt)) delivered) in *.
  assert (Hp : Permutation delivered sorted) by apply sort_perm.
  assert (Hsne : sorted <> []).
  { intro E. rewrite E in Hp. apply Permutation_sym, Permutation_nil in Hp.
    exact (Hne Hp). }
  destruct (advanced_exploitation_explicit rt sorted (restaurants x)
              (timeAnalysis x) (spending x) Hsne)
    as [a [fav [Ha' [Hfav [Hmax [He [_ [_ Hdeal]]]]]]]].
  rewrite Ha in Ha'. injection Ha' as <-.
  destruct (restaurants_top_explicit delivered Hne)
    as [name [_ [Hname [Hpct Hbest]]]].
  assert (Hocc : forall k,
             count_occ string_dec (map restaurant_name sorted) k
             = count_occ string_dec (map restaurant_name delivered) k).
  { intro k. symmetry. revert k. apply (Permutation_count_occ string_dec).
    apply Permutation_map. exact Hp. }
  assert (Hlen : List.length sorted = List.length delivered)
    by (symmetry; apply Permutation_length; exact Hp).
  assert (Hn : List.length delivered <> O)
    by (destruct delivered; [congruence|discriminate]).
  unfold top, exploit. rewrite Hr, Hpct, He, Hlen, !Hocc.
  split; [|split; [|exact Hdeal]].
  - apply percentage_mono; [|exact Hn]. rewrite <- !Hocc. apply Hmax.
  - intro Hidx.
    assert (Hnames : forall k, In k (map restaurant_name delivered) ->
                               Str.arrayIndex k = None).
    { intros k Hk. apply in_map_iff in Hk. destruct Hk as [o [<- Ho]].
      apply Hidx. exact Ho. }
    specialize (Hbest Hnames).
    assert (E : count_occ string_dec (map restaurant_name delivered) name
                = count_occ string_dec (map restaurant_name delivered) fav).
    { apply Nat.le_antisymm; [rewrite <- !Hocc; apply Hmax|apply Hbest]. }
    rewrite E. reflexivity.
Qed.

Lemma analyze_favourite_share_witness :
  exists x,
    analyze Iso.utc [Sample.friday; Sample.tuesday] = Normal x /\
    top_restaurant_percentage (loyalty_analysis (restaurants x))
    = exploitation_percentage (exploration_vs_exploitation (advanced x)).
Proof.
  destruct (analyze_normal_when_valid Iso.utc [Sample.friday; Sample.tuesday]
              fridayTuesday_parse) as [x Hx].
  exists x. split; [exact Hx|].
  apply (proj1 (proj2 (analyze_favourite_share_consistent
                         Iso.utc [Sample.friday; Sample.tuesday] x Hx
                         ltac:(discriminate)))).
  intros o [<-|[<-|[]]]; reflexivity.
Defined.
